(** * Event-Next: slug, time and date normalisation, and the save hooks

    Shallow embedding of the Event model ([generateSlug], [normalizeTime],
    [normalizeDate], [eventSchema] and its [pre('save')] hook) and of the
    Booking model ([EMAIL_RE], [bookingSchema] and its [pre('save')] hook,
    [database/booking.model.ts]).

    Conventions of the embedding.
    - A JavaScript string is a [string]; a character stands for the
      UTF-16 code unit of the same number, so the strings covered are
      those whose code units lie in U+0000..U+00FF.
    - A function that may [throw] returns a [result]: [Ok v] for a normal
      return and [Err msg] for [throw new Error(msg)].
    - [new Date(s)] follows the ECMAScript date-time string format as V8,
      the engine of Node.js, implements it.  The offset of local time from
      UTC and V8's fallback for other strings are variables of the
      development: the first depends on the machine, the second is a
      heuristic of the engine.
    - A document is a record of its attributes after the setters of the
      schema have run, with the list of the paths that are modified. *)

From Stdlib Require Import ZArith List String Ascii Bool Lia.
Import ListNotations.

Local Open Scope string_scope.
Local Open Scope Z_scope.

(** ** Results of code that may throw *)

Inductive result (A : Type) : Type :=
| Ok (v : A)
| Err (msg : string).
Arguments Ok {A} v.
Arguments Err {A} msg.

Definition bind {A B : Type} (r : result A) (k : A -> result B) : result B :=
  match r with
  | Ok v => k v
  | Err msg => Err msg
  end.

Notation "x <- r ;; k" := (bind r (fun x => k))
  (at level 61, r at next level, right associativity).

Definition isOk {A : Type} (r : result A) : bool :=
  match r with Ok _ => true | Err _ => false end.

(** ** JavaScript strings *)

Module JS.

Definition code (c : ascii) : Z := Z.of_N (N_of_ascii c).

Definition charOf (n : Z) : ascii := ascii_of_N (Z.to_N n).

Definition between (lo hi : Z) (c : ascii) : bool :=
  (lo <=? code c) && (code c <=? hi).

(** [\d] *)
Definition isDigit (c : ascii) : bool := between 48 57 c.

(** [[a-z0-9]] *)
Definition isLowerAlnum (c : ascii) : bool := between 97 122 c || isDigit c.

(** [[A-Z]] *)
Definition isUpper (c : ascii) : bool := between 65 90 c.

(** [\s], and the characters [trim] removes: TAB, LF, VT, FF, CR, SP and
    NBSP are the white space and line terminators below U+0100. *)
Definition isWhiteSpace (c : ascii) : bool :=
  between 9 13 c || (code c =? 32) || (code c =? 160).

(** [String.prototype.toLowerCase], one code unit at a time: A-Z, and the
    Latin-1 capitals U+00C0..U+00DE but the multiplication sign U+00D7. *)
Definition toLowerChar (c : ascii) : ascii :=
  if isUpper c || (between 192 222 c && negb (code c =? 215))
  then charOf (code c + 32)
  else c.

Fixpoint toLowerCase (s : string) : string :=
  match s with
  | EmptyString => EmptyString
  | String c s' => String (toLowerChar c) (toLowerCase s')
  end.

Fixpoint trimStart (s : string) : string :=
  match s with
  | EmptyString => EmptyString
  | String c s' => if isWhiteSpace c then trimStart s' else s
  end.

Fixpoint trimEnd (s : string) : string :=
  match s with
  | EmptyString => EmptyString
  | String c s' =>
      match trimEnd s' with
      | EmptyString => if isWhiteSpace c then EmptyString else String c EmptyString
      | r => String c r
      end
  end.

(** [String.prototype.trim] *)
Definition trim (s : string) : string := trimEnd (trimStart s).

Definition isEmpty (s : string) : bool :=
  match s with EmptyString => true | _ => false end.

Fixpoint allChars (p : ascii -> bool) (s : string) : bool :=
  match s with
  | EmptyString => true
  | String c s' => p c && allChars p s'
  end.

Definition firstChar (s : string) : option ascii :=
  match s with EmptyString => None | String c _ => Some c end.

Fixpoint lastChar (s : string) : option ascii :=
  match s with
  | EmptyString => None
  | String c EmptyString => Some c
  | String _ s' => lastChar s'
  end.

(** [Array.prototype.join] *)
Fixpoint join (sep : string) (l : list string) : string :=
  match l with
  | [] => ""
  | [w] => w
  | w :: l' => w ++ sep ++ join sep l'
  end.

End JS.

(** ** [generateSlug] *)

Definition hyphen : ascii := "-"%char.

Definition isHyphen (c : ascii) : bool := Ascii.eqb c hyphen.

(** [.replace(/[^a-z0-9]+/g, '-')]: the scan copies the characters of
    [[a-z0-9]] and writes one hyphen at the first character of every run of
    other characters; [inRun] tells that the previous character belonged to
    such a run. *)
Fixpoint replaceRuns (inRun : bool) (s : string) : string :=
  match s with
  | EmptyString => EmptyString
  | String c s' =>
      if JS.isLowerAlnum c then String c (replaceRuns false s')
      else if inRun then replaceRuns true s'
      else String hyphen (replaceRuns true s')
  end.

(** The alternative [^-+] of [/^-+|-+$/g]. *)
Fixpoint dropLeadingHyphens (s : string) : string :=
  match s with
  | EmptyString => EmptyString
  | String c s' => if isHyphen c then dropLeadingHyphens s' else s
  end.

(** The alternative [-+$] of [/^-+|-+$/g]. *)
Fixpoint dropTrailingHyphens (s : string) : string :=
  match s with
  | EmptyString => EmptyString
  | String c s' =>
      match dropTrailingHyphens s' with
      | EmptyString => if isHyphen c then EmptyString else String c EmptyString
      | r => String c r
      end
  end.

(** [.replace(/^-+|-+$/g, '')] *)
Definition stripHyphens (s : string) : string :=
  dropTrailingHyphens (dropLeadingHyphens s).

Definition generateSlug (value : string) : string :=
  stripHyphens (replaceRuns false (JS.trim (JS.toLowerCase value))).

(** The words of a string: its maximal runs of characters of [[a-z0-9]], in
    order; [cur] is what has been read of the current word.  This is the
    reading of the slug the specification gives; it is compared with
    [generateSlug] below. *)
Definition flushWord (cur : string) : list string :=
  match cur with
  | EmptyString => []
  | _ => [cur]
  end.

Fixpoint alnumWords (cur : string) (s : string) : list string :=
  match s with
  | EmptyString => flushWord cur
  | String c s' =>
      if JS.isLowerAlnum c then alnumWords (cur ++ String c EmptyString) s'
      else flushWord cur ++ alnumWords "" s'
  end.

Definition slugOfWords (title : string) : string :=
  JS.join "-" (alnumWords "" (JS.toLowerCase title)).

Definition slugChar (c : ascii) : bool := JS.isLowerAlnum c || isHyphen c.

Definition headIsHyphen (s : string) : bool :=
  match s with
  | String c _ => isHyphen c
  | EmptyString => false
  end.

(** Two hyphens side by side. *)
Fixpoint hasDoubleHyphen (s : string) : bool :=
  match s with
  | String c ((String d _) as s') => (isHyphen c && isHyphen d) || hasDoubleHyphen s'
  | _ => false
  end.

(** ** Numbers and digits *)

Module Num.

Definition digitVal (c : ascii) : Z := JS.code c - 48.

Definition digitChar (d : Z) : ascii := JS.charOf (48 + d).

(** [Number(s)] for a string of decimal digits. *)
Fixpoint numValFrom (acc : Z) (s : string) : Z :=
  match s with
  | EmptyString => acc
  | String c s' => numValFrom (10 * acc + digitVal c) s'
  end.

Definition Number (s : string) : Z := numValFrom 0 s.

(** The decimal digits of [n], most significant first, written before
    [acc]; at most [fuel] digits are produced. *)
Fixpoint decimalFrom (fuel : nat) (n : Z) (acc : string) : string :=
  match fuel with
  | O => acc
  | S fuel' =>
      let acc' := String (digitChar (n mod 10)) acc in
      if n / 10 =? 0 then acc' else decimalFrom fuel' (n / 10) acc'
  end.

(** [String(n)] for an integer [n >= 0]: a number below [2^k] has at most
    [k] decimal digits. *)
Definition toString (n : Z) : string :=
  decimalFrom (S (Z.to_nat (Z.log2 n))) n "".

(** [s.padStart(2, '0')] *)
Definition padStart2 (s : string) : string :=
  match s with
  | EmptyString => "00"
  | String c EmptyString => String "0"%char s
  | _ => s
  end.

(** Exactly [w] decimal digits of [n], the low ones. *)
Fixpoint fixedDigits (w : nat) (n : Z) (acc : string) : string :=
  match w with
  | O => acc
  | S w' => fixedDigits w' (n / 10) (String (digitChar (n mod 10)) acc)
  end.

(** The longest prefix of digits, and what follows it. *)
Fixpoint spanDigits (s : string) : string * string :=
  match s with
  | EmptyString => (EmptyString, EmptyString)
  | String c s' =>
      if JS.isDigit c
      then let (ds, r) := spanDigits s' in (String c ds, r)
      else (EmptyString, s)
  end.

(** A number token of exactly [n] digits: the digits of the string up to
    the first character that is not one. *)
Definition fixedNumber (n : nat) (s : string) : option (Z * string) :=
  let (ds, r) := spanDigits s in
  if Nat.eqb (String.length ds) n then Some (Number ds, r) else None.

(** A number token of any length, with its digits. *)
Definition anyNumber (s : string) : option (string * string) :=
  let (ds, r) := spanDigits s in
  if JS.isEmpty ds then None else Some (ds, r).

End Num.

(** ** Time values of ECMAScript [Date] objects

    A time value is a number of milliseconds since 1970-01-01T00:00:00Z.
    The definitions are those of the ECMAScript specification, section
    "Time Values and Time Range" and following. *)

Module JSDate.

Definition msPerSecond : Z := 1000.
Definition msPerMinute : Z := 60000.
Definition msPerHour : Z := 3600000.
Definition msPerDay : Z := 86400000.

Definition Day (t : Z) : Z := t / msPerDay.
Definition TimeWithinDay (t : Z) : Z := t mod msPerDay.

Definition HourFromTime (t : Z) : Z := (t / msPerHour) mod 24.
Definition MinFromTime (t : Z) : Z := (t / msPerMinute) mod 60.
Definition SecFromTime (t : Z) : Z := (t / msPerSecond) mod 60.
Definition msFromTime (t : Z) : Z := t mod msPerSecond.

Definition isLeap (y : Z) : bool :=
  (y mod 4 =? 0) && (negb (y mod 100 =? 0) || (y mod 400 =? 0)).

Definition DaysInYear (y : Z) : Z := if isLeap y then 366 else 365.

Definition DayFromYear (y : Z) : Z :=
  365 * (y - 1970) + (y - 1969) / 4 - (y - 1901) / 100 + (y - 1601) / 400.

(** The year of a day number: the largest [y] with [DayFromYear y <= d].
    The quotient by the mean length of a year is at most one off. *)
Definition YearFromDay (d : Z) : Z :=
  let y0 := 1970 + (400 * d) / 146097 in
  if d <? DayFromYear y0 then y0 - 1
  else if DayFromYear (y0 + 1) <=? d then y0 + 1
  else y0.

Definition YearFromTime (t : Z) : Z := YearFromDay (Day t).

(** The number of days of the year before month [m] (0 for January). *)
Definition daysBeforeMonth (leap : bool) (m : Z) : Z :=
  let l := if leap then 1 else 0 in
  if m <=? 0 then 0
  else if m =? 1 then 31
  else if m =? 2 then 59 + l
  else if m =? 3 then 90 + l
  else if m =? 4 then 120 + l
  else if m =? 5 then 151 + l
  else if m =? 6 then 181 + l
  else if m =? 7 then 212 + l
  else if m =? 8 then 243 + l
  else if m =? 9 then 273 + l
  else if m =? 10 then 304 + l
  else if m =? 11 then 334 + l
  else 365 + l.

Definition DayWithinYear (t : Z) : Z := Day t - DayFromYear (YearFromTime t).

Definition monthOfDayWithinYear (leap : bool) (dwy : Z) : Z :=
  if dwy <? daysBeforeMonth leap 1 then 0
  else if dwy <? daysBeforeMonth leap 2 then 1
  else if dwy <? daysBeforeMonth leap 3 then 2
  else if dwy <? daysBeforeMonth leap 4 then 3
  else if dwy <? daysBeforeMonth leap 5 then 4
  else if dwy <? daysBeforeMonth leap 6 then 5
  else if dwy <? daysBeforeMonth leap 7 then 6
  else if dwy <? daysBeforeMonth leap 8 then 7
  else if dwy <? daysBeforeMonth leap 9 then 8
  else if dwy <? daysBeforeMonth leap 10 then 9
  else if dwy <? daysBeforeMonth leap 11 then 10
  else 11.

Definition MonthFromTime (t : Z) : Z :=
  monthOfDayWithinYear (isLeap (YearFromTime t)) (DayWithinYear t).

Definition DateFromTime (t : Z) : Z :=
  DayWithinYear t
  - daysBeforeMonth (isLeap (YearFromTime t)) (MonthFromTime t) + 1.

(** [MakeDay(year, month, date)] for a month in 0..11. *)
Definition MakeDay (year month date : Z) : Z :=
  DayFromYear year + daysBeforeMonth (isLeap year) month + date - 1.

Definition MakeTime (hour min sec ms : Z) : Z :=
  hour * msPerHour + min * msPerMinute + sec * msPerSecond + ms.

Definition MakeDate (day time : Z) : Z := day * msPerDay + time.

Definition maxTime : Z := 8640000000000000.

(** [TimeClip]: [None] stands for NaN, the time value of an invalid date. *)
Definition TimeClip (t : Z) : option Z :=
  if Z.abs t <=? maxTime then Some t else None.

(** [Date.prototype.toISOString] of a valid date: four digits for a year
    in 0..9999, and a sign and six digits for any other. *)
Definition isoYear (y : Z) : string :=
  if (0 <=? y) && (y <=? 9999) then Num.fixedDigits 4 y ""
  else String (if y <? 0 then "-"%char else "+"%char)
              (Num.fixedDigits 6 (Z.abs y) "").

Definition toISOString (t : Z) : string :=
  isoYear (YearFromTime t) ++ "-" ++
  Num.fixedDigits 2 (MonthFromTime t + 1) "" ++ "-" ++
  Num.fixedDigits 2 (DateFromTime t) "" ++ "T" ++
  Num.fixedDigits 2 (HourFromTime t) "" ++ ":" ++
  Num.fixedDigits 2 (MinFromTime t) "" ++ ":" ++
  Num.fixedDigits 2 (SecFromTime t) "" ++ "." ++
  Num.fixedDigits 3 (msFromTime t) "" ++ "Z".

End JSDate.

(** ** [new Date(string)]

    V8 first reads the string as an ECMAScript date-time string,
    [[+-]YYYYYY|YYYY][-MM[-DD]][THH:mm[:ss[.sss]][Z|[+-]HH:mm|[+-]HHmm]]],
    and hands whatever does not start that way to its legacy heuristics.
    Once the separator [T] has been read the string can only be a
    date-time string: anything that is not one makes the date invalid. *)

Module Parse.

Definition isSign (c : ascii) : bool :=
  Ascii.eqb c "+"%char || Ascii.eqb c "-"%char.

(** A character of a word token: any character from ['A'] on that is not
    white space. *)
Definition isWordChar (c : ascii) : bool :=
  (65 <=? JS.code c) && negb (JS.isWhiteSpace c).

Definition startsWord (s : string) : bool :=
  match s with
  | String c _ => isWordChar c
  | EmptyString => false
  end.

(** The word token [kw], in either case, and nothing of a longer word. *)
Definition keyword (kw : ascii) (s : string) : option string :=
  match s with
  | String c r =>
      if Ascii.eqb (JS.toLowerChar c) kw && negb (startsWord r) then Some r
      else None
  | EmptyString => None
  end.

Definition symbol (sym : ascii) (s : string) : option string :=
  match s with
  | String c r => if Ascii.eqb c sym then Some r else None
  | EmptyString => None
  end.

Definition inRange (lo hi v : Z) : bool := (lo <=? v) && (v <=? hi).

(** The year: four digits, or a sign and six digits, minus zero excepted. *)
Definition year (s : string) : option (Z * string) :=
  match s with
  | String c r =>
      if isSign c then
        match Num.fixedNumber 6 r with
        | Some (y, r') =>
            if Ascii.eqb c "-"%char
            then (if y =? 0 then None else Some (- y, r'))
            else Some (y, r')
        | None => None
        end
      else Num.fixedNumber 4 s
  | EmptyString => None
  end.

(** [-NN] with [NN] in [lo..hi]; [Some None] when no hyphen follows, and
    [None] when a hyphen is followed by something else. *)
Definition dashField (lo hi : Z) (s : string) : option (option Z * string) :=
  match symbol "-"%char s with
  | Some r =>
      match Num.fixedNumber 2 r with
      | Some (v, r') => if inRange lo hi v then Some (Some v, r') else None
      | None => None
      end
  | None => Some (None, s)
  end.

(** The date of a date-time string: year, month in 1..12 and day in 1..31,
    the last two being 1 when absent. *)
Definition isoDate (s : string) : option (Z * Z * Z * string) :=
  match year s with
  | Some (y, r) =>
      match dashField 1 12 r with
      | Some (Some m, r') =>
          match dashField 1 31 r' with
          | Some (Some d, r'') => Some (y, m, d, r'')
          | Some (None, r'') => Some (y, m, 1, r'')
          | None => None
          end
      | Some (None, r') => Some (y, 1, 1, r')
      | None => None
      end
  | None => None
  end.

(** The first three digits of a fraction of a second, as milliseconds
    (V8 keeps nine significant digits of a number; a fraction is taken to
    have no more). *)
Definition milliseconds (ds : string) : Z :=
  match ds with
  | String a (String b (String c _)) =>
      100 * Num.digitVal a + 10 * Num.digitVal b + Num.digitVal c
  | String a (String b EmptyString) => 100 * Num.digitVal a + 10 * Num.digitVal b
  | String a EmptyString => 100 * Num.digitVal a
  | EmptyString => 0
  end.

(** [[:ss[.sss]]]: seconds and milliseconds, 0 when absent. *)
Definition seconds (is24 : bool) (s : string) : option (Z * Z * string) :=
  match symbol ":"%char s with
  | Some r =>
      match Num.fixedNumber 2 r with
      | Some (sec, r') =>
          if inRange 0 (if is24 then 0 else 59) sec then
            match symbol "."%char r' with
            | Some r'' =>
                match Num.anyNumber r'' with
                | Some (ds, r3) =>
                    if is24 && negb (Num.Number ds =? 0) then None
                    else Some (sec, milliseconds ds, r3)
                | None => None
                end
            | None => Some (sec, 0, r')
            end
          else None
      | None => None
      end
  | None => Some (0, 0, s)
  end.

(** [[Z|[+-]HH:mm|[+-]HHmm]]: the offset from UTC in milliseconds, [None]
    inside when there is none. *)
Definition offset (s : string) : option (option Z * string) :=
  match keyword "z"%char s with
  | Some r => Some (Some 0, r)
  | None =>
      match s with
      | String c r =>
          if isSign c then
            let sign := if Ascii.eqb c "+"%char then 1 else -1 in
            match Num.fixedNumber 4 r with
            | Some (hhmm, r') =>
                if inRange 0 23 (hhmm / 100) && inRange 0 59 (hhmm mod 100)
                then Some (Some (sign * JSDate.MakeTime (hhmm / 100) (hhmm mod 100) 0 0), r')
                else None
            | None =>
                match Num.fixedNumber 2 r with
                | Some (hh, r') =>
                    match symbol ":"%char r' with
                    | Some r'' =>
                        match Num.fixedNumber 2 r'' with
                        | Some (mm, r3) =>
                            if inRange 0 23 hh && inRange 0 59 mm
                            then Some (Some (sign * JSDate.MakeTime hh mm 0 0), r3)
                            else None
                        | None => None
                        end
                    | None => None
                    end
                | None => None
                end
            end
          else Some (None, s)
      | EmptyString => Some (None, s)
      end
  end.

(** What follows [T], to the end of the string: the time within the day
    and the offset.  Hour 24 is midnight at the end of the day and admits
    nothing but zeros after it. *)
Definition isoTime (s : string) : option (Z * option Z) :=
  match Num.fixedNumber 2 s with
  | Some (hh, r) =>
      if inRange 0 24 hh then
        let is24 := hh =? 24 in
        match symbol ":"%char r with
        | Some r' =>
            match Num.fixedNumber 2 r' with
            | Some (mm, r'') =>
                if inRange 0 (if is24 then 0 else 59) mm then
                  match seconds is24 r'' with
                  | Some (sec, ms, r3) =>
                      match offset r3 with
                      | Some (off, EmptyString) =>
                          Some (JSDate.MakeTime hh mm sec ms, off)
                      | _ => None
                      end
                  | None => None
                  end
                else None
            | None => None
            end
        | None => None
        end
      else None
  | None => None
  end.

End Parse.

Section Environment.

(** The offset of local time from UTC, in milliseconds, at a local time
    value: it depends on the time zone the process runs in. *)
Variable LocalTZA : Z -> Z.

(** V8's legacy heuristics for the strings that are not date-time strings:
    the time value read, or [None] for an invalid date. *)
Variable legacy : string -> option Z.

(** The time value of [new Date(s)], [None] for an invalid date (whose
    [getTime()] is NaN).  A date without a time is in UTC; a date with a
    time and without an offset is in local time. *)
Definition DateParse (s : string) : option Z :=
  match Parse.isoDate s with
  | Some (y, m, d, r) =>
      let day := JSDate.MakeDay y (m - 1) d in
      match r with
      | EmptyString => JSDate.TimeClip (JSDate.MakeDate day 0)
      | _ =>
          match Parse.keyword "t"%char r with
          | Some r' =>
              match Parse.isoTime r' with
              | Some (time, Some off) =>
                  JSDate.TimeClip (JSDate.MakeDate day time - off)
              | Some (time, None) =>
                  let t := JSDate.MakeDate day time in
                  JSDate.TimeClip (t - LocalTZA t)
              | None => None
              end
          | None => legacy s
          end
      end
  | None => legacy s
  end.

(** ** [normalizeTime] *)

Definition orElse {A : Type} (a b : option A) : option A :=
  match a with
  | Some _ => a
  | None => b
  end.

(** Exactly [n] digits at the head of the string: [\d{n}]. *)
Fixpoint takeDigits (n : nat) (s : string) : option (string * string) :=
  match n with
  | O => Some (EmptyString, s)
  | S n' =>
      match s with
      | String c r =>
          if JS.isDigit c then
            match takeDigits n' r with
            | Some (ds, r') => Some (String c ds, r')
            | None => None
            end
          else None
      | EmptyString => None
      end
  end.

Fixpoint skipWhiteSpace (s : string) : string :=
  match s with
  | String c r => if JS.isWhiteSpace c then skipWhiteSpace r else s
  | EmptyString => EmptyString
  end.

(** [(AM|PM|am|pm)] at the head of the string. *)
Definition takeAmPm (s : string) : option (string * string) :=
  match s with
  | String a (String b r) =>
      let w := String a (String b EmptyString) in
      if String.eqb w "AM" || String.eqb w "PM" || String.eqb w "am" || String.eqb w "pm"
      then Some (w, r)
      else None
  | _ => None
  end.

(** [\s*(AM|PM|am|pm)?$]: the white space is taken whole, since with less
    of it the next character is white space, which neither the group nor
    the end of the string matches. *)
Definition matchSuffix (s : string) : option (option string) :=
  let r := skipWhiteSpace s in
  orElse
    (match takeAmPm r with
     | Some (a, EmptyString) => Some (Some a)
     | _ => None
     end)
    (if JS.isEmpty r then Some None else None).

(** [(\d{2})?\s*(AM|PM|am|pm)?$]: the group is tried first. *)
Definition matchMinutes (s : string) : option (option string * option string) :=
  orElse
    (match takeDigits 2 s with
     | Some (mm, r) => option_map (fun a => (Some mm, a)) (matchSuffix r)
     | None => None
     end)
    (option_map (fun a => (None, a)) (matchSuffix s)).

Definition isSeparator (c : ascii) : bool :=
  Ascii.eqb c ":"%char || Ascii.eqb c "."%char || Ascii.eqb c "h"%char.

(** [(?::|\.|h)?(\d{2})?\s*(AM|PM|am|pm)?$]: with the separator first. *)
Definition matchSeparator (s : string) : option (option string * option string) :=
  orElse
    (match s with
     | String c r => if isSeparator c then matchMinutes r else None
     | EmptyString => None
     end)
    (matchMinutes s).

(** [trimmed.match(/^(\d{1,2})(?::|\.|h)?(\d{2})?\s*(AM|PM|am|pm)?$/)]:
    the groups 1, 2 and 3 of the first match in backtracking order, two
    digits of hour before one. *)
Definition matchTime (s : string) : option (string * option string * option string) :=
  let hours (n : nat) :=
    match takeDigits n s with
    | Some (hh, r) => option_map (fun g => (hh, fst g, snd g)) (matchSeparator r)
    | None => None
    end in
  orElse (hours 2%nat) (hours 1%nat).

(** The hour on the 24-hour clock, lines 129-133. *)
Definition to24Hour (hour : Z) (ampm : option string) : Z :=
  match ampm with
  | Some w =>
      let a := JS.toLowerCase w in
      let hour1 := if String.eqb a "pm" && (hour <? 12) then hour + 12 else hour in
      if String.eqb a "am" && (hour1 =? 12) then 0 else hour1
  | None => hour
  end.

Definition hhmm (hour minute : Z) : string :=
  Num.padStart2 (Num.toString hour) ++ ":" ++ Num.padStart2 (Num.toString minute).

Definition normalizeTime (value : string) : result string :=
  if JS.isEmpty value then Err "Time is required"
  else
    let trimmed := JS.trim value in
    match DateParse ("1970-01-01T" ++ trimmed) with
    | Some parsed => Ok (hhmm (JSDate.HourFromTime parsed) (JSDate.MinFromTime parsed))
    | None =>
        match matchTime trimmed with
        | None => Err "Invalid time format"
        | Some (m1, m2, m3) =>
            let hour := to24Hour (Num.Number m1) m3 in
            let minute := match m2 with Some mm => Num.Number mm | None => 0 end in
            if (hour <? 0) || (hour >? 23) || (minute <? 0) || (minute >? 59)
            then Err "Invalid time value"
            else Ok (hhmm hour minute)
        end
    end.

(** ** [normalizeDate] *)

(** [s.slice(0, n)] *)
Fixpoint slice0 (n : nat) (s : string) : string :=
  match n, s with
  | S n', String c r => String c (slice0 n' r)
  | _, _ => EmptyString
  end.

Definition normalizeDate (value : string) : result string :=
  if JS.isEmpty value then Err "Date is required"
  else
    match DateParse value with
    | None => Err "Invalid date"
    | Some parsed => Ok (slice0 10 (JSDate.toISOString parsed))
    end.

End Environment.

(** Time zones and fallbacks to run the functions with. *)

Definition utc : Z -> Z := fun _ => 0.

(** A zone [minutes] ahead of UTC all year round;
    Africa/Addis_Ababa is [fixedZone 180]. *)
Definition fixedZone (minutes : Z) : Z -> Z := fun _ => minutes * JSDate.msPerMinute.

(** A fallback that recognises nothing. *)
Definition noLegacy : string -> option Z := fun _ => None.

(** A fragment of V8's legacy heuristics, enough for dates written as a
    month name, a day and a year ("September 15, 2024"): a word is a month
    when its first three letters are those of a month name; of the two
    numbers the first is the day if it can be one; a year below 50 is in
    the 2000s and one below 100 in the 1900s; the date is in local time. *)
Module Legacy.

Fixpoint spanWord (s : string) : string * string :=
  match s with
  | EmptyString => (EmptyString, EmptyString)
  | String c s' =>
      if Parse.isWordChar c
      then let (w, r) := spanWord s' in (String c w, r)
      else (EmptyString, s)
  end.

Definition monthNames : list (string * Z) :=
  [("jan", 1); ("feb", 2); ("mar", 3); ("apr", 4); ("may", 5); ("jun", 6);
   ("jul", 7); ("aug", 8); ("sep", 9); ("oct", 10); ("nov", 11); ("dec", 12)].

Definition monthOfWord (w : string) : option Z :=
  let p := slice0 3 (JS.toLowerCase w) in
  option_map snd (find (fun e => String.eqb (fst e) p) monthNames).

Definition skipComma (s : string) : string :=
  match Parse.symbol ","%char s with
  | Some r => r
  | None => s
  end.

Definition windowYear (y : Z) : Z :=
  if Parse.inRange 0 49 y then y + 2000
  else if Parse.inRange 50 99 y then y + 1900
  else y.

Definition monthDayYear (LocalTZA : Z -> Z) (s : string) : option Z :=
  let (w, r) := spanWord s in
  match monthOfWord w with
  | Some m =>
      match Num.anyNumber (skipWhiteSpace r) with
      | Some (ds1, r1) =>
          match Num.anyNumber (skipWhiteSpace (skipComma r1)) with
          | Some (ds2, EmptyString) =>
              let a := Num.Number ds1 in
              let b := Num.Number ds2 in
              let day := if Parse.inRange 1 31 a then a else b in
              let year := windowYear (if Parse.inRange 1 31 a then b else a) in
              if Parse.inRange 1 31 day then
                let t := JSDate.MakeDate (JSDate.MakeDay year (m - 1) day) 0 in
                JSDate.TimeClip (t - LocalTZA t)
              else None
          | _ => None
          end
      | None => None
      end
  | None => None
  end.

End Legacy.

(** ** The Event model *)

Module EventModel.

(** [EventDocument]: the attributes of [IEvent], the identifier of the
    document, and the paths Mongoose holds as modified since the document
    was loaded or created ([this.isModified(path)]). *)
Record EventDocument : Type := {
  _id : Z;
  title : string;
  slug : option string;
  description : string;
  overview : string;
  image : string;
  venue : string;
  location : string;
  date : string;
  time : string;
  mode : string;
  audience : string;
  agenda : list string;
  organizer : string;
  tags : list string;
  createdAt : option Z;
  updatedAt : option Z;
  modifiedPaths : list string
}.

Definition isModified (path : string) (doc : EventDocument) : bool :=
  existsb (String.eqb path) (modifiedPaths doc).

(** A path is marked modified when an assignment changes its value. *)
Definition markModified (path : string) (changed : bool) (doc : EventDocument)
  : list string :=
  if changed && negb (isModified path doc) then path :: modifiedPaths doc
  else modifiedPaths doc.

Definition optionEqb (a b : option string) : bool :=
  match a, b with
  | Some x, Some y => String.eqb x y
  | None, None => true
  | _, _ => false
  end.

(** [this.slug = v], through the [trim] setter of the path. *)
Definition setSlug (v : string) (doc : EventDocument) : EventDocument :=
  let v' := JS.trim v in
  {| _id := _id doc; title := title doc; slug := Some v';
     description := description doc; overview := overview doc;
     image := image doc; venue := venue doc; location := location doc;
     date := date doc; time := time doc; mode := mode doc;
     audience := audience doc; agenda := agenda doc;
     organizer := organizer doc; tags := tags doc;
     createdAt := createdAt doc; updatedAt := updatedAt doc;
     modifiedPaths := markModified "slug" (negb (optionEqb (slug doc) (Some v'))) doc |}.

(** [this.date = v] *)
Definition setDate (v : string) (doc : EventDocument) : EventDocument :=
  let v' := JS.trim v in
  {| _id := _id doc; title := title doc; slug := slug doc;
     description := description doc; overview := overview doc;
     image := image doc; venue := venue doc; location := location doc;
     date := v'; time := time doc; mode := mode doc;
     audience := audience doc; agenda := agenda doc;
     organizer := organizer doc; tags := tags doc;
     createdAt := createdAt doc; updatedAt := updatedAt doc;
     modifiedPaths := markModified "date" (negb (String.eqb (date doc) v')) doc |}.

(** [this.time = v] *)
Definition setTime (v : string) (doc : EventDocument) : EventDocument :=
  let v' := JS.trim v in
  {| _id := _id doc; title := title doc; slug := slug doc;
     description := description doc; overview := overview doc;
     image := image doc; venue := venue doc; location := location doc;
     date := date doc; time := v'; mode := mode doc;
     audience := audience doc; agenda := agenda doc;
     organizer := organizer doc; tags := tags doc;
     createdAt := createdAt doc; updatedAt := updatedAt doc;
     modifiedPaths := markModified "time" (negb (String.eqb (time doc) v')) doc |}.

(** [!this.slug]: no slug, or an empty one. *)
Definition noSlug (doc : EventDocument) : bool :=
  match slug doc with
  | Some s => JS.isEmpty s
  | None => true
  end.

Section Hook.

Variable LocalTZA : Z -> Z.
Variable legacy : string -> option Z.

(** [eventSchema.pre('save', ...)] *)
Definition preSave (doc : EventDocument) : result EventDocument :=
  let doc1 :=
    if isModified "title" doc || noSlug doc
    then setSlug (generateSlug (title doc)) doc
    else doc in
  doc2 <- (if isModified "date" doc1
           then d <- normalizeDate LocalTZA legacy (date doc1) ;; Ok (setDate d doc1)
           else Ok doc1) ;;
  (if isModified "time" doc2
   then t <- normalizeTime LocalTZA legacy (time doc2) ;; Ok (setTime t doc2)
   else Ok doc2).

End Hook.

(** The rules of the schema.  A required string fails when it is empty;
    the first rule of a path that fails gives the message of the path. *)
Definition required (path message value : string) : list (string * string) :=
  if JS.isEmpty value then [(path, message)] else [].

Definition nonEmptyArray (path message : string) (value : list string)
  : list (string * string) :=
  match value with
  | [] => [(path, message)]
  | _ => []
  end.

Definition validate (doc : EventDocument) : list (string * string) :=
  (if JS.isEmpty (title doc) then [("title", "Title is required")]
   else if JS.isEmpty (JS.trim (title doc)) then [("title", "Title cannot be empty")]
   else [])
  ++ (if noSlug doc then [("slug", "Path `slug` is required.")] else [])
  ++ required "description" "Description is required" (description doc)
  ++ required "overview" "Overview is required" (overview doc)
  ++ required "image" "Image is required" (image doc)
  ++ required "venue" "Venue is required" (venue doc)
  ++ required "location" "Location is required" (location doc)
  ++ required "date" "Date is required" (date doc)
  ++ required "time" "Time is required" (time doc)
  ++ required "mode" "Mode is required" (mode doc)
  ++ required "audience" "Audience is required" (audience doc)
  ++ nonEmptyArray "agenda" "Agenda must contain at least one item" (agenda doc)
  ++ required "organizer" "Organizer is required" (organizer doc)
  ++ nonEmptyArray "tags" "Tags must contain at least one tag" (tags doc).

End EventModel.

(** ** Saving documents

    [save()] validates the document, runs the [pre('save')] hooks of the
    schema, and writes.  Mongoose registers validation as the first
    [pre('save')] hook, so the rules are checked before the hooks of the
    model run.  The unique index on [slug] belongs to the collection: a
    write that would give two documents the same slug is refused by the
    database with error E11000. *)

Inductive saveError : Type :=
| ValidationError (errors : list (string * string))
| HookError (msg : string)
| DuplicateKey (index : string).

(** What a save does to the database, in order. *)
Inductive operation : Type :=
| EventExists (id : Z)
| WriteEvent (id : Z)
| WriteBooking (id : Z).

Module BookingModel.

Record BookingDocument : Type := {
  _id : Z;
  eventId : Z;
  email : string
}.

(** [[^\s@]] *)
Definition isPlain (c : ascii) : bool :=
  negb (JS.isWhiteSpace c) && negb (Ascii.eqb c "@"%char).

Fixpoint spanPlain (s : string) : string * string :=
  match s with
  | EmptyString => (EmptyString, EmptyString)
  | String c s' =>
      if isPlain c
      then let (w, r) := spanPlain s' in (String c w, r)
      else (EmptyString, s)
  end.

(** A full stop that is not the last character. *)
Fixpoint dotBeforeLast (s : string) : bool :=
  match s with
  | String c ((String _ _) as s') => Ascii.eqb c "."%char || dotBeforeLast s'
  | _ => false
  end.

(** [[^\s@]+\.[^\s@]+$] on a string of plain characters: a full stop that
    is neither the first character nor the last. *)
Definition innerDot (s : string) : bool :=
  match s with
  | String _ s' => dotBeforeLast s'
  | EmptyString => false
  end.

(** [EMAIL_RE.test(v)] with [EMAIL_RE = /^[^\s@]+@[^\s@]+\.[^\s@]+$/]. *)
Definition EMAIL_RE_test (v : string) : bool :=
  let (local, r) := spanPlain v in
  negb (JS.isEmpty local) &&
  match r with
  | String c domain =>
      Ascii.eqb c "@"%char &&
      (let (d, r') := spanPlain domain in JS.isEmpty r' && innerDot d)
  | EmptyString => false
  end.

(** The setters of the path [email]: [trim: true] and [lowercase: true]
    are declared in this order, and Mongoose applies the setters of a path
    from the last to the first. *)
Definition setEmail (v : string) : string := JS.trim (JS.toLowerCase v).

(** [new Booking({ eventId, email })] *)
Definition newBooking (id event : Z) (mail : string) : BookingDocument :=
  {| _id := id; eventId := event; email := setEmail mail |}.

Definition validate (doc : BookingDocument) : list (string * string) :=
  if JS.isEmpty (email doc) then [("email", "Email is required")]
  else if EMAIL_RE_test (email doc) then []
  else [("email", "Invalid email format")].

End BookingModel.

Record Database : Type := {
  events : list EventModel.EventDocument;
  bookings : list BookingModel.BookingDocument;
  log : list operation
}.

Definition logged (o : operation) (db : Database) : Database :=
  {| events := events db; bookings := bookings db; log := log db ++ [o] |}.

(** [Event.exists({ _id: id })]: one read of the collection of events. *)
Definition eventExists (id : Z) (db : Database) : Database * bool :=
  (logged (EventExists id) db,
   existsb (fun e => EventModel._id e =? id) (events db)).

(** [bookingSchema.pre('save', ...)] *)
Definition bookingPreSave (doc : BookingModel.BookingDocument) (db : Database)
  : Database * result unit :=
  let (db', found) := eventExists (BookingModel.eventId doc) db in
  if found then (db', Ok tt)
  else (db', Err "Referenced event does not exist").

Definition writeBooking (doc : BookingModel.BookingDocument) (db : Database)
  : Database :=
  {| events := events db;
     bookings := bookings db ++ [doc];
     log := log db ++ [WriteBooking (BookingModel._id doc)] |}.

(** [booking.save()] of a new booking. *)
Definition saveBooking (doc : BookingModel.BookingDocument) (db : Database)
  : Database * option saveError :=
  match BookingModel.validate doc with
  | [] =>
      match bookingPreSave doc db with
      | (db', Ok _) => (writeBooking doc db', None)
      | (db', Err msg) => (db', Some (HookError msg))
      end
  | errors => (db, Some (ValidationError errors))
  end.

(** The unique index on [slug]: another document holds the same value. *)
Definition slugTaken (doc : EventModel.EventDocument) (db : Database) : bool :=
  existsb
    (fun e => negb (EventModel._id e =? EventModel._id doc)
              && EventModel.optionEqb (EventModel.slug e) (EventModel.slug doc))
    (events db).

(** The write of an event: it replaces the document of the same
    identifier, or adds one. *)
Definition writeEvent (doc : EventModel.EventDocument) (db : Database)
  : Database * option saveError :=
  if slugTaken doc db then
    (logged (WriteEvent (EventModel._id doc)) db, Some (DuplicateKey "slug_1"))
  else
    ({| events :=
          filter (fun e => negb (EventModel._id e =? EventModel._id doc)) (events db)
          ++ [doc];
        bookings := bookings db;
        log := log db ++ [WriteEvent (EventModel._id doc)] |}, None).

Section Save.

Variable LocalTZA : Z -> Z.
Variable legacy : string -> option Z.

(** [event.save()] *)
Definition saveEvent (doc : EventModel.EventDocument) (db : Database)
  : Database * option saveError :=
  match EventModel.validate doc with
  | [] =>
      match EventModel.preSave LocalTZA legacy doc with
      | Ok doc' => writeEvent doc' db
      | Err msg => (db, Some (HookError msg))
      end
  | errors => (db, Some (ValidationError errors))
  end.

End Save.

(** ** Checking by evaluation *)

Definition sameResult (a b : result string) : bool :=
  match a, b with
  | Ok x, Ok y => String.eqb x y
  | Err x, Err y => String.eqb x y
  | _, _ => false
  end.

(** [f] holds of every integer from [lo] to [hi]. *)
Definition forallInRange (lo hi : Z) (f : Z -> bool) : bool :=
  forallb f (map (fun k => lo + Z.of_nat k) (seq 0 (Z.to_nat (hi - lo + 1)))).

(** A time on the 12-hour clock as it is written: "9:30 PM". *)
Definition clock12 (h m : Z) (ampm : string) : string :=
  Num.toString h ++ ":" ++ Num.padStart2 (Num.toString m) ++ " " ++ ampm.

(** The hour of the 24-hour clock for an hour of the 12-hour clock. *)
Definition hourAM (h : Z) : Z := if h =? 12 then 0 else h.
Definition hourPM (h : Z) : Z := if h =? 12 then 12 else h + 12.

Definition clock12Checked (LocalTZA : Z -> Z) (legacy : string -> option Z)
  (h m : Z) : bool :=
  sameResult (normalizeTime LocalTZA legacy (clock12 h m "AM")) (Ok (hhmm (hourAM h) m))
  && sameResult (normalizeTime LocalTZA legacy (clock12 h m "PM")) (Ok (hhmm (hourPM h) m)).

Definition movedChecked (legacy : string -> option Z) (minutes : Z) : bool :=
  negb (sameResult (normalizeTime (fixedZone minutes) legacy "21:00") (Ok "21:00")).

Definition canonicalChecked (legacy : string -> option Z) (h m : Z) : bool :=
  sameResult (normalizeTime utc legacy (hhmm h m)) (Ok (hhmm h m)).

Definition septemberChecked (expected : string) (minutes : Z) : bool :=
  sameResult
    (normalizeDate (fixedZone minutes) (Legacy.monthDayYear (fixedZone minutes))
       "September 15, 2024")
    (Ok expected).

(** [s] has the shape of [p], where a [d] of [p] stands for any digit and
    any other character for itself. *)
Fixpoint hasShape (p s : string) : bool :=
  match p, s with
  | EmptyString, EmptyString => true
  | String pc p', String c s' =>
      (if Ascii.eqb pc "d"%char then JS.isDigit c else Ascii.eqb c pc)
      && hasShape p' s'
  | _, _ => false
  end.

Definition isYYYYMMDD (s : string) : bool := hasShape "dddd-dd-dd" s.

(** The text [YYYY-MM-DD] of a year, a month from 1 and a day. *)
Definition dateText (y m d : Z) : string :=
  Num.fixedDigits 4 y "" ++ "-" ++ Num.fixedDigits 2 m "" ++ "-"
  ++ Num.fixedDigits 2 d "".

(** The string does not start with a digit. *)
Definition noDigitAhead (s : string) : bool :=
  match s with
  | String c _ => negb (JS.isDigit c)
  | EmptyString => true
  end.

(** Inputs that consist of an hour alone: one or two digits, any number of
    spaces, and AM or PM or nothing. *)
Fixpoint spaces (n : nat) : string :=
  match n with
  | O => EmptyString
  | S n' => String " "%char (spaces n')
  end.

Definition hourText (twoDigits : bool) (h : Z) : string :=
  if twoDigits then Num.padStart2 (Num.toString h) else Num.toString h.

Definition ampmTexts : list string := [""; "AM"; "PM"; "am"; "pm"].

(** The hour such an input stands for on the 24-hour clock. *)
Definition hourOnly24 (h : Z) (ampm : string) : Z :=
  if String.eqb ampm "" then h
  else if String.eqb ampm "AM" || String.eqb ampm "am"
       then (if h =? 12 then 0 else h)
       else (if h <? 12 then h + 12 else h).

Definition ampmGroup (ampm : string) : option string :=
  if JS.isEmpty ampm then None else Some ampm.

Definition trimChecked (h m : Z) : bool :=
  String.eqb (JS.trim (hhmm h m)) (hhmm h m).

Definition notSpace (c : ascii) : bool := negb (JS.isWhiteSpace c).

(** ** Invariants of the collection of events *)

Definition uniqueIds (db : Database) : Prop :=
  NoDup (map EventModel._id (events db)).

Definition uniqueSlugs (db : Database) : Prop :=
  NoDup (map EventModel.slug (events db)).

(** ** Sample documents *)

Definition emptyDatabase : Database :=
  {| events := []; bookings := []; log := [] |}.

(** A new event as [new Event({...})] makes it: every path given is
    modified. *)
Definition newEvent (id : Z) (title : string) (slug : option string)
  (date time : string) : EventModel.EventDocument :=
  {| EventModel._id := id;
     EventModel.title := JS.trim title;
     EventModel.slug := option_map JS.trim slug;
     EventModel.description := "Talks and workshops";
     EventModel.overview := "A day of talks";
     EventModel.image := "/images/event1.png";
     EventModel.venue := "Main hall";
     EventModel.location := "Addis Ababa";
     EventModel.date := JS.trim date;
     EventModel.time := JS.trim time;
     EventModel.mode := "offline";
     EventModel.audience := "Developers";
     EventModel.agenda := ["Opening"];
     EventModel.organizer := "The team";
     EventModel.tags := ["tech"];
     EventModel.createdAt := None;
     EventModel.updatedAt := None;
     EventModel.modifiedPaths :=
       ["title"; "description"; "overview"; "image"; "venue"; "location";
        "date"; "time"; "mode"; "audience"; "agenda"; "organizer"; "tags"]
       ++ match slug with Some _ => ["slug"] | None => [] end |}.

(** An event loaded from the database, in canonical form, of which a
    given list of paths has been changed since. *)
Definition loadedEvent (id : Z) (title slug date time : string)
  (modified : list string) : EventModel.EventDocument :=
  {| EventModel._id := id;
     EventModel.title := title;
     EventModel.slug := Some slug;
     EventModel.description := "Talks and workshops";
     EventModel.overview := "A day of talks";
     EventModel.image := "/images/event1.png";
     EventModel.venue := "Main hall";
     EventModel.location := "Addis Ababa";
     EventModel.date := date;
     EventModel.time := time;
     EventModel.mode := "offline";
     EventModel.audience := "Developers";
     EventModel.agenda := ["Opening"];
     EventModel.organizer := "The team";
     EventModel.tags := ["tech"];
     EventModel.createdAt := Some 0;
     EventModel.updatedAt := Some 0;
     EventModel.modifiedPaths := modified |}.

(** ** More of the slug *)



(** A word: a string of characters of [[a-z0-9]] that is not empty. *)
Definition isWord (w : string) : Prop :=
  w <> "" /\ JS.allChars JS.isLowerAlnum w = true.


(** ** More checks by evaluation *)

Definition shapeChecked (h m : Z) : bool := hasShape "dd:dd" (hhmm h m).

Definition pad2Checked (n : Z) : bool :=
  String.eqb (Num.padStart2 (Num.toString n)) (Num.fixedDigits 2 n "").

Definition timeErrors : list string :=
  ["Time is required"; "Invalid time format"; "Invalid time value"].

(** The ways of writing a time that only the pattern of [normalizeTime]
    reads: a full stop, an [h] or nothing between the hour and the
    minutes, or a colon after an hour of one digit. *)
Definition patternOnly (twoDigits : bool) (h : Z) (sep : string) : bool :=
  String.eqb sep "." || String.eqb sep "h" || String.eqb sep ""
  || (String.eqb sep ":" && negb twoDigits && (h <=? 9)).

(** ** The calendar *)

(** The number of days of month [m], from 1 for January, in year [y]. *)
Definition daysInMonth (y m : Z) : Z :=
  if m =? 2 then (if JSDate.isLeap y then 29 else 28)
  else if (m =? 4) || (m =? 6) || (m =? 9) || (m =? 11) then 30
  else 31.

(** ** Looking an event up *)



(** A new event for the examples, and the same without agenda. *)
Definition techConference : EventModel.EventDocument :=
  newEvent 1 "Tech Conference 2024" (Some "draft") "2024-09-15" "9:30 PM".

Definition withoutAgenda (doc : EventModel.EventDocument) : EventModel.EventDocument :=
  {| EventModel._id := EventModel._id doc;
     EventModel.title := EventModel.title doc;
     EventModel.slug := EventModel.slug doc;
     EventModel.description := EventModel.description doc;
     EventModel.overview := EventModel.overview doc;
     EventModel.image := EventModel.image doc;
     EventModel.venue := EventModel.venue doc;
     EventModel.location := EventModel.location doc;
     EventModel.date := EventModel.date doc;
     EventModel.time := EventModel.time doc;
     EventModel.mode := EventModel.mode doc;
     EventModel.audience := EventModel.audience doc;
     EventModel.agenda := [];
     EventModel.organizer := EventModel.organizer doc;
     EventModel.tags := EventModel.tags doc;
     EventModel.createdAt := EventModel.createdAt doc;
     EventModel.updatedAt := EventModel.updatedAt doc;
     EventModel.modifiedPaths := EventModel.modifiedPaths doc |}.

(** ** The connection helper, [lib/mongodb.ts]

    [connectToDatabase] and [disconnectDatabase] are asynchronous: each
    runs to its [await] in one piece, and the rest runs later, once the
    promise awaited has settled; other calls can start in between.  The
    model is a machine whose actions are these pieces and the settling of
    the promises of Mongoose.  The state holds the cache of the module,
    the promises that [mongoose.connect] has returned, the URIs it has been
    called with, and the calls that are waiting. *)

Module Connection.

(** The state of a promise of [mongoose.connect]: the instance it has
    resolved to, or the message of its rejection. *)
Inductive settlement : Type :=
| Pending
| Resolved (instance : Z)
| Rejected (msg : string).

(** [MongooseCache]; a promise is known by its number. *)
Record MongooseCache : Type := {
  conn : option Z;
  promise : option nat
}.

Record Runtime : Type := {
  cache : MongooseCache;
  promises : list settlement;
  connectCalls : list string;
  awaiting : list nat;
  disconnecting : nat
}.

Definition initial : Runtime :=
  {| cache := {| conn := None; promise := None |};
     promises := []; connectCalls := []; awaiting := []; disconnecting := 0 |}.

Inductive action : Type :=
| CallConnect (uri : option string)
| Settle (p : nat) (s : settlement)
| ResumeConnect (k : nat)
| CallDisconnect
| ResumeDisconnect (r : result unit).

(** How a call ends. *)
Inductive outcome : Type :=
| Returned (instance : Z)
| Threw (msg : string)
| Disconnected.

Definition uriMessage : string :=
  "Please define the MONGODB_URI environment variable inside .env.local".

(** [!uri] *)
Definition uriMissing (uri : option string) : bool :=
  match uri with
  | Some u => JS.isEmpty u
  | None => true
  end.

Definition uriText (uri : option string) : string :=
  match uri with
  | Some u => u
  | None => ""
  end.

Fixpoint setNth {A : Type} (n : nat) (a : A) (l : list A) : list A :=
  match l, n with
  | [], _ => []
  | _ :: l', O => a :: l'
  | b :: l', S n' => b :: setNth n' a l'
  end.

Fixpoint removeNth {A : Type} (n : nat) (l : list A) : list A :=
  match l, n with
  | [], _ => []
  | _ :: l', O => l'
  | b :: l', S n' => b :: removeNth n' l'
  end.

(** [connectToDatabase], to its [await]: lines 36 to 59. *)
Definition callConnect (uri : option string) (rt : Runtime)
  : Runtime * list outcome :=
  match conn (cache rt) with
  | Some instance => (rt, [Returned instance])
  | None =>
      if uriMissing uri then (rt, [Threw uriMessage])
      else
        match promise (cache rt) with
        | Some p =>
            ({| cache := cache rt; promises := promises rt;
                connectCalls := connectCalls rt;
                awaiting := (awaiting rt ++ [p])%list;
                disconnecting := disconnecting rt |}, [])
        | None =>
            let p := List.length (promises rt) in
            ({| cache := {| conn := None; promise := Some p |};
                promises := (promises rt ++ [Pending])%list;
                connectCalls := (connectCalls rt ++ [uriText uri])%list;
                awaiting := (awaiting rt ++ [p])%list;
                disconnecting := disconnecting rt |}, [])
        end
  end.

(** [connectToDatabase], from its [await]: lines 59 and 60. *)
Definition resumeConnect (k : nat) (rt : Runtime)
  : option (Runtime * list outcome) :=
  match nth_error (awaiting rt) k with
  | Some p =>
      match nth_error (promises rt) p with
      | Some (Resolved instance) =>
          Some ({| cache := {| conn := Some instance; promise := promise (cache rt) |};
                   promises := promises rt;
                   connectCalls := connectCalls rt;
                   awaiting := removeNth k (awaiting rt);
                   disconnecting := disconnecting rt |}, [Returned instance])
      | Some (Rejected msg) =>
          Some ({| cache := cache rt; promises := promises rt;
                   connectCalls := connectCalls rt;
                   awaiting := removeNth k (awaiting rt);
                   disconnecting := disconnecting rt |}, [Threw msg])
      | _ => None
      end
  | None => None
  end.

(** A promise settles once. *)
Definition settle (p : nat) (s : settlement) (rt : Runtime)
  : option (Runtime * list outcome) :=
  match nth_error (promises rt) p, s with
  | Some Pending, Resolved _ | Some Pending, Rejected _ =>
      Some ({| cache := cache rt; promises := setNth p s (promises rt);
               connectCalls := connectCalls rt; awaiting := awaiting rt;
               disconnecting := disconnecting rt |}, [])
  | _, _ => None
  end.

(** [disconnectDatabase], to its [await] and from it: lines 68 to 70. *)
Definition callDisconnect (rt : Runtime) : Runtime * list outcome :=
  ({| cache := cache rt; promises := promises rt;
      connectCalls := connectCalls rt; awaiting := awaiting rt;
      disconnecting := S (disconnecting rt) |}, []).

Definition resumeDisconnect (r : result unit) (rt : Runtime)
  : option (Runtime * list outcome) :=
  match disconnecting rt with
  | O => None
  | S waiting =>
      match r with
      | Ok _ =>
          Some ({| cache := {| conn := None; promise := None |};
                   promises := promises rt; connectCalls := connectCalls rt;
                   awaiting := awaiting rt; disconnecting := waiting |},
                [Disconnected])
      | Err msg =>
          Some ({| cache := cache rt; promises := promises rt;
                   connectCalls := connectCalls rt; awaiting := awaiting rt;
                   disconnecting := waiting |}, [Threw msg])
      end
  end.

(** One action, when the machine can take it. *)
Definition step (a : action) (rt : Runtime) : option (Runtime * list outcome) :=
  match a with
  | CallConnect uri => Some (callConnect uri rt)
  | Settle p s => settle p s rt
  | ResumeConnect k => resumeConnect k rt
  | CallDisconnect => Some (callDisconnect rt)
  | ResumeDisconnect r => resumeDisconnect r rt
  end.

(** A run: the state reached and the outcomes of the calls, in order. *)
Fixpoint run (actions : list action) (rt : Runtime)
  : option (Runtime * list outcome) :=
  match actions with
  | [] => Some (rt, [])
  | a :: rest =>
      match step a rt with
      | Some (rt', outs) =>
          match run rest rt' with
          | Some (rt'', outs') => Some (rt'', (outs ++ outs')%list)
          | None => None
          end
      | None => None
      end
  end.

(** No [disconnectDatabase] completes among the actions. *)
Definition staysConnected (a : action) : bool :=
  match a with
  | ResumeDisconnect (Ok _) => false
  | _ => true
  end.

End Connection.

(** What holds of the machine as long as no [disconnectDatabase] has
    completed: nothing has been asked of Mongoose yet, or one promise has
    been made, which is the one of the cache and the one every waiting
    call awaits, and a cached connection is what it has resolved to. *)
Definition connectedOnce (rt : Connection.Runtime) : Prop :=
  (Connection.promise (Connection.cache rt) = None
   /\ Connection.promises rt = []
   /\ Connection.connectCalls rt = []
   /\ Connection.conn (Connection.cache rt) = None
   /\ Connection.awaiting rt = [])
  \/ (exists s u,
        Connection.promise (Connection.cache rt) = Some 0%nat
        /\ Connection.promises rt = [s]
        /\ Connection.connectCalls rt = [u]
        /\ Forall (fun p => p = 0%nat) (Connection.awaiting rt)
        /\ forall m, Connection.conn (Connection.cache rt) = Some m
                     -> s = Connection.Resolved m).
(** * Properties *)

(** ** Characters *)

(** Closes a goal about one character by looking at the 256 of them. *)
Ltac by_cases_on_char c :=
  destruct c as [[] [] [] [] [] [] [] []]; vm_compute; try reflexivity;
  try discriminate; intuition discriminate.

Lemma alnum_not_hyphen (c : ascii) :
  JS.isLowerAlnum c = true -> isHyphen c = false.
Proof. by_cases_on_char c. Qed.

Lemma space_not_alnum (c : ascii) :
  JS.isWhiteSpace c = true -> JS.isLowerAlnum c = false.
Proof. by_cases_on_char c. Qed.

Lemma alnum_is_slugChar (c : ascii) :
  JS.isLowerAlnum c = true -> slugChar c = true.
Proof. unfold slugChar. intros ->. reflexivity. Qed.

Lemma slugChar_lower (c : ascii) :
  slugChar c = true -> JS.toLowerChar c = c.
Proof. by_cases_on_char c. Qed.

Lemma isHyphen_eq (c : ascii) : isHyphen c = true -> c = hyphen.
Proof. unfold isHyphen. apply Ascii.eqb_eq. Qed.

(** ** Strings *)

Lemma append_empty_r (s : string) : s ++ "" = s.
Proof. induction s; simpl; congruence. Qed.

Lemma append_assoc (a b c : string) : (a ++ b) ++ c = a ++ (b ++ c).
Proof. induction a; simpl; congruence. Qed.

Lemma append_is_empty (a b : string) : a ++ b = "" -> a = "" /\ b = "".
Proof. destruct a; simpl; [auto | discriminate]. Qed.

Lemma allChars_append (p : ascii -> bool) (a b : string) :
  JS.allChars p (a ++ b) = JS.allChars p a && JS.allChars p b.
Proof.
  induction a as [|c a IH]; simpl; [reflexivity|].
  rewrite IH. apply andb_assoc.
Qed.

(** ** The two replacements of [generateSlug] *)

Lemma replaceRuns_chars (s : string) :
  forall inRun, JS.allChars slugChar (replaceRuns inRun s) = true.
Proof.
  induction s as [|c s IH]; intros inRun; simpl; [reflexivity|].
  destruct (JS.isLowerAlnum c) eqn:Hc.
  - simpl. now rewrite (alnum_is_slugChar _ Hc), IH.
  - destruct inRun; simpl; now rewrite ?IH.
Qed.

Lemma dropLeadingHyphens_chars (p : ascii -> bool) (s : string) :
  JS.allChars p s = true -> JS.allChars p (dropLeadingHyphens s) = true.
Proof.
  induction s as [|c s IH]; simpl; [reflexivity|].
  intros H. apply andb_true_iff in H as [Hc Hs].
  destruct (isHyphen c); simpl; [auto | now rewrite Hc, Hs].
Qed.

Lemma dropTrailingHyphens_chars (p : ascii -> bool) (s : string) :
  JS.allChars p s = true -> JS.allChars p (dropTrailingHyphens s) = true.
Proof.
  induction s as [|c s IH]; simpl; [reflexivity|].
  intros H. apply andb_true_iff in H as [Hc Hs]. specialize (IH Hs).
  destruct (dropTrailingHyphens s) as [|d r].
  - destruct (isHyphen c); simpl; [reflexivity | now rewrite Hc].
  - change (p c && JS.allChars p (String d r) = true). now rewrite Hc, IH.
Qed.

Lemma dropLeadingHyphens_first (s : string) :
  JS.firstChar (dropLeadingHyphens s) <> Some hyphen.
Proof.
  induction s as [|c s IH]; simpl; [discriminate|].
  destruct (isHyphen c) eqn:Hc; [exact IH|].
  simpl. intros [= ->]. discriminate.
Qed.

Lemma dropTrailingHyphens_first (s : string) :
  JS.firstChar s <> Some hyphen ->
  JS.firstChar (dropTrailingHyphens s) <> Some hyphen.
Proof.
  destruct s as [|c s]; simpl; [discriminate|].
  intros H. destruct (dropTrailingHyphens s).
  - destruct (isHyphen c); simpl; [discriminate | exact H].
  - exact H.
Qed.

Lemma dropTrailingHyphens_last (s : string) :
  JS.lastChar (dropTrailingHyphens s) <> Some hyphen.
Proof.
  induction s as [|c s IH]; simpl; [discriminate|].
  destruct (dropTrailingHyphens s) as [|d r] eqn:E.
  - destruct (isHyphen c) eqn:Hc; simpl; [discriminate|].
    intros [= ->]. discriminate.
  - exact IH.
Qed.

Lemma dropTrailingHyphens_alnum (s : string) :
  JS.allChars JS.isLowerAlnum s = true -> dropTrailingHyphens s = s.
Proof.
  induction s as [|c s IH]; simpl; [reflexivity|].
  intros H. apply andb_true_iff in H as [Hc Hs]. rewrite (IH Hs).
  destruct s; [now rewrite (alnum_not_hyphen _ Hc) | reflexivity].
Qed.

Lemma dropTrailingHyphens_append (a b : string) :
  dropTrailingHyphens (a ++ b) =
  match dropTrailingHyphens b with
  | EmptyString => dropTrailingHyphens a
  | r => a ++ r
  end.
Proof.
  induction a as [|c a IH]; simpl.
  - now destruct (dropTrailingHyphens b).
  - rewrite IH. destruct (dropTrailingHyphens b) as [|d r]; [reflexivity|].
    now destruct a.
Qed.

(** Inside a run nothing is written until the run ends: the scan started
    in a run is the scan started outside it without its leading hyphens. *)
Lemma dropLeadingHyphens_inRun (s : string) :
  dropLeadingHyphens (replaceRuns true s) = replaceRuns true s.
Proof.
  induction s as [|c s IH]; simpl; [reflexivity|].
  destruct (JS.isLowerAlnum c) eqn:Hc; simpl; [|exact IH].
  now rewrite (alnum_not_hyphen _ Hc).
Qed.

Lemma dropLeadingHyphens_replaceRuns (s : string) :
  dropLeadingHyphens (replaceRuns false s) = replaceRuns true s.
Proof.
  destruct s as [|c s]; simpl; [reflexivity|].
  destruct (JS.isLowerAlnum c) eqn:Hc; simpl.
  - now rewrite (alnum_not_hyphen _ Hc).
  - apply dropLeadingHyphens_inRun.
Qed.

(** ** Words *)

Lemma flushWord_join (cur : string) (ws : list string) :
  ~ In "" ws ->
  JS.join "-" (flushWord cur ++ ws) =
  match ws with
  | [] => cur
  | _ => match cur with EmptyString => JS.join "-" ws | _ => cur ++ "-" ++ JS.join "-" ws end
  end.
Proof.
  intros _. destruct cur, ws; reflexivity.
Qed.

Lemma alnumWords_nonempty (s : string) :
  forall cur, ~ In "" (alnumWords cur s).
Proof.
  induction s as [|c s IH]; intros cur; simpl.
  - destruct cur; simpl; [tauto | intros [H|[]]; discriminate].
  - destruct (JS.isLowerAlnum c); [apply IH|].
    intros H. apply in_app_or in H as [H|H]; [|exact (IH _ H)].
    destruct cur; simpl in H; [tauto | destruct H as [H|[]]; discriminate].
Qed.

Lemma join_empty (ws : list string) :
  ~ In "" ws -> JS.join "-" ws = "" -> ws = [].
Proof.
  destruct ws as [|w ws]; [reflexivity|].
  intros Hin H. exfalso. apply Hin. left.
  destruct ws; simpl in H; [now symmetry|].
  apply append_is_empty in H as [-> _]. reflexivity.
Qed.

(** The scan and the words agree, inside a word and between two words. *)
Lemma replaceRuns_words (s : string) :
  (forall cur, cur <> "" -> JS.allChars JS.isLowerAlnum cur = true ->
     dropTrailingHyphens (cur ++ replaceRuns false s)
     = JS.join "-" (alnumWords cur s))
  /\ dropTrailingHyphens (replaceRuns true s) = JS.join "-" (alnumWords "" s).
Proof.
  induction s as [|c s [IHw IHr]]; simpl.
  - split; [|reflexivity].
    intros cur Hne Hcur. rewrite append_empty_r.
    rewrite (dropTrailingHyphens_alnum _ Hcur). now destruct cur.
  - destruct (JS.isLowerAlnum c) eqn:Hc.
    + assert (Hstep : forall cur, JS.allChars JS.isLowerAlnum cur = true ->
                dropTrailingHyphens (cur ++ String c (replaceRuns false s))
                = JS.join "-" (alnumWords (cur ++ String c "") s)).
      { intros cur Hcur.
        change (String c (replaceRuns false s))
          with (String c "" ++ replaceRuns false s).
        rewrite <- append_assoc. apply IHw.
        - intros H. apply append_is_empty in H as [_ H]. discriminate.
        - rewrite allChars_append, Hcur. simpl. now rewrite Hc. }
      split; [intros cur _ Hcur; now apply Hstep | exact (Hstep "" eq_refl)].
    + split; [|exact IHr].
      intros cur Hne Hcur.
      rewrite dropTrailingHyphens_append. simpl dropTrailingHyphens at 1.
      rewrite IHr.
      rewrite (flushWord_join _ _ (alnumWords_nonempty s "")).
      destruct (JS.join "-" (alnumWords "" s)) as [|d r] eqn:E.
      * rewrite (join_empty _ (alnumWords_nonempty s "") E).
        change (isHyphen hyphen) with true. cbn iota.
        apply dropTrailingHyphens_alnum, Hcur.
      * destruct (alnumWords "" s) as [|w ws] eqn:Ew; [discriminate E|].
        destruct cur; [congruence | reflexivity].
Qed.

Lemma alnumWords_trimStart (s : string) :
  alnumWords "" (JS.trimStart s) = alnumWords "" s.
Proof.
  induction s as [|c s IH]; simpl; [reflexivity|].
  destruct (JS.isWhiteSpace c) eqn:Hc; [|reflexivity].
  now rewrite (space_not_alnum _ Hc).
Qed.

Lemma alnumWords_trimEnd (s : string) :
  forall cur, alnumWords cur (JS.trimEnd s) = alnumWords cur s.
Proof.
  induction s as [|c s IH]; intros cur; simpl; [reflexivity|].
  destruct (JS.trimEnd s) as [|d r] eqn:E.
  - destruct (JS.isWhiteSpace c) eqn:Hc.
    + rewrite (space_not_alnum _ Hc), <- IH. simpl. now rewrite app_nil_r.
    + simpl. destruct (JS.isLowerAlnum c); now rewrite <- IH.
  - simpl alnumWords at 1. destruct (JS.isLowerAlnum c); now rewrite <- IH.
Qed.

Lemma alnumWords_trim (s : string) :
  alnumWords "" (JS.trim s) = alnumWords "" s.
Proof.
  unfold JS.trim. now rewrite alnumWords_trimEnd, alnumWords_trimStart.
Qed.

Lemma generateSlug_words (title : string) :
  generateSlug title = slugOfWords title.
Proof.
  unfold generateSlug, slugOfWords, stripHyphens.
  rewrite dropLeadingHyphens_replaceRuns.
  rewrite (proj2 (replaceRuns_words _)). now rewrite alnumWords_trim.
Qed.

(** ** No two hyphens side by side *)

Lemma hasDoubleHyphen_cons (c : ascii) (s : string) :
  hasDoubleHyphen (String c s)
  = (isHyphen c && headIsHyphen s) || hasDoubleHyphen s.
Proof. destruct s; simpl; [now rewrite andb_false_r | reflexivity]. Qed.

Lemma replaceRuns_inRun_head (s : string) :
  headIsHyphen (replaceRuns true s) = false.
Proof.
  induction s as [|c s IH]; simpl; [reflexivity|].
  destruct (JS.isLowerAlnum c) eqn:Hc; [|exact IH].
  simpl. apply alnum_not_hyphen, Hc.
Qed.

Lemma replaceRuns_single (s : string) :
  forall inRun, hasDoubleHyphen (replaceRuns inRun s) = false.
Proof.
  induction s as [|c s IH]; intros inRun; [reflexivity|].
  cbn [replaceRuns]. destruct (JS.isLowerAlnum c) eqn:Hc.
  - rewrite hasDoubleHyphen_cons, IH, (alnum_not_hyphen _ Hc). reflexivity.
  - destruct inRun; [apply IH|].
    rewrite hasDoubleHyphen_cons, IH, replaceRuns_inRun_head.
    now rewrite andb_false_r.
Qed.

Lemma dropLeadingHyphens_single (s : string) :
  hasDoubleHyphen s = false -> hasDoubleHyphen (dropLeadingHyphens s) = false.
Proof.
  induction s as [|c s IH]; [reflexivity|].
  intros H. cbn [dropLeadingHyphens].
  destruct (isHyphen c); [|exact H].
  apply IH. rewrite hasDoubleHyphen_cons in H.
  now apply orb_false_iff in H.
Qed.

Lemma dropTrailingHyphens_head (s : string) :
  dropTrailingHyphens s <> "" ->
  headIsHyphen (dropTrailingHyphens s) = headIsHyphen s.
Proof.
  destruct s as [|c s]; simpl; [reflexivity|].
  destruct (dropTrailingHyphens s); [|reflexivity].
  destruct (isHyphen c) eqn:Hc; [congruence | simpl; now rewrite Hc].
Qed.

Lemma dropTrailingHyphens_single (s : string) :
  hasDoubleHyphen s = false -> hasDoubleHyphen (dropTrailingHyphens s) = false.
Proof.
  induction s as [|c s IH]; [reflexivity|].
  rewrite hasDoubleHyphen_cons. intros H.
  apply orb_false_iff in H as [Hc Hs]. specialize (IH Hs).
  cbn [dropTrailingHyphens].
  destruct (dropTrailingHyphens s) as [|d r] eqn:E.
  - now destruct (isHyphen c).
  - rewrite hasDoubleHyphen_cons, IH, <- E, dropTrailingHyphens_head, Hc;
      [reflexivity | rewrite E; discriminate].
Qed.

Lemma toLowerCase_slugChars (s : string) :
  JS.allChars slugChar s = true -> JS.toLowerCase s = s.
Proof.
  induction s as [|c s IH]; simpl; [reflexivity|].
  intros H. apply andb_true_iff in H as [Hc Hs].
  now rewrite (slugChar_lower _ Hc), (IH Hs).
Qed.

Lemma generateSlug_chars (title : string) :
  JS.allChars slugChar (generateSlug title) = true.
Proof.
  unfold generateSlug, stripHyphens.
  apply dropTrailingHyphens_chars, dropLeadingHyphens_chars, replaceRuns_chars.
Qed.

(** ** C1 *)

(** C1. [generateSlug] is a total function from strings to strings, so no
    input raises an error.  For every title, and so for every non-empty
    one, the slug has only characters of [[a-z0-9-]], is in lower case (it
    is its own [toLowerCase]), and neither starts nor ends with a hyphen.
    It is the words of the lower-cased title, its maximal runs of
    characters of [[a-z0-9]], joined by single hyphens: every run of other
    characters between two words has become one hyphen, those at the two
    ends are gone, and no two hyphens stand side by side.  The slug of the
    empty title is the empty string. *)
Theorem generateSlug_url_safe (title : string) :
  JS.allChars slugChar (generateSlug title) = true
  /\ JS.toLowerCase (generateSlug title) = generateSlug title
  /\ JS.firstChar (generateSlug title) <> Some hyphen
  /\ JS.lastChar (generateSlug title) <> Some hyphen
  /\ generateSlug title = JS.join "-" (alnumWords "" (JS.toLowerCase title))
  /\ hasDoubleHyphen (generateSlug title) = false
  /\ generateSlug "" = "".
Proof.
  pose proof (generateSlug_chars title) as Hchars.
  repeat split.
  - exact Hchars.
  - apply toLowerCase_slugChars, Hchars.
  - apply dropTrailingHyphens_first, dropLeadingHyphens_first.
  - apply dropTrailingHyphens_last.
  - apply generateSlug_words.
  - apply dropTrailingHyphens_single, dropLeadingHyphens_single, replaceRuns_single.
Qed.

(** ** Evaluations of the slug and of [toISOString] *)

Example generateSlug_ex1 :
  generateSlug "  Tech Conference 2024! " = "tech-conference-2024".
Proof. reflexivity. Qed.

Example generateSlug_ex2 : generateSlug "AI & ML -- Summit" = "ai-ml-summit".
Proof. reflexivity. Qed.

Example generateSlug_ex3 : slugOfWords "AI & ML -- Summit" = "ai-ml-summit".
Proof. reflexivity. Qed.

Example toISOString_epoch :
  JSDate.toISOString 0 = "1970-01-01T00:00:00.000Z".
Proof. reflexivity. Qed.

Example toISOString_2024 :
  JSDate.toISOString 1726358400000 = "2024-09-15T00:00:00.000Z".
Proof. reflexivity. Qed.

Example toISOString_min :
  JSDate.toISOString (- JSDate.maxTime) = "-271821-04-20T00:00:00.000Z".
Proof. reflexivity. Qed.

Example toISOString_max :
  JSDate.toISOString JSDate.maxTime = "+275760-09-13T00:00:00.000Z".
Proof. reflexivity. Qed.

Example toISOString_leap :
  JSDate.toISOString 951782400000 = "2000-02-29T00:00:00.000Z".
Proof. reflexivity. Qed.

Example toISOString_before_epoch :
  JSDate.toISOString (-1) = "1969-12-31T23:59:59.999Z".
Proof. reflexivity. Qed.

(** ** Evaluation over ranges *)

Lemma sameResult_eq (a b : result string) : sameResult a b = true -> a = b.
Proof.
  destruct a, b; simpl; try discriminate; intros H;
    apply String.eqb_eq in H; now subst.
Qed.

Lemma forallInRange_spec (lo hi : Z) (f : Z -> bool) :
  forallInRange lo hi f = true -> forall x, lo <= x <= hi -> f x = true.
Proof.
  unfold forallInRange. intros H x Hx.
  rewrite forallb_forall in H. apply H.
  apply in_map_iff. exists (Z.to_nat (x - lo)). split; [lia|].
  apply in_seq. lia.
Qed.

(** ** C2 *)

Lemma clock12_all (LocalTZA : Z -> Z) (legacy : string -> option Z) :
  forallInRange 1 12 (fun h =>
    forallInRange 0 59 (fun m => clock12Checked LocalTZA legacy h m)) = true.
Proof. vm_compute. reflexivity. Qed.

(** C2. In every time zone, [normalizeTime] maps "9:30 AM" to "09:30",
    "9:30 PM" to "21:30", "12:00 AM" to "00:00" and "12:00 PM" to "12:00".
    More generally a time [h:mm AM] or [h:mm PM] of the 12-hour clock, with
    [h] from 1 to 12, comes out with hour 00 for 12 AM, hour 12 for 12 PM,
    the same hour for another AM time and the hour plus 12 for another PM
    time. *)
Theorem normalizeTime_twelve_hour_clock
  (LocalTZA : Z -> Z) (legacy : string -> option Z) :
  normalizeTime LocalTZA legacy "9:30 AM" = Ok "09:30"
  /\ normalizeTime LocalTZA legacy "9:30 PM" = Ok "21:30"
  /\ normalizeTime LocalTZA legacy "12:00 AM" = Ok "00:00"
  /\ normalizeTime LocalTZA legacy "12:00 PM" = Ok "12:00"
  /\ forall h m, 1 <= h <= 12 -> 0 <= m <= 59 ->
       normalizeTime LocalTZA legacy (clock12 h m "AM")
       = Ok (hhmm (if h =? 12 then 0 else h) m)
       /\ normalizeTime LocalTZA legacy (clock12 h m "PM")
          = Ok (hhmm (if h =? 12 then 12 else h + 12) m).
Proof.
  repeat split; try reflexivity.
  - pose proof (forallInRange_spec _ _ _ (clock12_all LocalTZA legacy) h H) as Hh.
    pose proof (forallInRange_spec _ _ _ Hh m H0) as Hm.
    apply andb_true_iff in Hm as [Ham _]. exact (sameResult_eq _ _ Ham).
  - pose proof (forallInRange_spec _ _ _ (clock12_all LocalTZA legacy) h H) as Hh.
    pose proof (forallInRange_spec _ _ _ Hh m H0) as Hm.
    apply andb_true_iff in Hm as [_ Hpm]. exact (sameResult_eq _ _ Hpm).
Qed.

Lemma normalizeTime_twelve_hour_clock_witness :
  1 <= 9 <= 12 /\ 0 <= 30 <= 59
  /\ normalizeTime utc noLegacy "9:30 PM" = Ok "21:30".
Proof.
  split; [lia|]. split; [lia|].
  apply (proj2 (proj2 (proj2 (proj2 (proj2
          (normalizeTime_twelve_hour_clock utc noLegacy)))) 9 30
          ltac:(lia) ltac:(lia))).
Defined.

(** The conversion of lines 129-133 on its own. *)
Lemma to24Hour_rule (hour : Z) :
  to24Hour hour None = hour
  /\ to24Hour hour (Some "AM") = (if hour =? 12 then 0 else hour)
  /\ to24Hour hour (Some "am") = (if hour =? 12 then 0 else hour)
  /\ to24Hour hour (Some "PM") = (if hour <? 12 then hour + 12 else hour)
  /\ to24Hour hour (Some "pm") = (if hour <? 12 then hour + 12 else hour).
Proof.
  unfold to24Hour. cbn.
  repeat split; destruct (hour <? 12) eqn:E; try reflexivity.
  all: destruct (hour + 12 =? 12) eqn:E'; try reflexivity.
  all: apply Z.eqb_eq in E'; apply Z.ltb_ge in E || apply Z.ltb_lt in E.
  all: destruct (hour =? 12) eqn:E''; try reflexivity.
  all: apply Z.eqb_eq in E'' || apply Z.eqb_neq in E''; lia.
Qed.

(** ** C3 *)

(** Whatever [normalizeTime] returns is a time [HH:MM] of the 24-hour
    clock. *)
Lemma normalizeTime_canonical
  (LocalTZA : Z -> Z) (legacy : string -> option Z) (value r : string) :
  normalizeTime LocalTZA legacy value = Ok r ->
  exists h m, 0 <= h <= 23 /\ 0 <= m <= 59 /\ r = hhmm h m.
Proof.
  unfold normalizeTime.
  destruct (JS.isEmpty value); [discriminate|].
  destruct (DateParse _ _ _) as [t|].
  - intros [= <-].
    exists (JSDate.HourFromTime t), (JSDate.MinFromTime t).
    unfold JSDate.HourFromTime, JSDate.MinFromTime.
    pose proof (Z.mod_pos_bound (t / JSDate.msPerHour) 24).
    pose proof (Z.mod_pos_bound (t / JSDate.msPerMinute) 60).
    repeat split; lia.
  - destruct (matchTime _) as [[[m1 m2] m3]|]; [|discriminate].
    set (hour := to24Hour _ _). set (minute := match m2 with Some _ => _ | None => _ end).
    destruct (_ || _) eqn:E; [discriminate|].
    intros [= <-]. exists hour, minute.
    repeat (apply orb_false_iff in E as [E ?]).
    repeat split; lia.
Qed.

Lemma canonical_all (legacy : string -> option Z) :
  forallInRange 0 23 (fun h =>
    forallInRange 0 59 (fun m => canonicalChecked legacy h m)) = true.
Proof. vm_compute. reflexivity. Qed.

(** In UTC a time in canonical form is returned as it is. *)
Lemma normalizeTime_utc_canonical (legacy : string -> option Z) (h m : Z) :
  0 <= h <= 23 -> 0 <= m <= 59 ->
  normalizeTime utc legacy (hhmm h m) = Ok (hhmm h m).
Proof.
  intros Hh Hm.
  pose proof (forallInRange_spec _ _ _ (canonical_all legacy) h Hh) as H.
  exact (sameResult_eq _ _ (forallInRange_spec _ _ _ H m Hm)).
Qed.

(** When the process runs in UTC, [normalizeTime] is idempotent. *)
Lemma normalizeTime_utc_idempotent
  (legacy : string -> option Z) (value r : string) :
  normalizeTime utc legacy value = Ok r ->
  normalizeTime utc legacy r = Ok r.
Proof.
  intros H. apply normalizeTime_canonical in H as (h & m & Hh & Hm & ->).
  now apply normalizeTime_utc_canonical.
Qed.

Lemma moved_behind_all (legacy : string -> option Z) :
  forallInRange (-1439) (-1) (movedChecked legacy) = true.
Proof. vm_compute. reflexivity. Qed.

Lemma moved_ahead_all (legacy : string -> option Z) :
  forallInRange 1 1439 (movedChecked legacy) = true.
Proof. vm_compute. reflexivity. Qed.

(** In a zone that is not UTC a time in canonical form is not returned as
    it is. *)
Lemma normalizeTime_moved_off_utc (legacy : string -> option Z) (minutes : Z) :
  -1439 <= minutes <= 1439 -> minutes <> 0 ->
  normalizeTime (fixedZone minutes) legacy "21:00" <> Ok "21:00".
Proof.
  intros Hr Hne Heq.
  assert (H : movedChecked legacy minutes = true).
  { destruct (Z_lt_dec minutes 0).
    - apply (forallInRange_spec _ _ _ (moved_behind_all legacy)). lia.
    - apply (forallInRange_spec _ _ _ (moved_ahead_all legacy)). lia. }
  unfold movedChecked in H. rewrite Heq in H. discriminate.
Qed.

(** C3. [normalizeTime] is not idempotent when the process runs in a time
    zone other than UTC: [new Date("1970-01-01T21:00")] is 21:00 local
    time, and [getUTCHours] reads the hour in UTC.  Three hours ahead of
    UTC "21:00" becomes "18:00", which becomes "15:00"; "9:30 PM", read by
    the pattern, becomes "21:30", which becomes "18:30". *)
Theorem normalizeTime_shifted_by_zone (legacy : string -> option Z) :
  normalizeTime (fixedZone 180) legacy "21:00" = Ok "18:00"
  /\ normalizeTime (fixedZone 180) legacy "18:00" = Ok "15:00"
  /\ normalizeTime (fixedZone 180) legacy "9:30 PM" = Ok "21:30"
  /\ normalizeTime (fixedZone 180) legacy "21:30" = Ok "18:30".
Proof. repeat split. Qed.

(** ** C4 *)

(** A date without a time is read in UTC, and comes back in every zone. *)
Lemma normalizeDate_iso_example
  (LocalTZA : Z -> Z) (legacy : string -> option Z) :
  normalizeDate LocalTZA legacy "2024-09-15" = Ok "2024-09-15".
Proof. reflexivity. Qed.

(** In UTC the date written in words gives the same day. *)
Lemma normalizeDate_september_utc :
  normalizeDate utc (Legacy.monthDayYear utc) "September 15, 2024"
  = Ok "2024-09-15".
Proof. reflexivity. Qed.


Lemma september_behind_all :
  forallInRange (-1439) 0 (septemberChecked "2024-09-15") = true.
Proof. vm_compute. reflexivity. Qed.

Lemma september_ahead_all :
  forallInRange 1 1440 (septemberChecked "2024-09-14") = true.
Proof. vm_compute. reflexivity. Qed.

(** The day is kept in the zones at or behind UTC, and lost in those ahead
    of it. *)
Lemma normalizeDate_september_zone (minutes : Z) :
  -1439 <= minutes <= 1440 ->
  normalizeDate (fixedZone minutes) (Legacy.monthDayYear (fixedZone minutes))
    "September 15, 2024"
  = Ok (if minutes <=? 0 then "2024-09-15" else "2024-09-14").
Proof.
  intros H. destruct (minutes <=? 0) eqn:E.
  - apply Z.leb_le in E. apply sameResult_eq.
    apply (forallInRange_spec _ _ _ september_behind_all). lia.
  - apply Z.leb_gt in E. apply sameResult_eq.
    apply (forallInRange_spec _ _ _ september_ahead_all). lia.
Qed.

(** C4. [normalizeDate] returns the UTC calendar date of the instant it
    has parsed, and "September 15, 2024" is parsed as midnight local time:
    three hours ahead of UTC that instant is 21:00 of the day before in
    UTC, and the function returns "2024-09-14", not "2024-09-15". *)
Theorem normalizeDate_september_ahead_of_utc :
  DateParse (fixedZone 180) (Legacy.monthDayYear (fixedZone 180))
    "September 15, 2024"
  = Some (1726358400000 - 180 * 60000)
  /\ JSDate.toISOString (1726358400000 - 180 * 60000) = "2024-09-14T21:00:00.000Z"
  /\ normalizeDate (fixedZone 180) (Legacy.monthDayYear (fixedZone 180))
       "September 15, 2024"
     = Ok "2024-09-14".
Proof. repeat split. Qed.

(** ** Calendar arithmetic *)

Ltac lia_div := Z.div_mod_to_equations; lia.

Lemma DayFromYear_succ (y : Z) :
  JSDate.DayFromYear (y + 1) = JSDate.DayFromYear y + JSDate.DaysInYear y.
Proof.
  unfold JSDate.DayFromYear, JSDate.DaysInYear, JSDate.isLeap.
  destruct (y mod 4 =? 0) eqn:E4; destruct (y mod 100 =? 0) eqn:E100;
    destruct (y mod 400 =? 0) eqn:E400; cbn [andb orb negb];
    rewrite ?Z.eqb_eq, ?Z.eqb_neq in *; lia_div.
Qed.

(** [YearFromDay d] is the year that holds day [d]. *)
Lemma YearFromDay_spec (d : Z) :
  JSDate.DayFromYear (JSDate.YearFromDay d) <= d
  < JSDate.DayFromYear (JSDate.YearFromDay d + 1).
Proof.
  unfold JSDate.YearFromDay.
  set (y0 := 1970 + 400 * d / 146097).
  destruct (d <? JSDate.DayFromYear y0) eqn:E1.
  - apply Z.ltb_lt in E1. replace (y0 - 1 + 1) with y0 by lia.
    split; [|exact E1]. unfold JSDate.DayFromYear in *. subst y0. lia_div.
  - apply Z.ltb_ge in E1.
    destruct (JSDate.DayFromYear (y0 + 1) <=? d) eqn:E2.
    + apply Z.leb_le in E2. split; [exact E2|].
      unfold JSDate.DayFromYear in *. subst y0. lia_div.
    + apply Z.leb_gt in E2. lia.
Qed.

Lemma DayFromYear_mono (a b : Z) :
  a <= b -> JSDate.DayFromYear a <= JSDate.DayFromYear b.
Proof. unfold JSDate.DayFromYear. intros H. lia_div. Qed.

Lemma DayWithinYear_range (t : Z) :
  0 <= JSDate.DayWithinYear t < JSDate.DaysInYear (JSDate.YearFromTime t).
Proof.
  unfold JSDate.DayWithinYear, JSDate.YearFromTime.
  pose proof (YearFromDay_spec (JSDate.Day t)) as H.
  rewrite DayFromYear_succ in H. lia.
Qed.

Lemma month_date_range (leap : bool) (dwy : Z) :
  0 <= dwy < (if leap then 366 else 365) ->
  let m := JSDate.monthOfDayWithinYear leap dwy in
  0 <= m <= 11 /\ 1 <= dwy - JSDate.daysBeforeMonth leap m + 1 <= 31.
Proof.
  intros H. unfold JSDate.monthOfDayWithinYear.
  repeat match goal with
         | |- context [if ?a <? ?b then _ else _] =>
             let E := fresh "E" in
             destruct (Z.ltb_spec a b) as [E|E]; cbn in E |- *
         end;
    destruct leap; cbn in *; lia.
Qed.

(** The year, month and day of a time value are a month from 0 to 11 and
    a day from 1 to 31, and make up its day number. *)
Lemma civil_of_time (t : Z) :
  0 <= JSDate.MonthFromTime t <= 11
  /\ 1 <= JSDate.DateFromTime t <= 31
  /\ JSDate.MakeDay (JSDate.YearFromTime t) (JSDate.MonthFromTime t)
       (JSDate.DateFromTime t) = JSDate.Day t.
Proof.
  pose proof (DayWithinYear_range t) as Hr.
  unfold JSDate.DaysInYear in Hr.
  pose proof (month_date_range _ _ Hr) as [Hm Hd].
  unfold JSDate.DateFromTime, JSDate.MonthFromTime, JSDate.MakeDay.
  repeat split; try lia.
  unfold JSDate.DayWithinYear. lia.
Qed.

Lemma Day_of_midnight (day : Z) :
  JSDate.Day (JSDate.MakeDate day 0) = day.
Proof. unfold JSDate.Day, JSDate.MakeDate, JSDate.msPerDay. lia_div. Qed.

(** ** Digits *)

Lemma digitChar_facts (k : Z) :
  0 <= k <= 9 ->
  JS.isDigit (Num.digitChar k) = true /\ Num.digitVal (Num.digitChar k) = k.
Proof.
  intros H.
  assert (k = 0 \/ k = 1 \/ k = 2 \/ k = 3 \/ k = 4 \/ k = 5 \/ k = 6
          \/ k = 7 \/ k = 8 \/ k = 9) as Hk by lia.
  repeat destruct Hk as [->|Hk]; try subst k; split; reflexivity.
Qed.

Lemma digit_not_sign (c : ascii) :
  JS.isDigit c = true -> Parse.isSign c = false.
Proof. by_cases_on_char c. Qed.

Lemma digit_not_hyphen (c : ascii) :
  JS.isDigit c = true -> Ascii.eqb c "-"%char = false.
Proof. by_cases_on_char c. Qed.

Lemma spanDigits_stop (s : string) :
  noDigitAhead s = true -> Num.spanDigits s = ("", s).
Proof.
  destruct s as [|c s]; simpl; [reflexivity|].
  now destruct (JS.isDigit c).
Qed.

Lemma fixedNumber_two (c1 c2 : ascii) (r : string) :
  JS.isDigit c1 = true -> JS.isDigit c2 = true -> noDigitAhead r = true ->
  Num.fixedNumber 2 (String c1 (String c2 r))
  = Some (Num.Number (String c1 (String c2 "")), r).
Proof.
  intros H1 H2 Hr. unfold Num.fixedNumber. cbn [Num.spanDigits].
  now rewrite H1, H2, (spanDigits_stop _ Hr).
Qed.

Lemma fixedNumber_four (c1 c2 c3 c4 : ascii) (r : string) :
  JS.isDigit c1 = true -> JS.isDigit c2 = true -> JS.isDigit c3 = true ->
  JS.isDigit c4 = true -> noDigitAhead r = true ->
  Num.fixedNumber 4 (String c1 (String c2 (String c3 (String c4 r))))
  = Some (Num.Number (String c1 (String c2 (String c3 (String c4 "")))), r).
Proof.
  intros H1 H2 H3 H4 Hr. unfold Num.fixedNumber. cbn [Num.spanDigits].
  now rewrite H1, H2, H3, H4, (spanDigits_stop _ Hr).
Qed.

(** Reading a date [YYYY-MM-DD] made of digits. *)
Lemma isoDate_ymd (c1 c2 c3 c4 c5 c6 c7 c8 : ascii) :
  JS.isDigit c1 = true -> JS.isDigit c2 = true -> JS.isDigit c3 = true ->
  JS.isDigit c4 = true -> JS.isDigit c5 = true -> JS.isDigit c6 = true ->
  JS.isDigit c7 = true -> JS.isDigit c8 = true ->
  Parse.isoDate
    (String c1 (String c2 (String c3 (String c4 (String "-"
      (String c5 (String c6 (String "-" (String c7 (String c8 ""))))))))))
  = let y := Num.Number (String c1 (String c2 (String c3 (String c4 ""))))  in
    let m := Num.Number (String c5 (String c6 "")) in
    let d := Num.Number (String c7 (String c8 "")) in
    if Parse.inRange 1 12 m
    then (if Parse.inRange 1 31 d then Some (y, m, d, "") else None)
    else None.
Proof.
  intros H1 H2 H3 H4 H5 H6 H7 H8.
  unfold Parse.isoDate, Parse.year.
  rewrite (digit_not_sign _ H1).
  rewrite fixedNumber_four by (assumption || reflexivity).
  unfold Parse.dashField at 1. cbn [Parse.symbol Ascii.eqb Bool.eqb].
  rewrite fixedNumber_two by (assumption || reflexivity). cbv zeta.
  destruct (Parse.inRange 1 12 _); [|reflexivity].
  unfold Parse.dashField. cbn [Parse.symbol Ascii.eqb Bool.eqb].
  rewrite fixedNumber_two by (assumption || reflexivity).
  destruct (Parse.inRange 1 31 _); reflexivity.
Qed.

Lemma slice0_append_exact (n : nat) (a b : string) :
  String.length a = n -> slice0 n (a ++ b) = a.
Proof.
  revert a. induction n as [|n IH]; intros [|c a]; simpl; try discriminate;
    try reflexivity.
  intros [= H]. now rewrite IH.
Qed.

(** ** C5 *)

(** The first ten characters of [toISOString] are the date when the year
    has four digits. *)
Lemma slice_of_toISOString (t : Z) :
  0 <= JSDate.YearFromTime t <= 9999 ->
  slice0 10 (JSDate.toISOString t)
  = dateText (JSDate.YearFromTime t) (JSDate.MonthFromTime t + 1)
      (JSDate.DateFromTime t).
Proof.
  intros Hy. unfold JSDate.toISOString, JSDate.isoYear, dateText.
  replace ((0 <=? JSDate.YearFromTime t) && (JSDate.YearFromTime t <=? 9999))
    with true by (symmetry; apply andb_true_iff; split; apply Z.leb_le; lia).
  cbn [Num.fixedDigits append slice0]. reflexivity.
Qed.

(** With a year of more digits they start with a sign. *)
Lemma slice_of_toISOString_expanded (t : Z) :
  ~ 0 <= JSDate.YearFromTime t <= 9999 ->
  isYYYYMMDD (slice0 10 (JSDate.toISOString t)) = false.
Proof.
  intros Hy. unfold JSDate.toISOString, JSDate.isoYear.
  replace ((0 <=? JSDate.YearFromTime t) && (JSDate.YearFromTime t <=? 9999))
    with false
    by (symmetry; apply andb_false_iff;
        destruct (Z.leb_spec 0 (JSDate.YearFromTime t)); [right|left];
        [apply Z.leb_gt; lia | reflexivity]).
  cbn [Num.fixedDigits append slice0].
  destruct (JSDate.YearFromTime t <? 0); reflexivity.
Qed.

Lemma dateText_digits (y m d : Z) :
  0 <= y <= 9999 -> 0 <= m <= 99 -> 0 <= d <= 99 ->
  Parse.isoDate (dateText y m d)
  = if Parse.inRange 1 12 m
    then (if Parse.inRange 1 31 d then Some (y, m, d, "") else None)
    else None.
Proof.
  intros Hy Hm Hd. unfold dateText. cbn [Num.fixedDigits append].
  assert (Hdig : forall k, 0 <= k mod 10 <= 9)
    by (intros k; pose proof (Z.mod_pos_bound k 10); lia).
  rewrite isoDate_ymd by (apply digitChar_facts, Hdig).
  unfold Num.Number. cbn [Num.numValFrom].
  rewrite !(proj2 (digitChar_facts _ (Hdig _))).
  replace (10 * (10 * (10 * (10 * 0 + y / 10 / 10 / 10 mod 10)
           + y / 10 / 10 mod 10) + y / 10 mod 10) + y mod 10) with y by lia_div.
  replace (10 * (10 * 0 + m / 10 mod 10) + m mod 10) with m by lia_div.
  replace (10 * (10 * 0 + d / 10 mod 10) + d mod 10) with d by lia_div.
  reflexivity.
Qed.

(** A date [YYYY-MM-DD] that [normalizeDate] has returned is returned as
    it is, in every time zone. *)
Lemma normalizeDate_fixpoint
  (LocalTZA : Z -> Z) (legacy : string -> option Z) (t : Z) :
  0 <= JSDate.YearFromTime t <= 9999 ->
  normalizeDate LocalTZA legacy (slice0 10 (JSDate.toISOString t))
  = Ok (slice0 10 (JSDate.toISOString t)).
Proof.
  intros Hy. rewrite (slice_of_toISOString t Hy).
  pose proof (civil_of_time t) as (Hm & Hd & Hday).
  unfold normalizeDate.
  replace (JS.isEmpty (dateText _ _ _)) with false by reflexivity.
  unfold DateParse. rewrite dateText_digits by lia.
  replace (Parse.inRange 1 12 (JSDate.MonthFromTime t + 1)) with true
    by (symmetry; apply andb_true_iff; split; apply Z.leb_le; lia).
  replace (Parse.inRange 1 31 (JSDate.DateFromTime t)) with true
    by (symmetry; apply andb_true_iff; split; apply Z.leb_le; lia).
  replace (JSDate.MonthFromTime t + 1 - 1) with (JSDate.MonthFromTime t) by lia.
  rewrite Hday.
  pose proof (YearFromDay_spec (JSDate.Day t)) as Hs.
  fold (JSDate.YearFromTime t) in Hs.
  pose proof (DayFromYear_mono 0 _ (proj1 Hy)) as Hlo.
  pose proof (DayFromYear_mono (JSDate.YearFromTime t + 1) 10000 ltac:(lia)) as Hhi.
  change (JSDate.DayFromYear 0) with (-719528) in Hlo.
  change (JSDate.DayFromYear 10000) with 2932897 in Hhi.
  unfold JSDate.TimeClip.
  replace (Z.abs (JSDate.MakeDate (JSDate.Day t) 0) <=? JSDate.maxTime) with true
    by (symmetry; apply Z.leb_le; unfold JSDate.MakeDate, JSDate.msPerDay,
        JSDate.maxTime; lia).
  set (t' := JSDate.MakeDate (JSDate.Day t) 0).
  assert (Hd' : JSDate.Day t' = JSDate.Day t) by apply Day_of_midnight.
  assert (Hy' : JSDate.YearFromTime t' = JSDate.YearFromTime t)
    by (unfold JSDate.YearFromTime; now rewrite Hd').
  assert (Hw' : JSDate.DayWithinYear t' = JSDate.DayWithinYear t)
    by (unfold JSDate.DayWithinYear; now rewrite Hd', Hy').
  assert (Hm' : JSDate.MonthFromTime t' = JSDate.MonthFromTime t)
    by (unfold JSDate.MonthFromTime; now rewrite Hw', Hy').
  assert (Hdt' : JSDate.DateFromTime t' = JSDate.DateFromTime t)
    by (unfold JSDate.DateFromTime; now rewrite Hw', Hm', Hy').
  rewrite slice_of_toISOString by (rewrite Hy'; exact Hy).
  now rewrite Hy', Hm', Hdt'.
Qed.

Lemma normalizeDate_inversion
  (LocalTZA : Z -> Z) (legacy : string -> option Z) (value r : string) :
  normalizeDate LocalTZA legacy value = Ok r ->
  exists t, value <> "" /\ DateParse LocalTZA legacy value = Some t
            /\ r = slice0 10 (JSDate.toISOString t).
Proof.
  unfold normalizeDate. destruct value as [|c value]; [discriminate|].
  cbn [JS.isEmpty].
  destruct (DateParse LocalTZA legacy (String c value)) as [t|]; [|discriminate].
  intros H. exists t. repeat split; [discriminate|].
  injection H as H. now rewrite <- H.
Qed.

Lemma isEmpty_spec (s : string) : JS.isEmpty s = true <-> s = "".
Proof. destruct s; simpl; split; congruence. Qed.

(** C5, as the code has it.  In every time zone: a result of the form
    YYYY-MM-DD that [normalizeDate] has returned is returned unchanged when
    it is normalized again; [normalizeDate] throws "Date is required"
    exactly when the input is empty, and "Invalid date" exactly when the
    input is not empty and [new Date] cannot parse it; and it throws in
    these two cases only. *)
Theorem normalizeDate_idempotent_and_errors
  (LocalTZA : Z -> Z) (legacy : string -> option Z) (value : string) :
  (forall r, normalizeDate LocalTZA legacy value = Ok r ->
             isYYYYMMDD r = true ->
             normalizeDate LocalTZA legacy r = Ok r)
  /\ (normalizeDate LocalTZA legacy value = Err "Date is required"
      <-> value = "")
  /\ (normalizeDate LocalTZA legacy value = Err "Invalid date"
      <-> value <> "" /\ DateParse LocalTZA legacy value = None)
  /\ (isOk (normalizeDate LocalTZA legacy value) = false
      <-> value = "" \/ DateParse LocalTZA legacy value = None).
Proof.
  split; [|unfold normalizeDate; destruct value as [|c value]; cbn [JS.isEmpty]].
  - intros r H Hr.
    apply normalizeDate_inversion in H as (t & _ & _ & ->).
    destruct (Z_le_dec 0 (JSDate.YearFromTime t)) as [H0|H0];
      [destruct (Z_le_dec (JSDate.YearFromTime t) 9999) as [H1|H1]|].
    + apply normalizeDate_fixpoint. lia.
    + rewrite slice_of_toISOString_expanded in Hr by lia. discriminate.
    + rewrite slice_of_toISOString_expanded in Hr by lia. discriminate.
  - intuition (try discriminate; auto).
  - destruct (DateParse LocalTZA legacy (String c value)) as [t|];
      cbn [isOk]; intuition (try discriminate; auto).
Qed.

Lemma normalizeDate_idempotent_and_errors_witness :
  normalizeDate (fixedZone 180) noLegacy "2024-09-15T01:30" = Ok "2024-09-14"
  /\ isYYYYMMDD "2024-09-14" = true
  /\ normalizeDate (fixedZone 180) noLegacy "2024-09-14" = Ok "2024-09-14".
Proof.
  assert (H : normalizeDate (fixedZone 180) noLegacy "2024-09-15T01:30"
              = Ok "2024-09-14") by reflexivity.
  split; [exact H|]. split; [reflexivity|].
  exact (proj1 (normalizeDate_idempotent_and_errors (fixedZone 180) noLegacy
                  "2024-09-15T01:30") "2024-09-14" H eq_refl).
Defined.

(** C5 as it is stated fails twice.  The empty input is refused with
    "Date is required", not with "Invalid date".  And the first day that a
    [Date] can hold, in year -271821, is normalized to its year and month,
    "-271821-04", which stand for a day before that one: normalizing it
    again fails. *)
Lemma normalizeDate_empty_and_first_day :
  normalizeDate utc noLegacy "" = Err "Date is required"
  /\ normalizeDate utc noLegacy "" <> Err "Invalid date"
  /\ normalizeDate utc noLegacy "-271821-04-20" = Ok "-271821-04"
  /\ normalizeDate utc noLegacy "-271821-04" = Err "Invalid date".
Proof. repeat split. discriminate. Qed.

(** ** C10 *)

Section HourOnly.

Variable LocalTZA : Z -> Z.
Variable legacy : string -> option Z.

(** What follows the hour: spaces, then AM or PM or nothing. *)
Variable n : nat.
Variable ampm : string.
Hypothesis ampm_known : In ampm ampmTexts.

Let rest : string := spaces n ++ ampm.

Ltac each_ampm :=
  let H := fresh in
  pose proof ampm_known as H; cbv [ampmTexts In] in H;
  repeat destruct H as [H|H]; try contradiction; subst rest; subst ampm.

Lemma rest_noDigitAhead : noDigitAhead rest = true.
Proof. each_ampm; destruct n; reflexivity. Qed.

Lemma rest_no_colon : Parse.symbol ":"%char rest = None.
Proof. each_ampm; destruct n; reflexivity. Qed.

Lemma rest_no_separator :
  match rest with
  | String c r => if isSeparator c then matchMinutes r else None
  | EmptyString => None
  end = None.
Proof. each_ampm; destruct n; reflexivity. Qed.

Lemma rest_no_digits (k : nat) : takeDigits (S k) rest = None.
Proof. each_ampm; destruct n; reflexivity. Qed.

Lemma rest_skipWhiteSpace : skipWhiteSpace rest = ampm.
Proof. each_ampm; induction n as [|k IH]; try reflexivity; exact IH. Qed.

Lemma rest_matchSeparator : matchSeparator rest = Some (None, ampmGroup ampm).
Proof.
  unfold matchSeparator. rewrite rest_no_separator. cbn [orElse].
  unfold matchMinutes. rewrite rest_no_digits. cbn [orElse].
  unfold matchSuffix. rewrite rest_skipWhiteSpace.
  each_ampm; reflexivity.
Qed.

Lemma rest_trimEnd :
  JS.trimEnd rest = if JS.isEmpty ampm then "" else rest.
Proof.
  each_ampm; cbn [JS.isEmpty]; induction n as [|k IH]; try reflexivity;
    cbn [spaces append JS.trimEnd]; cbn [spaces append] in IH; rewrite IH;
    try reflexivity.
  all: destruct k; reflexivity.
Qed.

Lemma isoDate_base (s : string) :
  Parse.isoDate ("1970-01-01T" ++ s) = Some (1970, 1, 1, String "T" s).
Proof. reflexivity. Qed.

Lemma digit_not_word (c : ascii) :
  JS.isDigit c = true -> Parse.isWordChar c = false.
Proof. by_cases_on_char c. Qed.

Lemma digit_not_space (c : ascii) :
  JS.isDigit c = true -> JS.isWhiteSpace c = false.
Proof. by_cases_on_char c. Qed.

Lemma keyword_T_digit (c : ascii) (s : string) :
  JS.isDigit c = true ->
  Parse.keyword "t"%char (String "T" (String c s)) = Some (String c s).
Proof.
  intros H. unfold Parse.keyword, Parse.startsWord.
  now rewrite (digit_not_word _ H).
Qed.

(** [new Date] of the base date and an hour alone is an invalid date. *)
Lemma DateParse_hour_two (c1 c2 : ascii) :
  JS.isDigit c1 = true -> JS.isDigit c2 = true ->
  DateParse LocalTZA legacy ("1970-01-01T" ++ String c1 (String c2 rest)) = None.
Proof.
  intros H1 H2. unfold DateParse. rewrite isoDate_base.
  rewrite (keyword_T_digit _ _ H1). cbv beta iota. unfold Parse.isoTime.
  rewrite (fixedNumber_two _ _ _ H1 H2 rest_noDigitAhead), rest_no_colon.
  now destruct (Parse.inRange 0 24 _).
Qed.

Lemma DateParse_hour_one (c1 : ascii) :
  JS.isDigit c1 = true ->
  DateParse LocalTZA legacy ("1970-01-01T" ++ String c1 rest) = None.
Proof.
  intros H1. unfold DateParse. rewrite isoDate_base.
  rewrite (keyword_T_digit _ _ H1). cbv beta iota.
  unfold Parse.isoTime, Num.fixedNumber. cbn [Num.spanDigits].
  now rewrite H1, (spanDigits_stop _ rest_noDigitAhead).
Qed.

Lemma matchTime_hour_two (c1 c2 : ascii) :
  JS.isDigit c1 = true -> JS.isDigit c2 = true ->
  matchTime (String c1 (String c2 rest))
  = Some (String c1 (String c2 ""), None, ampmGroup ampm).
Proof.
  intros H1 H2. unfold matchTime. cbn [takeDigits].
  now rewrite H1, H2, rest_matchSeparator.
Qed.

Lemma matchTime_hour_one (c1 : ascii) :
  JS.isDigit c1 = true ->
  matchTime (String c1 rest) = Some (String c1 "", None, ampmGroup ampm).
Proof.
  intros H1. unfold matchTime.
  change (takeDigits 2 (String c1 rest))
    with (if JS.isDigit c1
          then match takeDigits 1 rest with
               | Some (ds, r') => Some (String c1 ds, r')
               | None => None
               end
          else None).
  rewrite H1, rest_no_digits. cbn [orElse takeDigits].
  now rewrite H1, rest_matchSeparator.
Qed.

End HourOnly.

Lemma trimEnd_cons (c : ascii) (s : string) :
  JS.trimEnd (String c s)
  = match JS.trimEnd s with
    | EmptyString => if JS.isWhiteSpace c then "" else String c ""
    | r => String c r
    end.
Proof. reflexivity. Qed.

Lemma trim_hour (h : string) (n : nat) (ampm : string) :
  In ampm ampmTexts ->
  JS.allChars JS.isDigit h = true -> h <> "" ->
  JS.trim (h ++ spaces n ++ ampm)
  = h ++ spaces (if JS.isEmpty ampm then 0 else n) ++ ampm.
Proof.
  intros Ha Hh Hne. unfold JS.trim.
  destruct h as [|c h]; [congruence|]. cbn [append JS.trimStart].
  cbn [JS.allChars] in Hh. apply andb_true_iff in Hh as [Hc Hh].
  rewrite (digit_not_space _ Hc). clear Hne.
  revert c Hc. induction h as [|d h IH]; intros c Hc.
  - cbn [append JS.trimEnd]. rewrite (rest_trimEnd n ampm Ha).
    rewrite (digit_not_space _ Hc).
    cbv [ampmTexts In] in Ha.
    repeat destruct Ha as [Ha|Ha]; try contradiction; subst ampm;
      try reflexivity; destruct n; reflexivity.
  - cbn [JS.allChars] in Hh. apply andb_true_iff in Hh as [Hd Hh].
    cbn [append]. cbn [append] in IH. rewrite trimEnd_cons, (IH Hh d Hd).
    reflexivity.
Qed.

Lemma to24Hour_range (h : Z) (g : option string) :
  0 <= h <= 23 -> 0 <= to24Hour h g <= 23.
Proof.
  intros H. unfold to24Hour. destruct g as [w|]; [|exact H].
  destruct (String.eqb (JS.toLowerCase w) "pm" && (h <? 12)) eqn:E.
  - apply andb_true_iff in E as [_ E]. apply Z.ltb_lt in E.
    cbv iota. destruct (_ && _); cbv iota; lia.
  - clear E. cbv iota. destruct (_ && _); cbv iota; lia.
Qed.

Lemma range_check_passes (hour : Z) :
  0 <= hour <= 23 ->
  (hour <? 0) || (hour >? 23) || (0 <? 0) || (0 >? 59) = false.
Proof.
  intros H. rewrite !orb_false_r. apply orb_false_iff. split.
  - apply Z.ltb_ge. lia.
  - rewrite Z.gtb_ltb. apply Z.ltb_ge. lia.
Qed.

Lemma normalizeTime_two_digits
  (LocalTZA : Z -> Z) (legacy : string -> option Z)
  (c1 c2 : ascii) (n : nat) (ampm : string) :
  JS.isDigit c1 = true -> JS.isDigit c2 = true ->
  0 <= Num.Number (String c1 (String c2 "")) <= 23 ->
  In ampm ampmTexts ->
  normalizeTime LocalTZA legacy (String c1 (String c2 (spaces n ++ ampm)))
  = Ok (hhmm (to24Hour (Num.Number (String c1 (String c2 ""))) (ampmGroup ampm)) 0).
Proof.
  intros H1 H2 Hh Ha. unfold normalizeTime. cbn [JS.isEmpty].
  change (String c1 (String c2 (spaces n ++ ampm)))
    with (String c1 (String c2 "") ++ spaces n ++ ampm).
  rewrite (trim_hour _ n ampm Ha)
    by (cbn [JS.allChars]; rewrite ?H1, ?H2; reflexivity || discriminate).
  set (n' := if JS.isEmpty ampm then 0%nat else n).
  change (String c1 (String c2 "") ++ spaces n' ++ ampm)
    with (String c1 (String c2 (spaces n' ++ ampm))).
  rewrite (DateParse_hour_two LocalTZA legacy n' ampm Ha c1 c2 H1 H2).
  rewrite (matchTime_hour_two n' ampm Ha c1 c2 H1 H2).
  now rewrite (range_check_passes _ (to24Hour_range _ _ Hh)).
Qed.

Lemma normalizeTime_one_digit
  (LocalTZA : Z -> Z) (legacy : string -> option Z)
  (c1 : ascii) (n : nat) (ampm : string) :
  JS.isDigit c1 = true ->
  0 <= Num.Number (String c1 "") <= 23 ->
  In ampm ampmTexts ->
  normalizeTime LocalTZA legacy (String c1 (spaces n ++ ampm))
  = Ok (hhmm (to24Hour (Num.Number (String c1 "")) (ampmGroup ampm)) 0).
Proof.
  intros H1 Hh Ha. unfold normalizeTime. cbn [JS.isEmpty].
  change (String c1 (spaces n ++ ampm))
    with (String c1 "" ++ spaces n ++ ampm).
  rewrite (trim_hour _ n ampm Ha)
    by (cbn [JS.allChars]; rewrite ?H1; reflexivity || discriminate).
  set (n' := if JS.isEmpty ampm then 0%nat else n).
  change (String c1 "" ++ spaces n' ++ ampm)
    with (String c1 (spaces n' ++ ampm)).
  rewrite (DateParse_hour_one LocalTZA legacy n' ampm Ha c1 H1).
  rewrite (matchTime_hour_one n' ampm Ha c1 H1).
  now rewrite (range_check_passes _ (to24Hour_range _ _ Hh)).
Qed.

Ltac each_hour h Hh :=
  let H := fresh in
  assert (h = 0 \/ h = 1 \/ h = 2 \/ h = 3 \/ h = 4 \/ h = 5 \/ h = 6 \/ h = 7
          \/ h = 8 \/ h = 9 \/ h = 10 \/ h = 11 \/ h = 12 \/ h = 13 \/ h = 14
          \/ h = 15 \/ h = 16 \/ h = 17 \/ h = 18 \/ h = 19 \/ h = 20
          \/ h = 21 \/ h = 22 \/ h = 23) as H by lia;
  clear Hh; repeat destruct H as [H|H]; subst h.

Ltac each_ampm_of Ha :=
  cbv [ampmTexts In] in Ha;
  repeat destruct Ha as [Ha|Ha]; try contradiction; subst.

(** C10. An input that is an hour from 0 to 23 in one or two digits, then
    any number of spaces, then AM, PM, am, pm or nothing, is accepted in
    every time zone, though it has no minutes: [new Date] does not parse
    it, the pattern matches it with its second group undefined, and the
    result is the hour on the 24-hour clock with minute 00. *)
Theorem normalizeTime_hour_only
  (LocalTZA : Z -> Z) (legacy : string -> option Z)
  (twoDigits : bool) (h : Z) (n : nat) (ampm : string) :
  0 <= h <= 23 -> In ampm ampmTexts ->
  normalizeTime LocalTZA legacy (hourText twoDigits h ++ spaces n ++ ampm)
  = Ok (hhmm (hourOnly24 h ampm) 0).
Proof.
  intros Hh Ha.
  each_hour h Hh; destruct twoDigits;
    match goal with
    | |- context [hourText ?b ?k] =>
        let s := eval vm_compute in (hourText b k) in
        change (hourText b k) with s
    end;
    cbn [append];
    first
      [ rewrite normalizeTime_two_digits
          by (reflexivity || assumption || (vm_compute; intuition discriminate))
      | rewrite normalizeTime_one_digit
          by (reflexivity || assumption || (vm_compute; intuition discriminate)) ];
    each_ampm_of Ha; reflexivity.
Qed.

Lemma normalizeTime_hour_only_witness :
  0 <= 9 <= 23 /\ In "PM" ampmTexts
  /\ normalizeTime utc noLegacy "9 PM" = Ok "21:00".
Proof.
  split; [lia|]. split; [cbv; tauto|].
  apply (normalizeTime_hour_only utc noLegacy false 9 1 "PM"); [lia | cbv; tauto].
Defined.

Lemma normalizeTime_hour_examples
  (LocalTZA : Z -> Z) (legacy : string -> option Z) :
  normalizeTime LocalTZA legacy "9" = Ok "09:00"
  /\ normalizeTime LocalTZA legacy "9 PM" = Ok "21:00"
  /\ normalizeTime LocalTZA legacy "12am" = Ok "00:00"
  /\ normalizeTime LocalTZA legacy "25" = Err "Invalid time value".
Proof. repeat split. Qed.

(** ** The [pre('save')] hook of events *)

Lemma trimEnd_notSpace (s : string) :
  JS.allChars notSpace s = true -> JS.trimEnd s = s.
Proof.
  induction s as [|c s IH]; [reflexivity|].
  cbn [JS.allChars]. intros H. apply andb_true_iff in H as [Hc Hs].
  rewrite trimEnd_cons, (IH Hs). unfold notSpace in Hc.
  apply negb_true_iff in Hc. rewrite Hc. now destruct s.
Qed.

Lemma trim_notSpace (s : string) :
  JS.allChars notSpace s = true -> JS.trim s = s.
Proof.
  intros H. unfold JS.trim.
  replace (JS.trimStart s) with s; [now apply trimEnd_notSpace|].
  destruct s as [|c s]; [reflexivity|].
  cbn [JS.allChars] in H. apply andb_true_iff in H as [Hc _].
  unfold notSpace in Hc. apply negb_true_iff in Hc. cbn. now rewrite Hc.
Qed.

Lemma allChars_weaken (p q : ascii -> bool) (s : string) :
  (forall c, p c = true -> q c = true) ->
  JS.allChars p s = true -> JS.allChars q s = true.
Proof.
  intros Hpq. induction s as [|c s IH]; [reflexivity|].
  cbn [JS.allChars]. intros H. apply andb_true_iff in H as [Hc Hs].
  now rewrite (Hpq _ Hc), (IH Hs).
Qed.

Lemma slugChar_notSpace (c : ascii) : slugChar c = true -> notSpace c = true.
Proof. by_cases_on_char c. Qed.

Lemma digit_notSpace (c : ascii) : JS.isDigit c = true -> notSpace c = true.
Proof. by_cases_on_char c. Qed.

(** The setter [trim] leaves a slug as it is. *)
Lemma trim_generateSlug (title : string) :
  JS.trim (generateSlug title) = generateSlug title.
Proof.
  apply trim_notSpace.
  apply (allChars_weaken slugChar); [exact slugChar_notSpace|].
  apply generateSlug_chars.
Qed.

(** It leaves a normalized date as it is. *)
Lemma trim_normalizeDate
  (LocalTZA : Z -> Z) (legacy : string -> option Z) (value r : string) :
  normalizeDate LocalTZA legacy value = Ok r -> JS.trim r = r.
Proof.
  intros H. apply normalizeDate_inversion in H as (t & _ & _ & ->).
  apply trim_notSpace.
  assert (Hdig : forall k, notSpace (Num.digitChar (k mod 10)) = true).
  { intros k. apply digit_notSpace, digitChar_facts.
    pose proof (Z.mod_pos_bound k 10). lia. }
  unfold JSDate.toISOString, JSDate.isoYear.
  destruct ((0 <=? JSDate.YearFromTime t) && (JSDate.YearFromTime t <=? 9999));
    [|destruct (JSDate.YearFromTime t <? 0)];
    cbn [Num.fixedDigits append slice0 JS.allChars];
    rewrite !Hdig; reflexivity.
Qed.

Lemma trim_all : forallInRange 0 23 (fun h => forallInRange 0 59 (trimChecked h)) = true.
Proof. vm_compute. reflexivity. Qed.

(** It leaves a normalized time as it is. *)
Lemma trim_normalizeTime
  (LocalTZA : Z -> Z) (legacy : string -> option Z) (value r : string) :
  normalizeTime LocalTZA legacy value = Ok r -> JS.trim r = r.
Proof.
  intros H. apply normalizeTime_canonical in H as (h & m & Hh & Hm & ->).
  apply String.eqb_eq.
  exact (forallInRange_spec _ _ _ (forallInRange_spec _ _ _ trim_all h Hh) m Hm).
Qed.

Section HookFrame.

Variable LocalTZA : Z -> Z.
Variable legacy : string -> option Z.

Import EventModel.

Lemma isModified_markModified (p q : string) (changed : bool) (doc : EventDocument) :
  String.eqb p q = false ->
  existsb (String.eqb p) (markModified q changed doc) = isModified p doc.
Proof.
  intros Hpq. unfold markModified.
  destruct (changed && negb (isModified q doc)); [|reflexivity].
  cbn [existsb]. now rewrite Hpq.
Qed.

Lemma isModified_setSlug (p v : string) (doc : EventDocument) :
  String.eqb p "slug" = false ->
  isModified p (setSlug v doc) = isModified p doc.
Proof. intros H. now apply isModified_markModified. Qed.

Lemma isModified_setDate (p v : string) (doc : EventDocument) :
  String.eqb p "date" = false ->
  isModified p (setDate v doc) = isModified p doc.
Proof. intros H. now apply isModified_markModified. Qed.

(** What the hook does to a document. *)
Lemma preSave_outcome (doc : EventDocument) :
  isOk (preSave LocalTZA legacy doc)
  = (negb (isModified "date" doc) || isOk (normalizeDate LocalTZA legacy (date doc)))
    && (negb (isModified "time" doc) || isOk (normalizeTime LocalTZA legacy (time doc)))
  /\ forall doc', preSave LocalTZA legacy doc = Ok doc' ->
       slug doc' = (if isModified "title" doc || noSlug doc
                    then Some (generateSlug (title doc)) else slug doc)
       /\ (if isModified "date" doc
           then normalizeDate LocalTZA legacy (date doc) = Ok (date doc')
           else date doc' = date doc)
       /\ (if isModified "time" doc
           then normalizeTime LocalTZA legacy (time doc) = Ok (time doc')
           else time doc' = time doc)
       /\ _id doc' = _id doc /\ title doc' = title doc
       /\ description doc' = description doc /\ overview doc' = overview doc
       /\ image doc' = image doc /\ venue doc' = venue doc
       /\ location doc' = location doc /\ mode doc' = mode doc
       /\ audience doc' = audience doc /\ agenda doc' = agenda doc
       /\ organizer doc' = organizer doc /\ tags doc' = tags doc
       /\ createdAt doc' = createdAt doc /\ updatedAt doc' = updatedAt doc.
Proof.
  unfold preSave.
  set (doc1 := if isModified "title" doc || noSlug doc
               then setSlug (generateSlug (title doc)) doc else doc).
  assert (Hd1 : isModified "date" doc1 = isModified "date" doc).
  { subst doc1. destruct (_ || _); [|reflexivity].
    now apply isModified_setSlug. }
  assert (H1 : slug doc1 = (if isModified "title" doc || noSlug doc
                            then Some (generateSlug (title doc)) else slug doc)
               /\ date doc1 = date doc /\ time doc1 = time doc
               /\ isModified "time" doc1 = isModified "time" doc).
  { subst doc1. destruct (_ || _); repeat split;
      try (now apply isModified_setSlug).
    cbn [slug setSlug]. now rewrite trim_generateSlug. }
  destruct H1 as (Hs1 & Hdate1 & Htime1 & Ht1).
  assert (Hrest1 : _id doc1 = _id doc /\ title doc1 = title doc
       /\ description doc1 = description doc /\ overview doc1 = overview doc
       /\ image doc1 = image doc /\ venue doc1 = venue doc
       /\ location doc1 = location doc /\ mode doc1 = mode doc
       /\ audience doc1 = audience doc /\ agenda doc1 = agenda doc
       /\ organizer doc1 = organizer doc /\ tags doc1 = tags doc
       /\ createdAt doc1 = createdAt doc /\ updatedAt doc1 = updatedAt doc).
  { subst doc1. destruct (_ || _); repeat split. }
  rewrite Hd1. clearbody doc1.
  destruct (isModified "date" doc) eqn:Emd; cbn [negb orb andb].
  - rewrite Hdate1.
    destruct (normalizeDate LocalTZA legacy (date doc)) as [d|msg] eqn:End;
      cbn [bind isOk andb]; [|split; [reflexivity | discriminate]].
    assert (Ht2 : isModified "time" (setDate d doc1) = isModified "time" doc)
      by (rewrite <- Ht1; now apply isModified_setDate).
    rewrite Ht2. cbn [time setDate]. rewrite Htime1.
    destruct (isModified "time" doc) eqn:Emt; cbn [negb orb].
    + destruct (normalizeTime LocalTZA legacy (time doc)) as [t|msg] eqn:Ent;
        cbn [bind isOk]; [|split; [reflexivity | discriminate]].
      split; [reflexivity|]. intros doc' [= <-]. cbn -[isModified noSlug].
      rewrite (trim_normalizeDate _ _ _ _ End), (trim_normalizeTime _ _ _ _ Ent).
      tauto.
    + split; [reflexivity|]. intros doc' [= <-]. cbn -[isModified noSlug].
      rewrite (trim_normalizeDate _ _ _ _ End). tauto.
  - cbn [bind]. rewrite Ht1, Htime1.
    destruct (isModified "time" doc) eqn:Emt; cbn [negb orb].
    + destruct (normalizeTime LocalTZA legacy (time doc)) as [t|msg] eqn:Ent;
        cbn [bind isOk]; [|split; [reflexivity | discriminate]].
      split; [reflexivity|]. intros doc' [= <-]. cbn -[isModified noSlug].
      rewrite (trim_normalizeTime _ _ _ _ Ent). tauto.
    + split; [reflexivity|]. intros doc' [= <-]. tauto.
Qed.

(** C9. The hook succeeds exactly when the normalizers accept the date
    and the time that have been modified.  When it does, the slug has been
    set to [generateSlug] of the title if the title is modified or there
    is no slug, and is the old one otherwise; the date is the normalized
    old date if the date is modified, and the old date otherwise; likewise
    the time; every other attribute is as it was. *)
Theorem preSave_frame (doc : EventDocument) :
  isOk (preSave LocalTZA legacy doc)
  = (negb (isModified "date" doc) || isOk (normalizeDate LocalTZA legacy (date doc)))
    && (negb (isModified "time" doc) || isOk (normalizeTime LocalTZA legacy (time doc)))
  /\ forall doc', preSave LocalTZA legacy doc = Ok doc' ->
       slug doc' = (if isModified "title" doc || noSlug doc
                    then Some (generateSlug (title doc)) else slug doc)
       /\ (if isModified "date" doc
           then normalizeDate LocalTZA legacy (date doc) = Ok (date doc')
           else date doc' = date doc)
       /\ (if isModified "time" doc
           then normalizeTime LocalTZA legacy (time doc) = Ok (time doc')
           else time doc' = time doc)
       /\ _id doc' = _id doc /\ title doc' = title doc
       /\ description doc' = description doc /\ overview doc' = overview doc
       /\ image doc' = image doc /\ venue doc' = venue doc
       /\ location doc' = location doc /\ mode doc' = mode doc
       /\ audience doc' = audience doc /\ agenda doc' = agenda doc
       /\ organizer doc' = organizer doc /\ tags doc' = tags doc
       /\ createdAt doc' = createdAt doc /\ updatedAt doc' = updatedAt doc.
Proof. exact (preSave_outcome doc). Qed.

End HookFrame.

Lemma preSave_frame_witness :
  let doc := loadedEvent 1 "Tech Conference 2024" "my-own-slug"
               "2024-09-15T10:00" "21:30" ["date"] in
  let doc' := loadedEvent 1 "Tech Conference 2024" "my-own-slug"
                "2024-09-15" "21:30" ["date"] in
  EventModel.preSave utc noLegacy doc = Ok doc'
  /\ EventModel.slug doc' = Some "my-own-slug"
  /\ normalizeDate utc noLegacy "2024-09-15T10:00" = Ok (EventModel.date doc')
  /\ EventModel.time doc' = "21:30".
Proof.
  cbv zeta.
  assert (H : EventModel.preSave utc noLegacy
                (loadedEvent 1 "Tech Conference 2024" "my-own-slug"
                   "2024-09-15T10:00" "21:30" ["date"])
              = Ok (loadedEvent 1 "Tech Conference 2024" "my-own-slug"
                      "2024-09-15" "21:30" ["date"]))
    by (vm_compute; reflexivity).
  split; [exact H|].
  destruct (proj2 (preSave_frame utc noLegacy _) _ H) as (Hs & Hd & Ht & _).
  split; [exact Hs|]. split; [exact Hd | exact Ht].
Defined.

(** A loaded event whose title has not changed keeps its slug, and one
    whose date alone has changed has its date normalized, nothing else. *)
Lemma preSave_examples :
  EventModel.preSave utc noLegacy
    (loadedEvent 1 "Tech Conference 2024" "my-own-slug" "2024-09-15T10:00" "21:30"
       ["date"])
  = Ok (loadedEvent 1 "Tech Conference 2024" "my-own-slug" "2024-09-15" "21:30"
          ["date"]).
Proof. vm_compute. reflexivity. Qed.

(** ** Saving bookings: C6 *)

Lemma bookingPreSave_log (doc : BookingModel.BookingDocument) (db : Database) :
  let found := existsb (fun e => EventModel._id e =? BookingModel.eventId doc) (events db) in
  bookingPreSave doc db
  = (logged (EventExists (BookingModel.eventId doc)) db,
     if found then Ok tt else Err "Referenced event does not exist").
Proof. unfold bookingPreSave, eventExists. cbv zeta. now destruct (existsb _ _). Qed.

(** A booking that passes the rules and whose event exists is written. *)
Lemma saveBooking_writes (doc : BookingModel.BookingDocument) (db : Database) :
  BookingModel.validate doc = [] ->
  existsb (fun e => EventModel._id e =? BookingModel.eventId doc) (events db) = true ->
  snd (saveBooking doc db) = None
  /\ bookings (fst (saveBooking doc db)) = (bookings db ++ [doc])%list.
Proof.
  intros Hv Hex. unfold saveBooking. rewrite Hv, bookingPreSave_log.
  cbv zeta. rewrite Hex. split; reflexivity.
Qed.

(** C6, as the code has it.  A booking that refers to no existing event is
    never written, whatever else is wrong with it.  When its fields pass
    the rules of the schema, the save fails with "Referenced event does
    not exist" after one read of the events and no write; when moreover the
    event exists, the save succeeds: the booking is added after that one
    read. *)
Theorem saveBooking_referential_integrity
  (doc : BookingModel.BookingDocument) (db : Database) :
  let found :=
    existsb (fun e => EventModel._id e =? BookingModel.eventId doc) (events db) in
  (found = false ->
     snd (saveBooking doc db) <> None
     /\ bookings (fst (saveBooking doc db)) = bookings db
     /\ events (fst (saveBooking doc db)) = events db)
  /\ (BookingModel.validate doc = [] -> found = false ->
        snd (saveBooking doc db)
        = Some (HookError "Referenced event does not exist")
        /\ log (fst (saveBooking doc db))
           = (log db ++ [EventExists (BookingModel.eventId doc)])%list)
  /\ (BookingModel.validate doc = [] -> found = true ->
        snd (saveBooking doc db) = None
        /\ bookings (fst (saveBooking doc db)) = (bookings db ++ [doc])%list
        /\ events (fst (saveBooking doc db)) = events db
        /\ log (fst (saveBooking doc db))
           = (log db ++ [EventExists (BookingModel.eventId doc);
                         WriteBooking (BookingModel._id doc)])%list).
Proof.
  cbv zeta. unfold saveBooking. rewrite bookingPreSave_log. cbv zeta.
  destruct (existsb _ (events db)); repeat split; try discriminate;
    destruct (BookingModel.validate doc) as [|e errors];
    try discriminate; try reflexivity.
  cbn. now rewrite <- app_assoc.
Qed.

Lemma saveBooking_referential_integrity_witness :
  let db := fst (saveEvent utc noLegacy
                   (newEvent 7 "Cloud Expo" (Some "draft") "2024-11-15" "08:00 AM")
                   emptyDatabase) in
  let doc := BookingModel.newBooking 1 7 "User@Example.com" in
  BookingModel.validate doc = []
  /\ existsb (fun e => EventModel._id e =? 7) (events db) = true
  /\ snd (saveBooking doc db) = None
  /\ bookings (fst (saveBooking doc db)) = [doc].
Proof.
  cbv zeta. split; [reflexivity|]. split; [reflexivity|].
  pose proof (proj2 (proj2 (saveBooking_referential_integrity
    (BookingModel.newBooking 1 7 "User@Example.com")
    (fst (saveEvent utc noLegacy
            (newEvent 7 "Cloud Expo" (Some "draft") "2024-11-15" "08:00 AM")
            emptyDatabase)))) eq_refl eq_refl) as (H1 & H2 & _).
  split; [exact H1 | exact H2].
Defined.

(** C6 as it is stated fails: with an email that breaks the rule of the
    schema, a booking for an event that does not exist is refused for its
    email, before the hook has looked for the event. *)
Lemma saveBooking_invalid_email_first :
  let doc := BookingModel.newBooking 1 42 "not-an-email" in
  existsb (fun e => EventModel._id e =? 42) (events emptyDatabase) = false
  /\ saveBooking doc emptyDatabase
     = (emptyDatabase, Some (ValidationError [("email", "Invalid email format")]))
  /\ snd (saveBooking doc emptyDatabase)
     <> Some (HookError "Referenced event does not exist").
Proof. cbv zeta. repeat split. discriminate. Qed.

(** ** Saving events: C7 *)

(** Dropping documents keeps a key unique. *)
Lemma unique_after_filter {K : Type}
  (key : EventModel.EventDocument -> K) (keep : EventModel.EventDocument -> bool)
  (docs : list EventModel.EventDocument) :
  NoDup (map key docs) -> NoDup (map key (filter keep docs)).
Proof.
  induction docs as [|doc docs IH]; cbn; [auto|].
  intros H. inversion H as [|? ? Hin Hnd]; subst.
  destruct (keep doc); cbn; [|auto].
  constructor; [|auto].
  intros Hf. apply Hin. apply in_map_iff in Hf as (x & Hx & Hxin).
  apply in_map_iff. exists x. split; [exact Hx|].
  now apply filter_In in Hxin.
Qed.

Lemma NoDup_snoc {A : Type} (l : list A) (a : A) :
  NoDup l -> ~ In a l -> NoDup (l ++ [a]).
Proof.
  induction l as [|b l IH]; cbn; intros Hnd Hin.
  - constructor; [tauto | constructor].
  - inversion Hnd as [|? ? Hb Hl]; subst. constructor.
    + intros H. apply in_app_or in H as [H|[H|[]]]; [tauto|]. subst. tauto.
    + apply IH; tauto.
Qed.

Lemma optionEqb_eq (a b : option string) :
  EventModel.optionEqb a b = true <-> a = b.
Proof.
  destruct a, b; cbn; split; try congruence; try discriminate.
  - intros H. apply String.eqb_eq in H. now subst.
  - intros [= ->]. apply String.eqb_refl.
Qed.

(** The write keeps identifiers and slugs unique. *)
Lemma writeEvent_unique (doc : EventModel.EventDocument) (db : Database) :
  uniqueIds db -> uniqueSlugs db ->
  uniqueIds (fst (writeEvent doc db)) /\ uniqueSlugs (fst (writeEvent doc db)).
Proof.
  unfold uniqueIds, uniqueSlugs, writeEvent. intros Hi Hs.
  destruct (slugTaken doc db) eqn:E; cbn [fst events logged]; [tauto|].
  rewrite !map_app. cbn [map]. split; apply NoDup_snoc.
  - now apply unique_after_filter.
  - intros H. apply in_map_iff in H as (e & He & Hin).
    apply filter_In in Hin as [_ Hin].
    apply negb_true_iff, Z.eqb_neq in Hin. congruence.
  - now apply unique_after_filter.
  - intros H. apply in_map_iff in H as (e & He & Hin).
    apply filter_In in Hin as [Hin Hne].
    unfold slugTaken in E.
    assert (Hex : existsb
              (fun e0 => negb (EventModel._id e0 =? EventModel._id doc)
                         && EventModel.optionEqb (EventModel.slug e0) (EventModel.slug doc))
              (events db) = true).
    { apply existsb_exists. exists e. split; [exact Hin|].
      rewrite Hne. now apply optionEqb_eq. }
    congruence.
Qed.

Section SaveEvent.

Variable LocalTZA : Z -> Z.
Variable legacy : string -> option Z.

(** What a save that succeeds has done. *)
Lemma saveEvent_inversion (doc : EventModel.EventDocument) (db : Database) :
  snd (saveEvent LocalTZA legacy doc db) = None ->
  exists doc',
    EventModel.validate doc = []
    /\ EventModel.preSave LocalTZA legacy doc = Ok doc'
    /\ slugTaken doc' db = false
    /\ In doc' (events (fst (saveEvent LocalTZA legacy doc db))).
Proof.
  unfold saveEvent.
  destruct (EventModel.validate doc); [|discriminate].
  destruct (EventModel.preSave LocalTZA legacy doc) as [doc'|]; [|discriminate].
  unfold writeEvent. destruct (slugTaken doc' db) eqn:E; [discriminate|].
  intros _. exists doc'. split; [reflexivity|]. split; [reflexivity|].
  split; [exact E|]. cbn [fst events].
  apply in_or_app. right. now left.
Qed.

(** C7, as the code has it.  Saving keeps the slugs of the events of the
    collection, and their identifiers, unique.  When an event has been
    saved, a second one whose title gives the same slug and whose fields
    pass the rules and the hook is refused: by the unique index, at the
    write, with a duplicate key error.  Nothing is written, and the
    collection has not been read before the write: neither the rules of
    the schema nor the hook check that the slug is free. *)
Theorem saveEvent_unique_slug
  (first second : EventModel.EventDocument) (db : Database) :
  let saved := fst (saveEvent LocalTZA legacy first db) in
  (uniqueIds db -> uniqueSlugs db -> uniqueIds saved /\ uniqueSlugs saved)
  /\ (snd (saveEvent LocalTZA legacy first db) = None ->
      EventModel.isModified "title" first = true ->
      EventModel.isModified "title" second = true ->
      generateSlug (EventModel.title first) = generateSlug (EventModel.title second) ->
      EventModel._id first <> EventModel._id second ->
      EventModel.validate second = [] ->
      isOk (EventModel.preSave LocalTZA legacy second) = true ->
      snd (saveEvent LocalTZA legacy second saved) = Some (DuplicateKey "slug_1")
      /\ events (fst (saveEvent LocalTZA legacy second saved)) = events saved
      /\ bookings (fst (saveEvent LocalTZA legacy second saved)) = bookings saved
      /\ log (fst (saveEvent LocalTZA legacy second saved))
         = (log saved ++ [WriteEvent (EventModel._id second)])%list).
Proof.
  cbv zeta. split.
  - intros Hi Hs. unfold saveEvent.
    destruct (EventModel.validate first); [|now split].
    destruct (EventModel.preSave LocalTZA legacy first); [|now split].
    now apply writeEvent_unique.
  - intros Hsaved Hm1 Hm2 Hslug Hid Hv Hok.
    apply saveEvent_inversion in Hsaved as (first' & _ & Hp1 & _ & Hin).
    set (saved := fst (saveEvent LocalTZA legacy first db)) in *.
    destruct (proj2 (preSave_outcome LocalTZA legacy first) _ Hp1)
      as (Hs1 & _ & _ & Hid1 & _).
    rewrite Hm1 in Hs1. cbn [orb] in Hs1.
    unfold saveEvent at 1 2 3 4. rewrite Hv.
    destruct (EventModel.preSave LocalTZA legacy second) as [second'|] eqn:Hp2;
      [|discriminate].
    destruct (proj2 (preSave_outcome LocalTZA legacy second) _ Hp2)
      as (Hs2 & _ & _ & Hid2 & _).
    rewrite Hm2 in Hs2. cbn [orb] in Hs2.
    assert (Htaken : slugTaken second' saved = true).
    { apply existsb_exists. exists first'. split; [exact Hin|].
      apply andb_true_iff. split.
      - apply negb_true_iff, Z.eqb_neq. congruence.
      - apply optionEqb_eq. congruence. }
    unfold writeEvent. rewrite Htaken. cbn. rewrite Hid2. repeat split.
Qed.

End SaveEvent.

Lemma saveEvent_unique_slug_witness :
  let first := newEvent 1 "Tech Conference 2024" (Some "draft-1") "2024-09-15" "10:00 AM" in
  let second := newEvent 2 "tech conference: 2024!" (Some "draft-2") "2024-10-20" "09:00 AM" in
  let saved := fst (saveEvent utc noLegacy first emptyDatabase) in
  snd (saveEvent utc noLegacy first emptyDatabase) = None
  /\ generateSlug (EventModel.title first) = generateSlug (EventModel.title second)
  /\ snd (saveEvent utc noLegacy second saved) = Some (DuplicateKey "slug_1")
  /\ events (fst (saveEvent utc noLegacy second saved)) = events saved.
Proof.
  cbv zeta.
  assert (H1 : snd (saveEvent utc noLegacy
                      (newEvent 1 "Tech Conference 2024" (Some "draft-1")
                         "2024-09-15" "10:00 AM") emptyDatabase) = None)
    by (vm_compute; reflexivity).
  assert (H2 : generateSlug (EventModel.title
                 (newEvent 1 "Tech Conference 2024" (Some "draft-1")
                    "2024-09-15" "10:00 AM"))
               = generateSlug (EventModel.title
                   (newEvent 2 "tech conference: 2024!" (Some "draft-2")
                      "2024-10-20" "09:00 AM")))
    by (vm_compute; reflexivity).
  split; [exact H1|]. split; [exact H2|].
  destruct (proj2 (saveEvent_unique_slug utc noLegacy
              (newEvent 1 "Tech Conference 2024" (Some "draft-1")
                 "2024-09-15" "10:00 AM")
              (newEvent 2 "tech conference: 2024!" (Some "draft-2")
                 "2024-10-20" "09:00 AM")
              emptyDatabase) H1)
    as (Hd & He & _).
  - vm_compute; reflexivity.
  - vm_compute; reflexivity.
  - exact H2.
  - vm_compute. discriminate.
  - vm_compute; reflexivity.
  - vm_compute; reflexivity.
  - split; [exact Hd | exact He].
Defined.

(** C7 as it is stated fails: the application makes no check of its own.
    The second event passes the rules of the schema and the hook, the
    collection is not read, and the refusal is that of the index at the
    write. *)
Lemma saveEvent_no_application_check :
  let first := newEvent 1 "Tech Conference 2024" (Some "draft-1") "2024-09-15" "10:00 AM" in
  let second := newEvent 2 "tech conference: 2024!" (Some "draft-2") "2024-10-20" "09:00 AM" in
  let saved := fst (saveEvent utc noLegacy first emptyDatabase) in
  EventModel.validate second = []
  /\ isOk (EventModel.preSave utc noLegacy second) = true
  /\ snd (saveEvent utc noLegacy second saved) = Some (DuplicateKey "slug_1")
  /\ log (fst (saveEvent utc noLegacy second saved)) = [WriteEvent 1; WriteEvent 2].
Proof. cbv zeta. repeat split; vm_compute; reflexivity. Qed.

(** The rules of the schema are checked before the hook runs, and the slug
    is required: a new event that comes without a slug is refused before
    the hook could give it one. *)
Lemma saveEvent_new_without_slug :
  saveEvent utc noLegacy
    (newEvent 1 "Tech Conference 2024" None "2024-09-15" "10:00 AM") emptyDatabase
  = (emptyDatabase, Some (ValidationError [("slug", "Path `slug` is required.")])).
Proof. vm_compute. reflexivity. Qed.

(** ** The email of a booking: C8 *)

Lemma toLowerChar_space (c : ascii) :
  JS.isWhiteSpace (JS.toLowerChar c) = JS.isWhiteSpace c.
Proof. by_cases_on_char c. Qed.

Lemma toLowerChar_plain (c : ascii) :
  BookingModel.isPlain (JS.toLowerChar c) = BookingModel.isPlain c.
Proof. by_cases_on_char c. Qed.

Lemma toLowerChar_at (c : ascii) :
  Ascii.eqb (JS.toLowerChar c) "@" = Ascii.eqb c "@".
Proof. by_cases_on_char c. Qed.

Lemma toLowerChar_dot (c : ascii) :
  Ascii.eqb (JS.toLowerChar c) "." = Ascii.eqb c ".".
Proof. by_cases_on_char c. Qed.

Lemma toLowerCase_isEmpty (s : string) :
  JS.isEmpty (JS.toLowerCase s) = JS.isEmpty s.
Proof. now destruct s. Qed.

Lemma trimStart_toLowerCase (s : string) :
  JS.trimStart (JS.toLowerCase s) = JS.toLowerCase (JS.trimStart s).
Proof.
  induction s as [|c s IH]; [reflexivity|].
  cbn [JS.toLowerCase JS.trimStart]. rewrite toLowerChar_space.
  now destruct (JS.isWhiteSpace c).
Qed.

Lemma trimEnd_toLowerCase (s : string) :
  JS.trimEnd (JS.toLowerCase s) = JS.toLowerCase (JS.trimEnd s).
Proof.
  induction s as [|c s IH]; [reflexivity|].
  cbn [JS.toLowerCase]. rewrite !trimEnd_cons, IH, toLowerChar_space.
  destruct (JS.trimEnd s); cbn [JS.toLowerCase]; [|reflexivity].
  now destruct (JS.isWhiteSpace c).
Qed.

(** The two setters commute: the order Mongoose applies them in does not
    show. *)
Lemma trim_toLowerCase (s : string) :
  JS.trim (JS.toLowerCase s) = JS.toLowerCase (JS.trim s).
Proof. unfold JS.trim. now rewrite trimStart_toLowerCase, trimEnd_toLowerCase. Qed.

Lemma spanPlain_toLowerCase (s : string) :
  BookingModel.spanPlain (JS.toLowerCase s)
  = (JS.toLowerCase (fst (BookingModel.spanPlain s)),
     JS.toLowerCase (snd (BookingModel.spanPlain s))).
Proof.
  induction s as [|c s IH]; [reflexivity|].
  cbn [JS.toLowerCase BookingModel.spanPlain]. rewrite toLowerChar_plain.
  destruct (BookingModel.isPlain c); [|reflexivity].
  rewrite IH. now destruct (BookingModel.spanPlain s).
Qed.

Lemma dotBeforeLast_toLowerCase (s : string) :
  BookingModel.dotBeforeLast (JS.toLowerCase s) = BookingModel.dotBeforeLast s.
Proof.
  induction s as [|c s IH]; [reflexivity|].
  destruct s as [|d s]; [reflexivity|].
  change (Ascii.eqb (JS.toLowerChar c) "."
          || BookingModel.dotBeforeLast (JS.toLowerCase (String d s))
          = Ascii.eqb c "." || BookingModel.dotBeforeLast (String d s)).
  now rewrite IH, toLowerChar_dot.
Qed.

(** The pattern does not tell the case of letters. *)
Lemma EMAIL_RE_toLowerCase (s : string) :
  BookingModel.EMAIL_RE_test (JS.toLowerCase s) = BookingModel.EMAIL_RE_test s.
Proof.
  unfold BookingModel.EMAIL_RE_test. rewrite spanPlain_toLowerCase.
  destruct (BookingModel.spanPlain s) as [local r]. cbn [fst snd].
  rewrite toLowerCase_isEmpty. f_equal.
  destruct r as [|c domain]; [reflexivity|].
  cbn [JS.toLowerCase]. rewrite toLowerChar_at, spanPlain_toLowerCase.
  destruct (BookingModel.spanPlain domain) as [d r']. cbn [fst snd].
  rewrite toLowerCase_isEmpty. f_equal. f_equal.
  destruct d as [|x d]; [reflexivity|]. apply dotBeforeLast_toLowerCase.
Qed.

Lemma EMAIL_RE_nonempty (s : string) :
  BookingModel.EMAIL_RE_test s = true -> JS.isEmpty s = false.
Proof. now destruct s. Qed.

(** C8.  The email of a booking is stored trimmed and in lower case.  A
    booking whose email, once trimmed, is not empty and does not match
    [local-part@domain.tld] is refused with "Invalid email format", and
    nothing is written; with no email left once trimmed it is refused by
    the rule that requires one.  A booking whose email matches once trimmed passes
    the rules, and is written with the trimmed, lower-cased email when its
    event exists.  "not-an-email" is refused; "User@Example.com" is
    accepted and stored as "user@example.com". *)
Theorem booking_email_rule (id event : Z) (mail : string) (db : Database) :
  let doc := BookingModel.newBooking id event mail in
  BookingModel.email doc = JS.toLowerCase (JS.trim mail)
  /\ (JS.trim mail <> "" ->
      BookingModel.EMAIL_RE_test (JS.trim mail) = false ->
      saveBooking doc db
      = (db, Some (ValidationError [("email", "Invalid email format")])))
  /\ (JS.trim mail = "" ->
      saveBooking doc db
      = (db, Some (ValidationError [("email", "Email is required")])))
  /\ (BookingModel.EMAIL_RE_test (JS.trim mail) = true ->
      BookingModel.validate doc = []
      /\ (existsb (fun e => EventModel._id e =? event) (events db) = true ->
          snd (saveBooking doc db) = None
          /\ bookings (fst (saveBooking doc db))
             = (bookings db
                ++ [ {| BookingModel._id := id;
                        BookingModel.eventId := event;
                        BookingModel.email := JS.toLowerCase (JS.trim mail) |} ])%list))
  /\ saveBooking (BookingModel.newBooking id event "not-an-email") db
     = (db, Some (ValidationError [("email", "Invalid email format")]))
  /\ BookingModel.newBooking id event "User@Example.com"
     = {| BookingModel._id := id; BookingModel.eventId := event;
          BookingModel.email := "user@example.com" |}
  /\ BookingModel.validate (BookingModel.newBooking id event "User@Example.com") = [].
Proof.
  cbv zeta.
  assert (Hmail : BookingModel.email (BookingModel.newBooking id event mail)
                  = JS.toLowerCase (JS.trim mail))
    by (cbn; apply trim_toLowerCase).
  assert (Hdoc : BookingModel.newBooking id event mail
                 = {| BookingModel._id := id; BookingModel.eventId := event;
                      BookingModel.email := JS.toLowerCase (JS.trim mail) |})
    by (unfold BookingModel.newBooking, BookingModel.setEmail;
        now rewrite trim_toLowerCase).
  split; [exact Hmail|]. split; [|split; [|split; [|repeat split]]].
  - intros Hne Hre. unfold saveBooking, BookingModel.validate.
    rewrite Hmail, toLowerCase_isEmpty, EMAIL_RE_toLowerCase, Hre.
    destruct (JS.trim mail); [congruence | reflexivity].
  - intros He. unfold saveBooking, BookingModel.validate.
    now rewrite Hmail, He.
  - intros Hre.
    assert (Hv : BookingModel.validate (BookingModel.newBooking id event mail) = []).
    { unfold BookingModel.validate.
      rewrite Hmail, toLowerCase_isEmpty, EMAIL_RE_toLowerCase, Hre.
      now rewrite (EMAIL_RE_nonempty _ Hre). }
    split; [exact Hv|]. intros Hex.
    destruct (saveBooking_writes _ db Hv Hex) as (H1 & H2).
    split; [exact H1|]. now rewrite H2, Hdoc.
Qed.

Lemma booking_email_rule_witness :
  let db := fst (saveEvent utc noLegacy
                   (newEvent 7 "Cloud Expo" (Some "draft") "2024-11-15" "08:00 AM")
                   emptyDatabase) in
  BookingModel.EMAIL_RE_test (JS.trim "  User@Example.com ") = true
  /\ existsb (fun e => EventModel._id e =? 7) (events db) = true
  /\ snd (saveBooking (BookingModel.newBooking 1 7 "  User@Example.com ") db) = None
  /\ bookings (fst (saveBooking (BookingModel.newBooking 1 7 "  User@Example.com ") db))
     = [ {| BookingModel._id := 1; BookingModel.eventId := 7;
            BookingModel.email := "user@example.com" |} ].
Proof.
  cbv zeta.
  assert (Hre : BookingModel.EMAIL_RE_test (JS.trim "  User@Example.com ") = true)
    by reflexivity.
  assert (Hex : existsb (fun e => EventModel._id e =? 7)
                  (events (fst (saveEvent utc noLegacy
                     (newEvent 7 "Cloud Expo" (Some "draft") "2024-11-15" "08:00 AM")
                     emptyDatabase))) = true)
    by (vm_compute; reflexivity).
  split; [exact Hre|]. split; [exact Hex|].
  destruct (booking_email_rule 1 7 "  User@Example.com "
              (fst (saveEvent utc noLegacy
                 (newEvent 7 "Cloud Expo" (Some "draft") "2024-11-15" "08:00 AM")
                 emptyDatabase))) as (_ & _ & _ & Hok & _).
  destruct (Hok Hre) as (_ & Hsave). destruct (Hsave Hex) as (H1 & H2).
  split; [exact H1 | exact H2].
Defined.

(** * Further properties *)

(** ** The slug of a slug, and titles with the same slug *)

Lemma headIsHyphen_first (s : string) :
  JS.firstChar s <> Some hyphen -> headIsHyphen s = false.
Proof.
  destruct s as [|c s]; [reflexivity|]. cbn. intros H.
  destruct (isHyphen c) eqn:E; [|reflexivity].
  apply isHyphen_eq in E. congruence.
Qed.

Lemma slugChar_cases (c : ascii) :
  slugChar c = true -> JS.isLowerAlnum c = false -> isHyphen c = true.
Proof. unfold slugChar. intros H E. now rewrite E in H. Qed.

(** On a string of slug characters without two hyphens in a row the first
    replacement changes nothing. *)
Lemma replaceRuns_fixpoint (s : string) :
  JS.allChars slugChar s = true -> hasDoubleHyphen s = false ->
  replaceRuns false s = s
  /\ (headIsHyphen s = false -> replaceRuns true s = s).
Proof.
  induction s as [|c s IH]; [now split|].
  cbn [JS.allChars]. rewrite hasDoubleHyphen_cons.
  intros Hc Hd. apply andb_true_iff in Hc as [Hc Hs].
  apply orb_false_iff in Hd as [Hcd Hd].
  destruct (IH Hs Hd) as [IH1 IH2]. cbn [replaceRuns headIsHyphen].
  destruct (JS.isLowerAlnum c) eqn:Ea.
  - rewrite IH1. now split.
  - pose proof (slugChar_cases _ Hc Ea) as Eh. rewrite Eh in Hcd |- *.
    cbn [andb] in Hcd. rewrite (IH2 Hcd), (isHyphen_eq _ Eh).
    split; [reflexivity | discriminate].
Qed.

Lemma dropLeadingHyphens_none (s : string) :
  headIsHyphen s = false -> dropLeadingHyphens s = s.
Proof. destruct s as [|c s]; cbn; [reflexivity | now intros ->]. Qed.

Lemma dropTrailingHyphens_none (s : string) :
  JS.lastChar s <> Some hyphen -> dropTrailingHyphens s = s.
Proof.
  induction s as [|c s IH]; [reflexivity|].
  cbn [dropTrailingHyphens]. destruct s as [|d s].
  - cbn. intros H. destruct (isHyphen c) eqn:E; [|reflexivity].
    apply isHyphen_eq in E. congruence.
  - intros H. now rewrite IH.
Qed.

Lemma generateSlug_single (title : string) :
  hasDoubleHyphen (generateSlug title) = false.
Proof.
  apply dropTrailingHyphens_single, dropLeadingHyphens_single, replaceRuns_single.
Qed.

Lemma generateSlug_ends (title : string) :
  headIsHyphen (generateSlug title) = false
  /\ JS.lastChar (generateSlug title) <> Some hyphen.
Proof.
  split; [|apply dropTrailingHyphens_last].
  apply headIsHyphen_first, dropTrailingHyphens_first, dropLeadingHyphens_first.
Qed.

(** X1. A slug is its own slug: [generateSlug] is idempotent. *)
Theorem generateSlug_idempotent (title : string) :
  generateSlug (generateSlug title) = generateSlug title.
Proof.
  set (g := generateSlug title).
  pose proof (generateSlug_chars title) as Hc.
  pose proof (generateSlug_single title) as Hd.
  destruct (generateSlug_ends title) as [Hh Hl]. fold g in Hc, Hd, Hh, Hl.
  unfold generateSlug at 1, stripHyphens.
  rewrite (toLowerCase_slugChars _ Hc).
  rewrite (trim_notSpace g)
    by (apply (allChars_weaken slugChar); [exact slugChar_notSpace | exact Hc]).
  rewrite (proj1 (replaceRuns_fixpoint _ Hc Hd)).
  now rewrite (dropLeadingHyphens_none _ Hh), (dropTrailingHyphens_none _ Hl).
Qed.

(** *** Words determine the slug, and the slug the words *)

Lemma alnumWords_read (w rest : string) :
  JS.allChars JS.isLowerAlnum w = true ->
  forall cur, alnumWords cur (w ++ rest) = alnumWords (cur ++ w) rest.
Proof.
  induction w as [|c w IH]; intros H cur.
  - now rewrite append_empty_r.
  - cbn [JS.allChars] in H. apply andb_true_iff in H as [Hc Hw].
    cbn [append alnumWords]. rewrite Hc, (IH Hw).
    now rewrite append_assoc.
Qed.

Lemma alnumWords_are_words (s : string) :
  forall cur, JS.allChars JS.isLowerAlnum cur = true ->
              Forall isWord (alnumWords cur s).
Proof.
  induction s as [|c s IH]; intros cur Hcur; cbn [alnumWords].
  - destruct cur; cbn; constructor; [|constructor]. split; [discriminate | exact Hcur].
  - destruct (JS.isLowerAlnum c) eqn:Hc.
    + apply IH. rewrite allChars_append, Hcur. cbn. now rewrite Hc.
    + apply Forall_app. split; [|now apply IH].
      destruct cur; cbn; constructor; [|constructor].
      split; [discriminate | exact Hcur].
Qed.

(** Splitting what [join] has joined gives the words back. *)
Lemma alnumWords_join (ws : list string) :
  Forall isWord ws -> alnumWords "" (JS.join "-" ws) = ws.
Proof.
  induction ws as [|w ws IH]; [reflexivity|].
  intros H. inversion H as [|? ? [Hne Hw] Hws]; subst.
  destruct ws as [|w' ws].
  - cbn [JS.join]. rewrite <- (append_empty_r w) at 1.
    rewrite (alnumWords_read _ _ Hw). cbn. now destruct w.
  - change (JS.join "-" (w :: w' :: ws))
      with (w ++ String hyphen (JS.join "-" (w' :: ws))).
    rewrite (alnumWords_read _ _ Hw). cbn [append alnumWords].
    change (JS.isLowerAlnum hyphen) with false. cbn iota.
    rewrite (IH Hws). now destruct w.
Qed.

(** X2. Two titles have the same slug exactly when their lower-cased
    forms have the same words, the maximal runs of [[a-z0-9]]: case,
    punctuation and white space between and around the words do not count,
    and nothing else is lost. *)
Theorem generateSlug_same_words (a b : string) :
  generateSlug a = generateSlug b
  <-> alnumWords "" (JS.toLowerCase a) = alnumWords "" (JS.toLowerCase b).
Proof.
  rewrite !generateSlug_words. unfold slugOfWords. split.
  - intros H.
    rewrite <- (alnumWords_join (alnumWords "" (JS.toLowerCase a)))
      by (now apply alnumWords_are_words).
    rewrite H. apply alnumWords_join. now apply alnumWords_are_words.
  - now intros ->.
Qed.

(** *** Titles without a slug *)





(** ** What [normalizeTime] returns and throws *)

Lemma shape_all :
  forallInRange 0 23 (fun h => forallInRange 0 59 (shapeChecked h)) = true.
Proof. vm_compute. reflexivity. Qed.

(** X4. Whatever the input and the time zone, [normalizeTime] either
    returns a string of the form DD:DD, the hour from 00 to 23 and the
    minute from 00 to 59 on two digits each, or throws one of its three
    messages; it throws "Time is required" for the empty input and for no
    other. *)
Theorem normalizeTime_outcomes
  (LocalTZA : Z -> Z) (legacy : string -> option Z) (value : string) :
  match normalizeTime LocalTZA legacy value with
  | Ok r =>
      hasShape "dd:dd" r = true
      /\ exists h m, 0 <= h <= 23 /\ 0 <= m <= 59 /\ r = hhmm h m
  | Err msg => In msg timeErrors
  end
  /\ (normalizeTime LocalTZA legacy value = Err "Time is required" <-> value = "").
Proof.
  split.
  - destruct (normalizeTime LocalTZA legacy value) as [r|msg] eqn:E.
    + destruct (normalizeTime_canonical _ _ _ _ E) as (h & m & Hh & Hm & ->).
      split; [|now exists h, m].
      exact (forallInRange_spec _ _ _ (forallInRange_spec _ _ _ shape_all h Hh) m Hm).
    + unfold normalizeTime in E. unfold timeErrors.
      destruct (JS.isEmpty value); [injection E as <-; cbn; tauto|].
      destruct (DateParse _ _ _); [discriminate|].
      destruct (matchTime _) as [[[m1 m2] m3]|]; [|injection E as <-; cbn; tauto].
      destruct (_ || _); [injection E as <-; cbn; tauto | discriminate].
  - unfold normalizeTime. destruct value as [|c value]; cbn [JS.isEmpty].
    + now split.
    + split; [|discriminate].
      destruct (DateParse _ _ _); [discriminate|].
      destruct (matchTime _) as [[[m1 m2] m3]|]; [|discriminate].
      destruct (_ || _); discriminate.
Qed.

(** *** White space only *)

Lemma trimStart_spaces (s : string) :
  JS.allChars JS.isWhiteSpace s = true -> JS.trimStart s = "".
Proof.
  induction s as [|c s IH]; [reflexivity|].
  cbn [JS.allChars JS.trimStart]. intros H.
  apply andb_true_iff in H as [-> Hs]. auto.
Qed.

(** X6. A time of white space only is not empty for the test of line 110,
    and is trimmed to nothing afterwards: it is refused with "Invalid time
    format", not with "Time is required". *)
Theorem normalizeTime_white_space
  (LocalTZA : Z -> Z) (legacy : string -> option Z) (value : string) :
  value <> "" -> JS.allChars JS.isWhiteSpace value = true ->
  normalizeTime LocalTZA legacy value = Err "Invalid time format".
Proof.
  intros Hne Hws. unfold normalizeTime.
  destruct value as [|c value]; [congruence|]. cbn [JS.isEmpty].
  unfold JS.trim. now rewrite (trimStart_spaces _ Hws).
Qed.

Lemma normalizeTime_white_space_witness :
  "   " <> "" /\ JS.allChars JS.isWhiteSpace "   " = true
  /\ normalizeTime utc noLegacy "   " = Err "Invalid time format".
Proof.
  split; [discriminate|]. split; [reflexivity|].
  apply (normalizeTime_white_space utc noLegacy "   "); [discriminate | reflexivity].
Defined.

(** ** A time in canonical form, in a time zone *)

Lemma pad2_all : forallInRange 0 99 pad2Checked = true.
Proof. vm_compute. reflexivity. Qed.

Lemma padStart2_toString (n : Z) :
  0 <= n <= 99 -> Num.padStart2 (Num.toString n) = Num.fixedDigits 2 n "".
Proof.
  intros H. apply String.eqb_eq. exact (forallInRange_spec _ _ _ pad2_all n H).
Qed.

Lemma hhmm_digits (h m : Z) :
  0 <= h <= 99 -> 0 <= m <= 99 ->
  hhmm h m
  = String (Num.digitChar (h / 10 mod 10)) (String (Num.digitChar (h mod 10))
      (String ":" (String (Num.digitChar (m / 10 mod 10))
         (String (Num.digitChar (m mod 10)) "")))).
Proof.
  intros Hh Hm. unfold hhmm. now rewrite !padStart2_toString.
Qed.

Lemma isoTime_hhmm (c1 c2 c3 c4 : ascii) :
  JS.isDigit c1 = true -> JS.isDigit c2 = true ->
  JS.isDigit c3 = true -> JS.isDigit c4 = true ->
  Parse.inRange 0 23 (Num.Number (String c1 (String c2 ""))) = true ->
  Parse.inRange 0 59 (Num.Number (String c3 (String c4 ""))) = true ->
  Parse.isoTime (String c1 (String c2 (String ":" (String c3 (String c4 "")))))
  = Some (JSDate.MakeTime (Num.Number (String c1 (String c2 "")))
            (Num.Number (String c3 (String c4 ""))) 0 0, None).
Proof.
  intros H1 H2 H3 H4 Hh Hm. unfold Parse.isoTime.
  rewrite fixedNumber_two by (assumption || reflexivity).
  set (hh := Num.Number (String c1 (String c2 ""))) in *.
  set (mm := Num.Number (String c3 (String c4 ""))) in *.
  assert (H24 : (hh =? 24) = false).
  { apply andb_true_iff in Hh as [_ Hh]. apply Z.leb_le in Hh.
    apply Z.eqb_neq. lia. }
  assert (Hin : Parse.inRange 0 24 hh = true).
  { apply andb_true_iff in Hh as [Hlo Hhi]. apply andb_true_iff.
    split; [exact Hlo|]. apply Z.leb_le in Hhi. apply Z.leb_le. lia. }
  rewrite Hin. cbn [Parse.symbol Ascii.eqb Bool.eqb].
  rewrite fixedNumber_two by (assumption || reflexivity).
  fold mm. rewrite H24, Hm. reflexivity.
Qed.

Lemma digits_of_two (n : Z) :
  0 <= n <= 99 ->
  Num.Number (String (Num.digitChar (n / 10 mod 10))
                (String (Num.digitChar (n mod 10)) "")) = n.
Proof.
  intros H. unfold Num.Number. cbn [Num.numValFrom].
  assert (Hdig : forall k, 0 <= k mod 10 <= 9)
    by (intros k; pose proof (Z.mod_pos_bound k 10); lia).
  rewrite !(proj2 (digitChar_facts _ (Hdig _))). lia_div.
Qed.

(** [new Date] of the base date and a canonical time is that time of
    day, local time. *)
Lemma DateParse_hhmm
  (LocalTZA : Z -> Z) (legacy : string -> option Z) (h m : Z) :
  0 <= h <= 23 -> 0 <= m <= 59 ->
  DateParse LocalTZA legacy ("1970-01-01T" ++ hhmm h m)
  = JSDate.TimeClip (JSDate.MakeTime h m 0 0 - LocalTZA (JSDate.MakeTime h m 0 0)).
Proof.
  intros Hh Hm. rewrite hhmm_digits by lia.
  assert (Hdig : forall k, 0 <= k mod 10 <= 9)
    by (intros k; pose proof (Z.mod_pos_bound k 10); lia).
  unfold DateParse. rewrite isoDate_base.
  rewrite keyword_T_digit by (apply digitChar_facts, Hdig). cbv beta iota.
  rewrite isoTime_hhmm;
    try (apply digitChar_facts, Hdig);
    rewrite ?digits_of_two by lia;
    try (apply andb_true_iff; split; apply Z.leb_le; lia).
  change (JSDate.MakeDay 1970 (1 - 1) 1) with 0.
  unfold JSDate.MakeDate. now rewrite Z.mul_0_l, Z.add_0_l.
Qed.

Lemma hhmm_nonempty_trimmed (h m : Z) :
  0 <= h <= 23 -> 0 <= m <= 59 ->
  JS.isEmpty (hhmm h m) = false /\ JS.trim (hhmm h m) = hhmm h m.
Proof.
  intros Hh Hm. split.
  - rewrite hhmm_digits by lia. reflexivity.
  - apply String.eqb_eq.
    exact (forallInRange_spec _ _ _ (forallInRange_spec _ _ _ trim_all h Hh) m Hm).
Qed.

(** X5. In a zone [k] minutes ahead of UTC, a time HH:MM in canonical
    form comes out [k] minutes earlier, around the clock: the string is
    parsed as a local time and read back in UTC.  It is returned unchanged
    only when [k] is a whole number of days. *)
Theorem normalizeTime_canonical_in_zone
  (legacy : string -> option Z) (h m k : Z) :
  0 <= h <= 23 -> 0 <= m <= 59 -> -1440 <= k <= 1440 ->
  normalizeTime (fixedZone k) legacy (hhmm h m)
  = Ok (hhmm ((60 * h + m - k) mod 1440 / 60) ((60 * h + m - k) mod 60)).
Proof.
  intros Hh Hm Hk. unfold normalizeTime.
  destruct (hhmm_nonempty_trimmed h m Hh Hm) as [-> ->].
  rewrite DateParse_hhmm by assumption.
  unfold JSDate.TimeClip, fixedZone.
  replace (Z.abs _ <=? JSDate.maxTime) with true
    by (symmetry; apply Z.leb_le;
        unfold JSDate.MakeTime, JSDate.msPerHour, JSDate.msPerMinute,
          JSDate.msPerSecond, JSDate.maxTime; lia).
  f_equal. f_equal.
  - unfold JSDate.HourFromTime, JSDate.MakeTime, JSDate.msPerHour,
      JSDate.msPerMinute, JSDate.msPerSecond. lia_div.
  - unfold JSDate.MinFromTime, JSDate.MakeTime, JSDate.msPerHour,
      JSDate.msPerMinute, JSDate.msPerSecond. lia_div.
Qed.

Lemma normalizeTime_canonical_in_zone_witness :
  0 <= 21 <= 23 /\ 0 <= 0 <= 59 /\ -1440 <= 180 <= 1440
  /\ normalizeTime (fixedZone 180) noLegacy "21:00" = Ok "18:00".
Proof.
  repeat (split; [lia|]).
  apply (normalizeTime_canonical_in_zone noLegacy 21 0 180); lia.
Defined.

(** ** The written forms of a time that the pattern reads *)

Section WrittenForms.

Variable LocalTZA : Z -> Z.
Variable legacy : string -> option Z.
Variable n : nat.
Variable ampm : string.
Hypothesis ampm_known : In ampm ampmTexts.

Let rest : string := spaces n ++ ampm.

(** The two digits of the minutes. *)
Variables c3 c4 : ascii.
Hypothesis digit3 : JS.isDigit c3 = true.
Hypothesis digit4 : JS.isDigit c4 = true.

Let minutes : string := String c3 (String c4 rest).

Lemma rest_matchSuffix : matchSuffix rest = Some (ampmGroup ampm).
Proof.
  unfold matchSuffix. subst rest. rewrite (rest_skipWhiteSpace n ampm ampm_known).
  pose proof ampm_known as H. cbv [ampmTexts In] in H.
  repeat destruct H as [H|H]; try contradiction; subst ampm; reflexivity.
Qed.

Lemma minutes_matchMinutes :
  matchMinutes minutes = Some (Some (String c3 (String c4 "")), ampmGroup ampm).
Proof.
  unfold matchMinutes, minutes. cbn [takeDigits].
  now rewrite digit3, digit4, rest_matchSuffix.
Qed.

Lemma digit_not_separator (c : ascii) :
  JS.isDigit c = true -> isSeparator c = false.
Proof. by_cases_on_char c. Qed.

Lemma separator_not_digit (c : ascii) :
  isSeparator c = true -> JS.isDigit c = false.
Proof. by_cases_on_char c. Qed.

Lemma digit_not_ampm (c : ascii) (s : string) :
  JS.isDigit c = true -> takeAmPm (String c s) = None.
Proof.
  intros H. destruct s as [|b s]; [reflexivity|]. unfold takeAmPm.
  assert (E : forall w, String.eqb (String c (String b "")) w = true ->
                        exists x y, w = String x y /\ Ascii.eqb c x = true).
  { intros [|x y] Hw; [discriminate|]. exists x, y. split; [reflexivity|].
    cbn in Hw. now destruct (Ascii.eqb c x). }
  destruct (_ || _) eqn:Eo; [|reflexivity].
  repeat (apply orb_true_iff in Eo as [Eo|Eo]);
    apply E in Eo as (x & y & [= <- <-] & Hx); revert H Hx; by_cases_on_char c.
Qed.

Lemma minutes_matchSeparator :
  matchSeparator minutes = Some (Some (String c3 (String c4 "")), ampmGroup ampm).
Proof.
  unfold matchSeparator. unfold minutes at 1.
  now rewrite (digit_not_separator _ digit3), minutes_matchMinutes.
Qed.

Lemma separated_matchSeparator (s : ascii) :
  isSeparator s = true ->
  matchSeparator (String s minutes)
  = Some (Some (String c3 (String c4 "")), ampmGroup ampm).
Proof.
  intros Hs. unfold matchSeparator. now rewrite Hs, minutes_matchMinutes.
Qed.

(** One digit of minutes and no more cannot end a match. *)
Lemma last_digit_no_match : matchSeparator (String c4 rest) = None.
Proof.
  unfold matchSeparator. rewrite (digit_not_separator _ digit4). cbn [orElse].
  unfold matchMinutes.
  change (takeDigits 2 (String c4 rest))
    with (if JS.isDigit c4
          then match takeDigits 1 rest with
               | Some (ds, r') => Some (String c4 ds, r')
               | None => None
               end
          else None).
  subst rest. rewrite digit4, (rest_no_digits n ampm ampm_known). cbn [orElse].
  unfold matchSuffix. cbn [skipWhiteSpace].
  rewrite (digit_not_space _ digit4), (digit_not_ampm _ _ digit4). reflexivity.
Qed.

(** *** What the pattern captures *)

Lemma matchTime_two_separated (c1 c2 s : ascii) :
  JS.isDigit c1 = true -> JS.isDigit c2 = true -> isSeparator s = true ->
  matchTime (String c1 (String c2 (String s minutes)))
  = Some (String c1 (String c2 ""), Some (String c3 (String c4 "")), ampmGroup ampm).
Proof.
  intros H1 H2 Hs. unfold matchTime. cbn [takeDigits].
  now rewrite H1, H2, (separated_matchSeparator _ Hs).
Qed.

Lemma matchTime_two_joined (c1 c2 : ascii) :
  JS.isDigit c1 = true -> JS.isDigit c2 = true ->
  matchTime (String c1 (String c2 minutes))
  = Some (String c1 (String c2 ""), Some (String c3 (String c4 "")), ampmGroup ampm).
Proof.
  intros H1 H2. unfold matchTime. cbn [takeDigits].
  now rewrite H1, H2, minutes_matchSeparator.
Qed.

Lemma matchTime_one_separated (c1 s : ascii) :
  JS.isDigit c1 = true -> isSeparator s = true ->
  matchTime (String c1 (String s minutes))
  = Some (String c1 "", Some (String c3 (String c4 "")), ampmGroup ampm).
Proof.
  intros H1 Hs. unfold matchTime. cbn [takeDigits].
  now rewrite H1, (separator_not_digit _ Hs), (separated_matchSeparator _ Hs).
Qed.

Lemma matchTime_one_joined (c1 : ascii) :
  JS.isDigit c1 = true ->
  matchTime (String c1 minutes)
  = Some (String c1 "", Some (String c3 (String c4 "")), ampmGroup ampm).
Proof.
  intros H1. unfold matchTime, minutes at 1. cbn [takeDigits].
  rewrite H1, digit3, last_digit_no_match. cbn [option_map orElse].
  fold minutes. now rewrite minutes_matchSeparator.
Qed.

(** *** What [new Date] makes of them: nothing *)

Lemma isoTime_two_separated (c1 c2 s : ascii) (r : string) :
  JS.isDigit c1 = true -> JS.isDigit c2 = true ->
  JS.isDigit s = false -> Ascii.eqb s ":" = false ->
  Parse.isoTime (String c1 (String c2 (String s r))) = None.
Proof.
  intros H1 H2 Hs Hc. unfold Parse.isoTime.
  rewrite fixedNumber_two by (assumption || (cbn; now rewrite Hs)).
  unfold Parse.symbol. rewrite Hc. now destruct (Parse.inRange 0 24 _).
Qed.

Lemma isoTime_one (c1 s : ascii) (r : string) :
  JS.isDigit c1 = true -> JS.isDigit s = false ->
  Parse.isoTime (String c1 (String s r)) = None.
Proof.
  intros H1 Hs. unfold Parse.isoTime, Num.fixedNumber. cbn [Num.spanDigits].
  now rewrite H1, Hs.
Qed.

Lemma isoTime_three (c1 : ascii) :
  JS.isDigit c1 = true -> Parse.isoTime (String c1 minutes) = None.
Proof.
  intros H1. unfold Parse.isoTime, Num.fixedNumber, minutes.
  cbn [Num.spanDigits]. rewrite H1, digit3, digit4.
  subst rest. now rewrite (spanDigits_stop _ (rest_noDigitAhead n ampm ampm_known)).
Qed.

Lemma isoTime_four (c1 c2 : ascii) :
  JS.isDigit c1 = true -> JS.isDigit c2 = true ->
  Parse.isoTime (String c1 (String c2 minutes)) = None.
Proof.
  intros H1 H2. unfold Parse.isoTime, Num.fixedNumber, minutes.
  cbn [Num.spanDigits]. rewrite H1, H2, digit3, digit4.
  subst rest. now rewrite (spanDigits_stop _ (rest_noDigitAhead n ampm ampm_known)).
Qed.

Lemma DateParse_time_only (c1 : ascii) (r : string) :
  JS.isDigit c1 = true -> Parse.isoTime (String c1 r) = None ->
  DateParse LocalTZA legacy ("1970-01-01T" ++ String c1 r) = None.
Proof.
  intros H1 Hr. unfold DateParse. rewrite isoDate_base.
  rewrite (keyword_T_digit _ _ H1). cbv beta iota. now rewrite Hr.
Qed.

End WrittenForms.

Lemma trim_prefix (p : string) (n : nat) (ampm : string) :
  In ampm ampmTexts ->
  JS.allChars notSpace p = true -> p <> "" ->
  JS.trim (p ++ spaces n ++ ampm)
  = p ++ spaces (if JS.isEmpty ampm then 0 else n) ++ ampm.
Proof.
  intros Ha Hp Hne. unfold JS.trim.
  destruct p as [|c p]; [congruence|]. cbn [append JS.trimStart].
  cbn [JS.allChars] in Hp. apply andb_true_iff in Hp as [Hc Hp].
  assert (Hns : forall x, notSpace x = true -> JS.isWhiteSpace x = false)
    by (intros x Hx; now apply negb_true_iff in Hx).
  rewrite (Hns _ Hc). clear Hne.
  revert c Hc. induction p as [|d p IH]; intros c Hc.
  - cbn [append]. rewrite trimEnd_cons, (rest_trimEnd n ampm Ha), (Hns _ Hc).
    cbv [ampmTexts In] in Ha.
    repeat destruct Ha as [Ha|Ha]; try contradiction; subst ampm;
      try reflexivity; destruct n; reflexivity.
  - cbn [JS.allChars] in Hp. apply andb_true_iff in Hp as [Hd Hp].
    cbn [append]. cbn [append] in IH. rewrite trimEnd_cons, (IH Hp d Hd).
    reflexivity.
Qed.

Lemma range_check_hour_minute (hour minute : Z) :
  0 <= hour <= 23 -> 0 <= minute <= 59 ->
  (hour <? 0) || (hour >? 23) || (minute <? 0) || (minute >? 59) = false.
Proof.
  intros Hh Hm. rewrite !Z.gtb_ltb.
  repeat (apply orb_false_iff; split); apply Z.ltb_ge; lia.
Qed.

(** A value that [new Date] does not read and the pattern does. *)
Lemma normalizeTime_by_pattern
  (LocalTZA : Z -> Z) (legacy : string -> option Z)
  (value trimmed m1 m2 : string) (g : option string) :
  JS.isEmpty value = false -> JS.trim value = trimmed ->
  DateParse LocalTZA legacy ("1970-01-01T" ++ trimmed) = None ->
  matchTime trimmed = Some (m1, Some m2, g) ->
  0 <= Num.Number m1 <= 23 -> 0 <= Num.Number m2 <= 59 ->
  normalizeTime LocalTZA legacy value
  = Ok (hhmm (to24Hour (Num.Number m1) g) (Num.Number m2)).
Proof.
  intros He Ht Hd Hm H1 H2. unfold normalizeTime.
  rewrite He, Ht, Hd, Hm.
  now rewrite (range_check_hour_minute _ _ (to24Hour_range _ g H1) H2).
Qed.

Lemma separator_notSpace (c : ascii) : isSeparator c = true -> notSpace c = true.
Proof. by_cases_on_char c. Qed.

Section Shapes.

Variable LocalTZA : Z -> Z.
Variable legacy : string -> option Z.
Variable n : nat.
Variable ampm : string.
Hypothesis ampm_known : In ampm ampmTexts.
Variables c3 c4 : ascii.
Hypothesis digit3 : JS.isDigit c3 = true.
Hypothesis digit4 : JS.isDigit c4 = true.
Hypothesis minute_range : 0 <= Num.Number (String c3 (String c4 "")) <= 59.

Let n' : nat := if JS.isEmpty ampm then 0%nat else n.

Ltac by_the_pattern prefix :=
  apply normalizeTime_by_pattern
    with (trimmed := (prefix ++ spaces n' ++ ampm));
  [ reflexivity
  | apply (trim_prefix prefix n ampm ampm_known);
    [ cbn [JS.allChars];
      repeat match goal with
             | |- context [notSpace ?c] =>
                 first [ rewrite (digit_notSpace c) by assumption
                       | rewrite (separator_notSpace c) by assumption ]
             end; reflexivity
    | discriminate ]
  | apply DateParse_time_only; [assumption|]
  | | assumption | assumption ].

Lemma normalizeTime_two_separated (c1 c2 s : ascii) :
  JS.isDigit c1 = true -> JS.isDigit c2 = true ->
  isSeparator s = true -> Ascii.eqb s ":" = false ->
  0 <= Num.Number (String c1 (String c2 "")) <= 23 ->
  normalizeTime LocalTZA legacy
    (String c1 (String c2 (String s (String c3 (String c4 (spaces n ++ ampm))))))
  = Ok (hhmm (to24Hour (Num.Number (String c1 (String c2 ""))) (ampmGroup ampm))
          (Num.Number (String c3 (String c4 "")))).
Proof.
  intros H1 H2 Hs Hc Hh.
  by_the_pattern (String c1 (String c2 (String s (String c3 (String c4 ""))))).
  - apply isoTime_two_separated; auto using separator_not_digit.
  - now apply matchTime_two_separated.
Qed.

Lemma normalizeTime_two_joined (c1 c2 : ascii) :
  JS.isDigit c1 = true -> JS.isDigit c2 = true ->
  0 <= Num.Number (String c1 (String c2 "")) <= 23 ->
  normalizeTime LocalTZA legacy
    (String c1 (String c2 (String c3 (String c4 (spaces n ++ ampm)))))
  = Ok (hhmm (to24Hour (Num.Number (String c1 (String c2 ""))) (ampmGroup ampm))
          (Num.Number (String c3 (String c4 "")))).
Proof.
  intros H1 H2 Hh.
  by_the_pattern (String c1 (String c2 (String c3 (String c4 "")))).
  - now apply isoTime_four.
  - now apply matchTime_two_joined.
Qed.

Lemma normalizeTime_one_separated (c1 s : ascii) :
  JS.isDigit c1 = true -> isSeparator s = true ->
  0 <= Num.Number (String c1 "") <= 23 ->
  normalizeTime LocalTZA legacy
    (String c1 (String s (String c3 (String c4 (spaces n ++ ampm)))))
  = Ok (hhmm (to24Hour (Num.Number (String c1 "")) (ampmGroup ampm))
          (Num.Number (String c3 (String c4 "")))).
Proof.
  intros H1 Hs Hh.
  by_the_pattern (String c1 (String s (String c3 (String c4 "")))).
  - apply isoTime_one; auto using separator_not_digit.
  - now apply matchTime_one_separated.
Qed.

Lemma normalizeTime_one_joined (c1 : ascii) :
  JS.isDigit c1 = true ->
  0 <= Num.Number (String c1 "") <= 23 ->
  normalizeTime LocalTZA legacy
    (String c1 (String c3 (String c4 (spaces n ++ ampm))))
  = Ok (hhmm (to24Hour (Num.Number (String c1 "")) (ampmGroup ampm))
          (Num.Number (String c3 (String c4 "")))).
Proof.
  intros H1 Hh.
  by_the_pattern (String c1 (String c3 (String c4 ""))).
  - now apply isoTime_three.
  - now apply matchTime_one_joined.
Qed.

End Shapes.

(** X7. The written forms that only the pattern reads: an hour from 0 to
    23 in one or two digits; a full stop, an [h] or nothing, or a colon
    after an hour of one digit; a minute from 00 to 59 in two digits; any
    number of spaces; AM, PM, am, pm or nothing.  In every time zone
    [normalizeTime] returns the hour of the 24-hour clock and the minute:
    "9.30", "9h30", "930", "0930" and "9:30" all give "09:30". *)
Theorem normalizeTime_written_forms
  (LocalTZA : Z -> Z) (legacy : string -> option Z)
  (twoDigits : bool) (h : Z) (sep : string) (m : Z) (n : nat) (ampm : string) :
  0 <= h <= 23 -> 0 <= m <= 59 ->
  patternOnly twoDigits h sep = true -> In ampm ampmTexts ->
  normalizeTime LocalTZA legacy
    (hourText twoDigits h ++ sep ++ Num.fixedDigits 2 m "" ++ spaces n ++ ampm)
  = Ok (hhmm (hourOnly24 h ampm) m).
Proof.
  intros Hh Hm Hp Ha.
  assert (Hdig : forall k, 0 <= k mod 10 <= 9)
    by (intros k; pose proof (Z.mod_pos_bound k 10); lia).
  pose proof (digits_of_two m ltac:(lia)) as Hnum.
  cbn [Num.fixedDigits].
  set (c3 := Num.digitChar (m / 10 mod 10)) in *.
  set (c4 := Num.digitChar (m mod 10)) in *.
  assert (D3 : JS.isDigit c3 = true) by apply digitChar_facts, Hdig.
  assert (D4 : JS.isDigit c4 = true) by apply digitChar_facts, Hdig.
  assert (Hmin : 0 <= Num.Number (String c3 (String c4 "")) <= 59)
    by (rewrite Hnum; exact Hm).
  clearbody c3 c4. clear Hdig.
  unfold patternOnly in Hp.
  repeat (apply orb_true_iff in Hp as [Hp|Hp]);
    [ apply String.eqb_eq in Hp
    | apply String.eqb_eq in Hp
    | apply String.eqb_eq in Hp
    | apply andb_true_iff in Hp as [Hp Hle];
      apply andb_true_iff in Hp as [Hp Hb];
      apply String.eqb_eq in Hp ];
    subst sep;
    each_hour h Hh; destruct twoDigits;
    try discriminate Hb; try discriminate Hle;
    match goal with
    | |- context [hourText ?b ?k] =>
        let s := eval vm_compute in (hourText b k) in
        change (hourText b k) with s
    end;
    cbn [append];
    first
      [ rewrite (normalizeTime_two_separated LocalTZA legacy n ampm Ha c3 c4 D3 D4 Hmin)
          by (reflexivity || (vm_compute; intuition discriminate))
      | rewrite (normalizeTime_two_joined LocalTZA legacy n ampm Ha c3 c4 D3 D4 Hmin)
          by (reflexivity || (vm_compute; intuition discriminate))
      | rewrite (normalizeTime_one_separated LocalTZA legacy n ampm Ha c3 c4 D3 D4 Hmin)
          by (reflexivity || (vm_compute; intuition discriminate))
      | rewrite (normalizeTime_one_joined LocalTZA legacy n ampm Ha c3 c4 D3 D4 Hmin)
          by (reflexivity || (vm_compute; intuition discriminate)) ];
    rewrite Hnum; each_ampm_of Ha; reflexivity.
Qed.

Lemma normalizeTime_written_forms_witness :
  0 <= 9 <= 23 /\ 0 <= 30 <= 59 /\ patternOnly false 9 "." = true
  /\ In "pm" ampmTexts
  /\ normalizeTime (fixedZone 180) noLegacy "9.30 pm" = Ok "21:30".
Proof.
  split; [lia|]. split; [lia|]. split; [reflexivity|]. split; [cbv; tauto|].
  apply (normalizeTime_written_forms (fixedZone 180) noLegacy false 9 "." 30 1 "pm");
    [lia | lia | reflexivity | cbv; tauto].
Defined.

(** ** Dates written YYYY-MM-DD *)

Lemma YearFromDay_unique (y d : Z) :
  JSDate.DayFromYear y <= d < JSDate.DayFromYear (y + 1) ->
  JSDate.YearFromDay d = y.
Proof.
  intros H. pose proof (YearFromDay_spec d) as Hs.
  set (Y := JSDate.YearFromDay d) in *.
  destruct (Z.lt_trichotomy Y y) as [Hlt|[Heq|Hgt]]; [|exact Heq|].
  - pose proof (DayFromYear_mono (Y + 1) y ltac:(lia)). lia.
  - pose proof (DayFromYear_mono (y + 1) Y ltac:(lia)). lia.
Qed.

Ltac each_month m Hm :=
  let H := fresh in
  assert (m = 1 \/ m = 2 \/ m = 3 \/ m = 4 \/ m = 5 \/ m = 6 \/ m = 7
          \/ m = 8 \/ m = 9 \/ m = 10 \/ m = 11 \/ m = 12) as H by lia;
  clear Hm; repeat destruct H as [H|H]; subst m.

(** The days before a month and the days of the month. *)
Lemma daysBeforeMonth_next (y m : Z) :
  1 <= m <= 12 ->
  JSDate.daysBeforeMonth (JSDate.isLeap y) m
  = JSDate.daysBeforeMonth (JSDate.isLeap y) (m - 1) + daysInMonth y m.
Proof.
  intros Hm. each_month m Hm; unfold daysInMonth;
    destruct (JSDate.isLeap y); reflexivity.
Qed.

Ltac eval_daysBeforeMonth :=
  repeat match goal with
         | |- context [JSDate.daysBeforeMonth ?l ?k] =>
             let v := eval vm_compute in (JSDate.daysBeforeMonth l k) in
             change (JSDate.daysBeforeMonth l k) with v
         | H : context [JSDate.daysBeforeMonth ?l ?k] |- _ =>
             let v := eval vm_compute in (JSDate.daysBeforeMonth l k) in
             change (JSDate.daysBeforeMonth l k) with v in H
         end.

Lemma daysBeforeMonth_range (leap : bool) (m : Z) :
  0 <= m <= 12 ->
  0 <= JSDate.daysBeforeMonth leap m <= (if leap then 366 else 365).
Proof.
  intros Hm.
  assert (m = 0 \/ m = 1 \/ m = 2 \/ m = 3 \/ m = 4 \/ m = 5 \/ m = 6 \/ m = 7
          \/ m = 8 \/ m = 9 \/ m = 10 \/ m = 11 \/ m = 12) as H by lia.
  repeat destruct H as [H|H]; subst m; destruct leap; eval_daysBeforeMonth; lia.
Qed.

(** The month of a day of the year is the one whose days hold it. *)
Lemma month_unique (leap : bool) (dwy mm : Z) :
  0 <= mm <= 11 ->
  JSDate.daysBeforeMonth leap mm <= dwy < JSDate.daysBeforeMonth leap (mm + 1) ->
  JSDate.monthOfDayWithinYear leap dwy = mm.
Proof.
  intros Hm.
  assert (mm = 0 \/ mm = 1 \/ mm = 2 \/ mm = 3 \/ mm = 4 \/ mm = 5 \/ mm = 6
          \/ mm = 7 \/ mm = 8 \/ mm = 9 \/ mm = 10 \/ mm = 11) as H by lia.
  clear Hm. unfold JSDate.monthOfDayWithinYear.
  repeat destruct H as [H|H]; subst mm; destruct leap;
    match goal with |- context [?a + 1] =>
      let v := eval vm_compute in (a + 1) in change (a + 1) with v end;
    eval_daysBeforeMonth; intros Hd;
    repeat match goal with
           | |- context [if ?a <? ?b then _ else _] =>
               destruct (Z.ltb_spec a b); try lia
           end.
Qed.

(** The year, month and day of a day of the calendar. *)
Lemma civil_of_MakeDay (y m d : Z) :
  1 <= m <= 12 -> 1 <= d <= daysInMonth y m ->
  let t := JSDate.MakeDate (JSDate.MakeDay y (m - 1) d) 0 in
  JSDate.YearFromTime t = y
  /\ JSDate.MonthFromTime t = m - 1
  /\ JSDate.DateFromTime t = d.
Proof.
  intros Hm Hd t.
  assert (Hday : JSDate.Day t = JSDate.MakeDay y (m - 1) d)
    by apply Day_of_midnight.
  pose proof (daysBeforeMonth_next y m Hm) as Hnext.
  pose proof (daysBeforeMonth_range (JSDate.isLeap y) (m - 1) ltac:(lia)) as Hlo.
  pose proof (daysBeforeMonth_range (JSDate.isLeap y) m ltac:(lia)) as Hhi.
  assert (Hyear : JSDate.YearFromTime t = y).
  { unfold JSDate.YearFromTime. rewrite Hday. apply YearFromDay_unique.
    rewrite DayFromYear_succ. unfold JSDate.MakeDay, JSDate.DaysInYear. lia. }
  assert (Hdwy : JSDate.DayWithinYear t
                 = JSDate.daysBeforeMonth (JSDate.isLeap y) (m - 1) + d - 1).
  { unfold JSDate.DayWithinYear. rewrite Hday, Hyear.
    unfold JSDate.MakeDay. lia. }
  assert (Hmonth : JSDate.MonthFromTime t = m - 1).
  { unfold JSDate.MonthFromTime. rewrite Hyear, Hdwy.
    apply month_unique; [lia|].
    replace (m - 1 + 1) with m by lia. lia. }
  repeat split; [exact Hyear | exact Hmonth |].
  unfold JSDate.DateFromTime. rewrite Hmonth, Hyear, Hdwy. lia.
Qed.

(** A date of four, two and two digits is read as its day, in UTC. *)
Lemma normalizeDate_of_day
  (LocalTZA : Z -> Z) (legacy : string -> option Z) (y m d : Z) :
  0 <= y <= 9999 -> 1 <= m <= 12 -> 1 <= d <= 31 ->
  normalizeDate LocalTZA legacy (dateText y m d)
  = Ok (slice0 10 (JSDate.toISOString
                     (JSDate.MakeDate (JSDate.MakeDay y (m - 1) d) 0))).
Proof.
  intros Hy Hm Hd. unfold normalizeDate.
  replace (JS.isEmpty (dateText y m d)) with false by reflexivity.
  unfold DateParse. rewrite dateText_digits by lia.
  replace (Parse.inRange 1 12 m) with true
    by (symmetry; apply andb_true_iff; split; apply Z.leb_le; lia).
  replace (Parse.inRange 1 31 d) with true
    by (symmetry; apply andb_true_iff; split; apply Z.leb_le; lia).
  unfold JSDate.TimeClip.
  replace (Z.abs _ <=? JSDate.maxTime) with true; [reflexivity|].
  symmetry. apply Z.leb_le.
  pose proof (DayFromYear_mono 0 y ltac:(lia)) as Hlo.
  pose proof (DayFromYear_mono y 9999 ltac:(lia)) as Hhi.
  change (JSDate.DayFromYear 0) with (-719528) in Hlo.
  change (JSDate.DayFromYear 9999) with 2932532 in Hhi.
  pose proof (daysBeforeMonth_range (JSDate.isLeap y) (m - 1) ltac:(lia)) as Hc.
  assert (Hc' : 0 <= JSDate.daysBeforeMonth (JSDate.isLeap y) (m - 1) <= 366)
    by (destruct (JSDate.isLeap y); lia).
  unfold JSDate.MakeDate, JSDate.MakeDay, JSDate.msPerDay, JSDate.maxTime. lia.
Qed.

(** X8. A date of the calendar written YYYY-MM-DD, with a year from 0000
    to 9999, a month from 01 to 12 and a day of that month, is returned as
    it is by [normalizeDate], in every time zone. *)
Theorem normalizeDate_calendar_date
  (LocalTZA : Z -> Z) (legacy : string -> option Z) (y m d : Z) :
  0 <= y <= 9999 -> 1 <= m <= 12 -> 1 <= d <= daysInMonth y m ->
  normalizeDate LocalTZA legacy (dateText y m d) = Ok (dateText y m d).
Proof.
  intros Hy Hm Hd.
  assert (Hd31 : daysInMonth y m <= 31)
    by (unfold daysInMonth; repeat destruct (_ =? _); cbn;
        try destruct (JSDate.isLeap y); lia).
  rewrite normalizeDate_of_day by lia.
  destruct (civil_of_MakeDay y m d Hm Hd) as (Hyear & Hmonth & Hdate).
  rewrite slice_of_toISOString by (rewrite Hyear; exact Hy).
  rewrite Hyear, Hmonth, Hdate. do 2 f_equal. lia.
Qed.

Lemma normalizeDate_calendar_date_witness :
  0 <= 2024 <= 9999 /\ 1 <= 2 <= 12 /\ 1 <= 29 <= daysInMonth 2024 2
  /\ normalizeDate (fixedZone 180) noLegacy "2024-02-29" = Ok "2024-02-29".
Proof.
  split; [lia|]. split; [lia|]. split; [cbn; lia|].
  apply (normalizeDate_calendar_date (fixedZone 180) noLegacy 2024 2 29);
    [lia | lia | cbn; lia].
Defined.

(** X9. A day from 29 to 31 that the month does not have is not refused:
    the date is carried into the next month, so that "2023-02-30" becomes
    "2023-03-02". *)
Theorem normalizeDate_day_past_month
  (LocalTZA : Z -> Z) (legacy : string -> option Z) (y m d : Z) :
  0 <= y <= 9999 -> 1 <= m <= 12 -> daysInMonth y m < d <= 31 ->
  normalizeDate LocalTZA legacy (dateText y m d)
  = Ok (dateText y (m + 1) (d - daysInMonth y m)).
Proof.
  intros Hy Hm Hd.
  assert (Hm11 : m <= 11).
  { destruct (Z.eq_dec m 12) as [->|]; [|lia]. cbn in Hd. lia. }
  assert (Hlen : 28 <= daysInMonth y m /\ 28 <= daysInMonth y (m + 1)).
  { unfold daysInMonth. split; repeat destruct (_ =? _); cbn;
      try destruct (JSDate.isLeap y); lia. }
  rewrite normalizeDate_of_day by lia.
  replace (JSDate.MakeDay y (m - 1) d)
    with (JSDate.MakeDay y (m + 1 - 1) (d - daysInMonth y m)).
  - destruct (civil_of_MakeDay y (m + 1) (d - daysInMonth y m))
      as (Hyear & Hmonth & Hdate); [lia | lia |].
    rewrite slice_of_toISOString by (rewrite Hyear; exact Hy).
    rewrite Hyear, Hmonth, Hdate. do 2 f_equal. lia.
  - unfold JSDate.MakeDay. replace (m + 1 - 1) with m by lia.
    rewrite (daysBeforeMonth_next y m) by lia. lia.
Qed.

Lemma normalizeDate_day_past_month_witness :
  0 <= 2023 <= 9999 /\ 1 <= 2 <= 12 /\ daysInMonth 2023 2 < 30 <= 31
  /\ normalizeDate utc noLegacy "2023-02-30" = Ok "2023-03-02".
Proof.
  split; [lia|]. split; [lia|]. split; [cbn; lia|].
  apply (normalizeDate_day_past_month utc noLegacy 2023 2 30);
    [lia | lia | cbn; lia].
Defined.

(** ** Saving: what is written, and what is not *)

Section Saving.

Variable LocalTZA : Z -> Z.
Variable legacy : string -> option Z.

(** X10. A save that fails writes nothing: the events and the bookings
    are those of before.  And a save touches its own collection only:
    saving an event leaves the bookings, and saving a booking the events,
    as they were. *)
Theorem save_failure_writes_nothing
  (doc : EventModel.EventDocument) (booking : BookingModel.BookingDocument)
  (db : Database) :
  (snd (saveEvent LocalTZA legacy doc db) <> None ->
   events (fst (saveEvent LocalTZA legacy doc db)) = events db)
  /\ bookings (fst (saveEvent LocalTZA legacy doc db)) = bookings db
  /\ (snd (saveBooking booking db) <> None ->
      bookings (fst (saveBooking booking db)) = bookings db)
  /\ events (fst (saveBooking booking db)) = events db.
Proof.
  repeat split.
  - unfold saveEvent. destruct (EventModel.validate doc); [|reflexivity].
    destruct (EventModel.preSave LocalTZA legacy doc); [|reflexivity].
    unfold writeEvent. destruct (slugTaken _ db); [reflexivity|].
    cbn. congruence.
  - unfold saveEvent. destruct (EventModel.validate doc); [|reflexivity].
    destruct (EventModel.preSave LocalTZA legacy doc); [|reflexivity].
    unfold writeEvent. now destruct (slugTaken _ db).
  - unfold saveBooking. destruct (BookingModel.validate booking); [|reflexivity].
    rewrite bookingPreSave_log. cbv zeta.
    destruct (existsb _ (events db)); [|reflexivity]. cbn. congruence.
  - unfold saveBooking. destruct (BookingModel.validate booking); [|reflexivity].
    rewrite bookingPreSave_log. cbv zeta.
    now destruct (existsb _ (events db)).
Qed.




(** What a save of an event that succeeds leaves in the collection. *)
Lemma saveEvent_written (doc : EventModel.EventDocument) (db : Database) :
  snd (saveEvent LocalTZA legacy doc db) = None ->
  exists doc',
    EventModel.preSave LocalTZA legacy doc = Ok doc'
    /\ EventModel._id doc' = EventModel._id doc
    /\ events (fst (saveEvent LocalTZA legacy doc db))
       = (filter (fun e => negb (EventModel._id e =? EventModel._id doc)) (events db)
          ++ [doc'])%list.
Proof.
  unfold saveEvent.
  destruct (EventModel.validate doc); [|discriminate].
  destruct (EventModel.preSave LocalTZA legacy doc) as [doc'|] eqn:Hp;
    [|discriminate].
  destruct (proj2 (preSave_outcome LocalTZA legacy doc) _ Hp)
    as (_ & _ & _ & Hid & _).
  unfold writeEvent. destruct (slugTaken doc' db); [discriminate|].
  intros _. exists doc'. cbn. now rewrite Hid.
Qed.




(** X13. A booking for an event that has just been saved, with an email
    that passes the rule, is accepted and written. *)
Theorem saveBooking_after_saveEvent
  (doc : EventModel.EventDocument) (booking : BookingModel.BookingDocument)
  (db : Database) :
  snd (saveEvent LocalTZA legacy doc db) = None ->
  BookingModel.validate booking = [] ->
  BookingModel.eventId booking = EventModel._id doc ->
  let saved := fst (saveEvent LocalTZA legacy doc db) in
  snd (saveBooking booking saved) = None
  /\ bookings (fst (saveBooking booking saved)) = (bookings db ++ [booking])%list.
Proof.
  intros H Hv Hev saved.
  destruct (saveEvent_written doc db H) as (doc' & Hp & Hid & He).
  assert (Hex : existsb (fun e => EventModel._id e =? BookingModel.eventId booking)
                  (events saved) = true).
  { apply existsb_exists. exists doc'. split.
    - subst saved. rewrite He. apply in_or_app. right. now left.
    - apply Z.eqb_eq. congruence. }
  destruct (saveBooking_writes booking saved Hv Hex) as (H1 & H2).
  split; [exact H1|]. rewrite H2. f_equal.
  subst saved. unfold saveEvent.
  destruct (EventModel.validate doc); [|reflexivity].
  destruct (EventModel.preSave LocalTZA legacy doc); [|reflexivity].
  unfold writeEvent. now destruct (slugTaken _ db).
Qed.

(** X14. An event with an empty agenda or without tags is refused by the
    rules of the schema, with the message of the path, before the hook
    runs: nothing is written, nothing is read. *)
Theorem saveEvent_empty_arrays (doc : EventModel.EventDocument) (db : Database) :
  (EventModel.agenda doc = [] ->
   exists errors,
     saveEvent LocalTZA legacy doc db = (db, Some (ValidationError errors))
     /\ In ("agenda", "Agenda must contain at least one item") errors)
  /\ (EventModel.tags doc = [] ->
      exists errors,
        saveEvent LocalTZA legacy doc db = (db, Some (ValidationError errors))
        /\ In ("tags", "Tags must contain at least one tag") errors).
Proof.
  assert (Hsave : forall e, In e (EventModel.validate doc) ->
            exists errors,
              saveEvent LocalTZA legacy doc db = (db, Some (ValidationError errors))
              /\ In e errors).
  { intros e He. unfold saveEvent.
    destruct (EventModel.validate doc) as [|e0 errors]; [contradiction|].
    now exists (e0 :: errors). }
  split; intros H; apply Hsave; unfold EventModel.validate; rewrite H;
    repeat (apply in_or_app; first [left; now left | right]).
  now left.
Qed.

End Saving.

Lemma techConference_saved :
  snd (saveEvent utc noLegacy techConference emptyDatabase) = None.
Proof. vm_compute. reflexivity. Qed.

Lemma save_failure_writes_nothing_witness :
  snd (saveEvent utc noLegacy (withoutAgenda techConference) emptyDatabase) <> None
  /\ events (fst (saveEvent utc noLegacy (withoutAgenda techConference) emptyDatabase))
     = [].
Proof.
  assert (H : snd (saveEvent utc noLegacy (withoutAgenda techConference)
                     emptyDatabase) <> None)
    by (vm_compute; discriminate).
  split; [exact H|].
  exact (proj1 (save_failure_writes_nothing utc noLegacy
                  (withoutAgenda techConference)
                  (BookingModel.newBooking 1 1 "a@b.c") emptyDatabase) H).
Defined.



Lemma saveBooking_after_saveEvent_witness :
  snd (saveEvent utc noLegacy techConference emptyDatabase) = None
  /\ BookingModel.validate (BookingModel.newBooking 5 1 "User@Example.com") = []
  /\ snd (saveBooking (BookingModel.newBooking 5 1 "User@Example.com")
            (fst (saveEvent utc noLegacy techConference emptyDatabase))) = None.
Proof.
  split; [exact techConference_saved|]. split; [reflexivity|].
  apply (saveBooking_after_saveEvent utc noLegacy techConference
           (BookingModel.newBooking 5 1 "User@Example.com") emptyDatabase
           techConference_saved); reflexivity.
Defined.

Lemma saveEvent_empty_arrays_witness :
  EventModel.agenda (withoutAgenda techConference) = []
  /\ exists errors,
       saveEvent utc noLegacy (withoutAgenda techConference) emptyDatabase
       = (emptyDatabase, Some (ValidationError errors))
       /\ In ("agenda", "Agenda must contain at least one item") errors.
Proof.
  split; [reflexivity|].
  apply (proj1 (saveEvent_empty_arrays utc noLegacy (withoutAgenda techConference)
                  emptyDatabase)).
  reflexivity.
Defined.

(** ** The pattern of an email *)

Lemma spanPlain_spec (s : string) :
  s = fst (BookingModel.spanPlain s) ++ snd (BookingModel.spanPlain s)
  /\ JS.allChars BookingModel.isPlain (fst (BookingModel.spanPlain s)) = true.
Proof.
  induction s as [|c s [IH1 IH2]]; [now split|].
  cbn [BookingModel.spanPlain].
  destruct (BookingModel.isPlain c) eqn:Hc; [|now split].
  destruct (BookingModel.spanPlain s) as [w r]. cbn [fst snd] in *.
  cbn [append JS.allChars]. rewrite Hc, IH2. split; [congruence | reflexivity].
Qed.

Lemma spanPlain_stop (a : string) (c : ascii) (r : string) :
  JS.allChars BookingModel.isPlain a = true -> BookingModel.isPlain c = false ->
  BookingModel.spanPlain (a ++ String c r) = (a, String c r).
Proof.
  intros Ha Hc. induction a as [|x a IH]; cbn [append BookingModel.spanPlain].
  - now rewrite Hc.
  - cbn [JS.allChars] in Ha. apply andb_true_iff in Ha as [Hx Ha].
    now rewrite Hx, (IH Ha).
Qed.

Lemma spanPlain_all (a : string) :
  JS.allChars BookingModel.isPlain a = true -> BookingModel.spanPlain a = (a, "").
Proof.
  intros Ha. induction a as [|x a IH]; [reflexivity|].
  cbn [JS.allChars] in Ha. apply andb_true_iff in Ha as [Hx Ha].
  cbn [BookingModel.spanPlain]. now rewrite Hx, (IH Ha).
Qed.

Lemma dotBeforeLast_cons (c : ascii) (s : string) :
  s <> "" ->
  BookingModel.dotBeforeLast (String c s)
  = Ascii.eqb c "." || BookingModel.dotBeforeLast s.
Proof. destruct s; [congruence | reflexivity]. Qed.

Lemma dotBeforeLast_split (s : string) :
  BookingModel.dotBeforeLast s = true
  <-> exists before after, s = before ++ "." ++ after /\ after <> "".
Proof.
  split.
  - induction s as [|c s IH]; [discriminate|].
    destruct s as [|d s]; [discriminate|].
    rewrite dotBeforeLast_cons by discriminate. intros H.
    apply orb_true_iff in H as [H|H].
    + apply Ascii.eqb_eq in H. subst c.
      exists "", (String d s). split; [reflexivity | discriminate].
    + destruct (IH H) as (before & after & E & Hne).
      exists (String c before), after. split; [|exact Hne].
      cbn [append]. now rewrite E.
  - intros (before & after & -> & Hne).
    induction before as [|c before IH]; cbn [append].
    + destruct after; [congruence | reflexivity].
    + rewrite dotBeforeLast_cons.
      * cbn [append] in IH. rewrite IH. apply orb_true_r.
      * destruct before; discriminate.
Qed.

(** X15. [EMAIL_RE] accepts exactly the strings [local@domain.tld] where
    the three parts are not empty and have neither white space nor [@];
    they may have full stops.  So an accepted email has one [@] and no
    white space, and a full stop after the [@] that is neither next to it
    nor last. *)
Theorem EMAIL_RE_shape (v : string) :
  BookingModel.EMAIL_RE_test v = true
  <-> exists local domain tld,
        v = local ++ "@" ++ domain ++ "." ++ tld
        /\ local <> "" /\ domain <> "" /\ tld <> ""
        /\ JS.allChars BookingModel.isPlain local = true
        /\ JS.allChars BookingModel.isPlain domain = true
        /\ JS.allChars BookingModel.isPlain tld = true.
Proof.
  unfold BookingModel.EMAIL_RE_test. split.
  - destruct (spanPlain_spec v) as [Ev Hl].
    destruct (BookingModel.spanPlain v) as [local r]. cbn [fst snd] in *.
    intros H. apply andb_true_iff in H as [Hne H].
    destruct r as [|c rest]; [discriminate|].
    apply andb_true_iff in H as [Hc H]. apply Ascii.eqb_eq in Hc. subst c.
    destruct (spanPlain_spec rest) as [Er Hd].
    destruct (BookingModel.spanPlain rest) as [d r']. cbn [fst snd] in *.
    apply andb_true_iff in H as [He Hdot].
    destruct r'; [|discriminate]. rewrite append_empty_r in Er. subst rest.
    destruct d as [|x d]; [discriminate|]. cbn [BookingModel.innerDot] in Hdot.
    apply dotBeforeLast_split in Hdot as (before & after & -> & Hafter).
    change (String x (before ++ "." ++ after))
      with (String x before ++ "." ++ after) in *.
    rewrite !allChars_append in Hd.
    apply andb_true_iff in Hd as [Hd1 Hd2]. apply andb_true_iff in Hd2 as [_ Hd2].
    exists local, (String x before), after.
    repeat split; try assumption; try discriminate.
    now destruct local.
  - intros (local & domain & tld & -> & Hl & Hd & Ht & Pl & Pd & Pt).
    change (local ++ "@" ++ domain ++ "." ++ tld)
      with (local ++ String "@" (domain ++ "." ++ tld)).
    rewrite (spanPlain_stop local "@" _ Pl eq_refl).
    assert (Pall : JS.allChars BookingModel.isPlain (domain ++ "." ++ tld) = true).
    { rewrite !allChars_append, Pd, Pt. reflexivity. }
    rewrite (spanPlain_all _ Pall). cbn [JS.isEmpty andb Ascii.eqb Bool.eqb].
    destruct local; [congruence|]. cbn [JS.isEmpty negb andb].
    destruct domain as [|x domain]; [congruence|].
    cbn [append BookingModel.innerDot].
    apply dotBeforeLast_split. now exists domain, tld.
Qed.

(** ** The email as it is stored *)

Lemma toLowerChar_idempotent (c : ascii) :
  JS.toLowerChar (JS.toLowerChar c) = JS.toLowerChar c.
Proof. by_cases_on_char c. Qed.

Lemma toLowerCase_idempotent (s : string) :
  JS.toLowerCase (JS.toLowerCase s) = JS.toLowerCase s.
Proof.
  induction s as [|c s IH]; [reflexivity|].
  cbn [JS.toLowerCase]. now rewrite toLowerChar_idempotent, IH.
Qed.

Lemma trimEnd_idempotent (s : string) :
  JS.trimEnd (JS.trimEnd s) = JS.trimEnd s.
Proof.
  induction s as [|c s IH]; [reflexivity|].
  rewrite (trimEnd_cons c s).
  destruct (JS.trimEnd s) as [|d r] eqn:E.
  - destruct (JS.isWhiteSpace c) eqn:Hc; [reflexivity|].
    cbn. now rewrite Hc.
  - rewrite trimEnd_cons, IH. reflexivity.
Qed.

Lemma trimStart_trimEnd (s : string) :
  JS.trimStart s = s -> JS.trimStart (JS.trimEnd s) = JS.trimEnd s.
Proof.
  destruct s as [|c s]; [reflexivity|].
  cbn [JS.trimStart]. destruct (JS.isWhiteSpace c) eqn:Hc.
  - intros H. exfalso.
    assert (Hlen : forall u,
              (String.length (JS.trimStart u) <= String.length u)%nat).
    { induction u as [|x u IHu]; cbn; [lia|].
      destruct (JS.isWhiteSpace x); cbn; lia. }
    pose proof (Hlen s) as Hs. rewrite H in Hs. cbn in Hs. lia.
  - intros _. rewrite trimEnd_cons.
    destruct (JS.trimEnd s); rewrite ?Hc; cbn [JS.trimStart]; now rewrite Hc.
Qed.

Lemma trimStart_idempotent (s : string) :
  JS.trimStart (JS.trimStart s) = JS.trimStart s.
Proof.
  induction s as [|c s IH]; [reflexivity|].
  cbn [JS.trimStart]. destruct (JS.isWhiteSpace c) eqn:Hc; [exact IH|].
  cbn [JS.trimStart]. now rewrite Hc.
Qed.

Lemma trim_idempotent (s : string) : JS.trim (JS.trim s) = JS.trim s.
Proof.
  unfold JS.trim.
  rewrite (trimStart_trimEnd _ (trimStart_idempotent s)).
  apply trimEnd_idempotent.
Qed.

(** X16. The setters of the email are idempotent, and the rule does not
    see them: an email read back from a booking and set again is stored
    as it was, and whether an address is accepted depends neither on the
    case of its letters nor on the white space around it. *)
Theorem setEmail_stable (v : string) :
  BookingModel.setEmail (BookingModel.setEmail v) = BookingModel.setEmail v
  /\ BookingModel.EMAIL_RE_test (BookingModel.setEmail v)
     = BookingModel.EMAIL_RE_test (JS.trim v).
Proof.
  unfold BookingModel.setEmail. split.
  - rewrite !trim_toLowerCase, toLowerCase_idempotent, trim_idempotent.
    reflexivity.
  - now rewrite trim_toLowerCase, EMAIL_RE_toLowerCase.
Qed.

(** ** The connection helper *)

Module ConnectionFacts.

Import Connection.

Lemma removeNth_Forall {A : Type} (P : A -> Prop) (k : nat) (l : list A) :
  Forall P l -> Forall P (removeNth k l).
Proof.
  revert k. induction l as [|a l IH]; intros k H; [destruct k; constructor|].
  inversion H; subst. destruct k; cbn; [assumption|].
  constructor; auto.
Qed.

(** One action keeps [connectedOnce]; what it returns is what the promise
    has resolved to; and a settled promise stays as it is. *)
Lemma step_connectedOnce (a : action) (rt rt' : Runtime) (outs : list outcome) :
  connectedOnce rt -> staysConnected a = true ->
  step a rt = Some (rt', outs) ->
  connectedOnce rt'
  /\ (forall m, In (Returned m) outs -> promises rt' = [Resolved m])
  /\ (forall s, s <> Pending -> promises rt = [s] -> promises rt' = [s]).
Proof.
  intros Hinv Hstay Hstep. destruct a as [uri|p s|k| |r]; cbn in Hstep.
  - (* CallConnect *)
    unfold callConnect in Hstep.
    destruct Hinv as [(Hp & Hps & Hc & Hconn & Hw)|(s & u & Hp & Hps & Hc & Hw & Hconn)].
    + rewrite Hconn, Hp in Hstep.
      destruct (uriMissing uri); injection Hstep as <- <-.
      * split; [left; tauto|]. split; [intros m [H|[]]; discriminate|]. auto.
      * split.
        { right. exists Pending, (uriText uri). cbn. rewrite Hps, Hc, Hw.
          repeat split; auto; [now constructor | discriminate]. }
        split; [intros m []|]. cbn. rewrite Hps. discriminate.
    + destruct (conn (cache rt)) as [m|] eqn:Ec.
      * injection Hstep as <- <-.
        split; [right; exists s, u; rewrite Ec; auto|].
        split; [|auto]. intros m' [H|[]]. injection H as <-.
        now rewrite Hps, (Hconn m eq_refl).
      * rewrite Hp in Hstep. destruct (uriMissing uri); injection Hstep as <- <-.
        { split; [right; exists s, u; rewrite Ec; auto|].
          split; [intros m [H|[]]; discriminate | auto]. }
        { split.
          - right. exists s, u. cbn. rewrite Ec.
            repeat split; auto. apply Forall_app. split; [exact Hw|].
            now constructor.
          - split; [intros m []|]. cbn. auto. }
  - (* Settle *)
    unfold settle in Hstep.
    destruct Hinv as [(Hp & Hps & Hc & Hconn & Hw)|(s0 & u & Hp & Hps & Hc & Hw & Hconn)].
    + rewrite Hps in Hstep. destruct p; discriminate.
    + rewrite Hps in Hstep. destruct p as [|p]; [|destruct p; discriminate].
      cbn in Hstep. destruct s0; try discriminate.
      assert (Hnone : conn (cache rt) = None).
      { destruct (conn (cache rt)) as [m|]; [|reflexivity].
        discriminate (Hconn m eq_refl). }
      destruct s as [|m|msg]; [discriminate| |]; injection Hstep as <- <-;
        (split;
         [ right; eexists; exists u; cbn; rewrite Hnone;
           repeat split; auto; discriminate
         | split; [intros ? []|]; cbn;
           intros s' Hs' E; rewrite Hps in E; congruence ]).
  - (* ResumeConnect *)
    unfold resumeConnect in Hstep.
    destruct (nth_error (awaiting rt) k) as [p|] eqn:Ek; [|discriminate].
    destruct Hinv as [(Hp & Hps & Hc & Hconn & Hw)|(s & u & Hp & Hps & Hc & Hw & Hconn)].
    + rewrite Hw in Ek. destruct k; discriminate.
    + assert (p = 0%nat).
      { apply nth_error_In in Ek. rewrite Forall_forall in Hw. auto. }
      subst p. rewrite Hps in Hstep. cbn in Hstep.
      destruct s as [|m|msg]; [discriminate| |]; injection Hstep as <- <-.
      * split.
        { right. exists (Resolved m), u. cbn.
          repeat split; auto using removeNth_Forall. now intros m' [= <-]. }
        split; [|intros; cbn; congruence]. intros m' [H|[]]. now injection H as <-.
      * split.
        { right. exists (Rejected msg), u. cbn.
          repeat split; auto using removeNth_Forall. }
        split; [intros m' [H|[]]; discriminate | intros; cbn; congruence].
  - (* CallDisconnect *)
    injection Hstep as <- <-. split; [|split; [intros m []|auto]].
    destruct Hinv as [H|(s & u & H)]; [left|right; exists s, u]; exact H.
  - (* ResumeDisconnect *)
    unfold resumeDisconnect in Hstep.
    destruct (disconnecting rt); [discriminate|].
    destruct r as [|msg]; [discriminate|]. injection Hstep as <- <-.
    split; [|split; [intros m [H|[]]; discriminate | auto]].
    destruct Hinv as [H|(s & u & H)]; [left|right; exists s, u]; exact H.
Qed.

Lemma run_connectedOnce (actions : list action) :
  forall rt rt' outs,
    connectedOnce rt -> forallb staysConnected actions = true ->
    run actions rt = Some (rt', outs) ->
    connectedOnce rt'
    /\ (forall m, In (Returned m) outs -> promises rt' = [Resolved m])
    /\ (forall s, s <> Pending -> promises rt = [s] -> promises rt' = [s]).
Proof.
  induction actions as [|a actions IH]; intros rt rt' outs Hinv Hstay Hrun.
  - injection Hrun as <- <-. split; [exact Hinv|]. split; [intros m []|auto].
  - cbn in Hstay, Hrun. apply andb_true_iff in Hstay as [Ha Hstay].
    destruct (step a rt) as [[rt1 outs1]|] eqn:Es; [|discriminate].
    destruct (run actions rt1) as [[rt2 outs2]|] eqn:Er; [|discriminate].
    injection Hrun as <- <-.
    destruct (step_connectedOnce _ _ _ _ Hinv Ha Es) as (Hinv1 & Hret1 & Hkeep1).
    destruct (IH _ _ _ Hinv1 Hstay Er) as (Hinv2 & Hret2 & Hkeep2).
    split; [exact Hinv2|]. split.
    + intros m Hm. apply in_app_or in Hm as [Hm|Hm]; [|auto].
      apply Hkeep2; [discriminate | auto].
    + intros s Hs Hps. auto.
Qed.

Lemma initial_connectedOnce : connectedOnce initial.
Proof. left. repeat split. Qed.

End ConnectionFacts.

(** X17. However the calls of [connectToDatabase] and the settling of the
    promise are interleaved, as long as no [disconnectDatabase] has
    completed: [mongoose.connect] is called at most once, and every call
    that returns returns the same instance. *)
Theorem connectToDatabase_connects_once
  (actions : list Connection.action) (rt : Connection.Runtime)
  (outs : list Connection.outcome) :
  forallb Connection.staysConnected actions = true ->
  Connection.run actions Connection.initial = Some (rt, outs) ->
  (List.length (Connection.connectCalls rt) <= 1)%nat
  /\ forall m1 m2,
       In (Connection.Returned m1) outs -> In (Connection.Returned m2) outs ->
       m1 = m2.
Proof.
  intros Hstay Hrun.
  destruct (ConnectionFacts.run_connectedOnce _ _ _ _
              ConnectionFacts.initial_connectedOnce Hstay Hrun)
    as (Hinv & Hret & _).
  split.
  - destruct Hinv as [(_ & _ & -> & _)|(s & u & _ & _ & -> & _)]; cbn; lia.
  - intros m1 m2 H1 H2. pose proof (Hret _ H1) as E1. pose proof (Hret _ H2) as E2.
    congruence.
Qed.

Module RejectedFacts.

Import Connection.

(** Once the promise is rejected, an action asks nothing more of Mongoose
    and ends no call otherwise than by an exception. *)
Lemma step_rejected (a : action) (rt rt' : Runtime) (outs : list outcome)
  (e : string) :
  connectedOnce rt -> promises rt = [Rejected e] ->
  staysConnected a = true -> step a rt = Some (rt', outs) ->
  connectCalls rt' = connectCalls rt
  /\ Forall (fun o => exists msg, o = Threw msg) outs.
Proof.
  intros Hinv Hps Hstay Hstep.
  destruct Hinv as [(_ & Hnil & _)|(s & u & Hp & Hps' & Hc & Hw & Hconn)];
    [congruence|].
  assert (s = Rejected e) by congruence. subst s.
  assert (Hnone : conn (cache rt) = None).
  { destruct (conn (cache rt)) as [m|]; [|reflexivity].
    discriminate (Hconn m eq_refl). }
  destruct a as [uri|p s|k| |r]; cbn in Hstep.
  - unfold callConnect in Hstep. rewrite Hnone, Hp in Hstep.
    destruct (uriMissing uri); injection Hstep as <- <-; split; auto.
    constructor; [now exists uriMessage | constructor].
  - unfold settle in Hstep. rewrite Hps in Hstep.
    destruct p as [|p]; [|destruct p; discriminate]. discriminate.
  - unfold resumeConnect in Hstep.
    destruct (nth_error (awaiting rt) k) as [p|] eqn:Ek; [|discriminate].
    assert (p = 0%nat).
    { apply nth_error_In in Ek. rewrite Forall_forall in Hw. auto. }
    subst p. rewrite Hps in Hstep. cbn in Hstep. injection Hstep as <- <-.
    split; [reflexivity|]. constructor; [now exists e | constructor].
  - injection Hstep as <- <-. split; auto.
  - unfold resumeDisconnect in Hstep.
    destruct (disconnecting rt); [discriminate|].
    destruct r as [|msg]; [discriminate|]. injection Hstep as <- <-.
    split; [reflexivity|]. constructor; [now exists msg | constructor].
Qed.

Lemma run_rejected (actions : list action) (e : string) :
  forall rt rt' outs,
    connectedOnce rt -> promises rt = [Rejected e] ->
    forallb staysConnected actions = true ->
    run actions rt = Some (rt', outs) ->
    connectCalls rt' = connectCalls rt
    /\ Forall (fun o => exists msg, o = Threw msg) outs.
Proof.
  induction actions as [|a actions IH]; intros rt rt' outs Hinv Hps Hstay Hrun.
  - injection Hrun as <- <-. split; auto.
  - cbn in Hstay, Hrun. apply andb_true_iff in Hstay as [Ha Hstay].
    destruct (step a rt) as [[rt1 outs1]|] eqn:Es; [|discriminate].
    destruct (run actions rt1) as [[rt2 outs2]|] eqn:Er; [|discriminate].
    injection Hrun as <- <-.
    destruct (ConnectionFacts.step_connectedOnce _ _ _ _ Hinv Ha Es)
      as (Hinv1 & _ & Hkeep1).
    destruct (step_rejected _ _ _ _ _ Hinv Hps Ha Es) as (Hc1 & Ho1).
    assert (Hps1 : promises rt1 = [Rejected e])
      by (apply Hkeep1; [discriminate | exact Hps]).
    destruct (IH _ _ _ Hinv1 Hps1 Hstay Er) as (Hc2 & Ho2).
    split; [congruence|]. apply Forall_app. now split.
Qed.

End RejectedFacts.

(** X18. A failed connection attempt is never retried: once the promise of
    [mongoose.connect] is rejected, and as long as no [disconnectDatabase]
    has completed, whatever is called afterwards, [mongoose.connect] is not
    called again and every call that ends ends with an exception. *)
Theorem connectToDatabase_failure_is_kept
  (actions more : list Connection.action) (rt rt' : Connection.Runtime)
  (outs outs' : list Connection.outcome) (e : string) :
  forallb Connection.staysConnected actions = true ->
  Connection.run actions Connection.initial = Some (rt, outs) ->
  In (Connection.Rejected e) (Connection.promises rt) ->
  forallb Connection.staysConnected more = true ->
  Connection.run more rt = Some (rt', outs') ->
  Connection.connectCalls rt' = Connection.connectCalls rt
  /\ forall o, In o outs' -> exists msg, o = Connection.Threw msg.
Proof.
  intros Hstay Hrun Hin Hstay' Hrun'.
  destruct (ConnectionFacts.run_connectedOnce _ _ _ _
              ConnectionFacts.initial_connectedOnce Hstay Hrun)
    as (Hinv & _ & _).
  assert (Hps : Connection.promises rt = [Connection.Rejected e]).
  { destruct Hinv as [(_ & Hnil & _)|(s & u & _ & Hps & _)].
    - rewrite Hnil in Hin. destruct Hin.
    - rewrite Hps in Hin |- *. destruct Hin as [->|[]]. reflexivity. }
  destruct (RejectedFacts.run_rejected _ _ _ _ _ Hinv Hps Hstay' Hrun')
    as (Hc & Ho).
  split; [exact Hc|]. now apply Forall_forall.
Qed.


Lemma connectToDatabase_connects_once_witness :
  exists rt,
    Connection.run [Connection.CallConnect (Some "mongodb://localhost/events");
                    Connection.CallConnect (Some "mongodb://localhost/events");
                    Connection.Settle 0 (Connection.Resolved 7);
                    Connection.ResumeConnect 1;
                    Connection.ResumeConnect 0;
                    Connection.CallConnect None] Connection.initial
    = Some (rt, [Connection.Returned 7; Connection.Returned 7;
                 Connection.Returned 7])
    /\ (List.length (Connection.connectCalls rt) <= 1)%nat
    /\ forall m1 m2,
         In (Connection.Returned m1)
            [Connection.Returned 7; Connection.Returned 7; Connection.Returned 7] ->
         In (Connection.Returned m2)
            [Connection.Returned 7; Connection.Returned 7; Connection.Returned 7] ->
         m1 = m2.
Proof.
  eexists. split; [reflexivity|].
  apply (connectToDatabase_connects_once
           [Connection.CallConnect (Some "mongodb://localhost/events");
            Connection.CallConnect (Some "mongodb://localhost/events");
            Connection.Settle 0 (Connection.Resolved 7);
            Connection.ResumeConnect 1;
            Connection.ResumeConnect 0;
            Connection.CallConnect None]); reflexivity.
Defined.

Lemma connectToDatabase_failure_is_kept_witness :
  exists rt rt',
    Connection.run [Connection.CallConnect (Some "mongodb://localhost/events");
                    Connection.Settle 0 (Connection.Rejected "ECONNREFUSED");
                    Connection.ResumeConnect 0] Connection.initial
    = Some (rt, [Connection.Threw "ECONNREFUSED"])
    /\ Connection.run [Connection.CallConnect (Some "mongodb://localhost/events");
                       Connection.ResumeConnect 0] rt
       = Some (rt', [Connection.Threw "ECONNREFUSED"])
    /\ Connection.connectCalls rt' = Connection.connectCalls rt
    /\ forall o, In o [Connection.Threw "ECONNREFUSED"] ->
                 exists msg, o = Connection.Threw msg.
Proof.
  eexists. eexists. split; [reflexivity|]. split; [reflexivity|].
  apply (connectToDatabase_failure_is_kept
           [Connection.CallConnect (Some "mongodb://localhost/events");
            Connection.Settle 0 (Connection.Rejected "ECONNREFUSED");
            Connection.ResumeConnect 0]
           [Connection.CallConnect (Some "mongodb://localhost/events");
            Connection.ResumeConnect 0]
           _ _ [Connection.Threw "ECONNREFUSED"] _ "ECONNREFUSED");
    first [reflexivity | now left].
Defined.

